(** * Preference comparisons: a shallow embedding of
    [imitation/algorithms/preference_comparisons.py]

    The development follows the layout of the Python module: one Rocq
    [Module] per class, the methods under their Python names.

    Conventions of the embedding.
    - Python [int] is [Z]; sequences are [list]; a method that mutates
      [self] returns the new [self] next to its result.
    - An exception is a value of [exn]; a call returns [Ok v] or [Raise e].
    - numpy and torch floating-point tensors are lists of real numbers:
      float arithmetic is idealised as exact arithmetic in [R].  Where a
      statement depends on rounding, the lines concerned are given a second
      time as binary32 evaluates them, with the rounding of [Float32];
      overflow and NaN are outside the model.
    - A random generator is the stream of the raw draws it will deliver;
      a statement quantified over all streams covers every outcome. *)

From Stdlib Require Import String List ZArith Reals Lia Lra Bool.
Import ListNotations.

Set Implicit Arguments.
Local Open Scope Z_scope.

(* ================================================================= *)
(** ** Python prelude *)

Module Py.

Inductive exn : Type :=
| ValueError (msg : string)
| IndexError (msg : string)
| RuntimeError (msg : string)
| TypeError (msg : string)
| AssertionError.

Inductive result (A : Type) : Type :=
| Ok (a : A)
| Raise (e : exn).

Arguments Ok {A} a.
Arguments Raise {A} e.

Definition bind {A B} (r : result A) (k : A -> result B) : result B :=
  match r with
  | Ok a => k a
  | Raise e => Raise e
  end.

Definition is_ok {A} (r : result A) : bool :=
  match r with Ok _ => true | Raise _ => false end.

(** [len(l)] as a Python integer. *)
Definition len {A} (l : list A) : Z := Z.of_nat (length l).

(** Index normalisation of a slice bound, as CPython's
    [PySlice_AdjustIndices] does for a step of one: a negative bound counts
    from the end, and the bound is then clamped to [0, len]. *)
Definition adjust_index (n k : Z) : Z :=
  if k <? 0 then Z.max (k + n) 0 else Z.min k n.

(** [l[i:j]] *)
Definition slice {A} (l : list A) (i j : Z) : list A :=
  let n := len l in
  let i' := adjust_index n i in
  let j' := adjust_index n j in
  firstn (Z.to_nat (j' - i')) (skipn (Z.to_nat i') l).

(** [l[i]], with Python's negative indices. *)
Definition getitem {A} (l : list A) (i : Z) : result A :=
  let n := len l in
  let i' := if i <? 0 then i + n else i in
  if (i' <? 0) || (n <=? i') then Raise (IndexError "index out of range")
  else match nth_error l (Z.to_nat i') with
       | Some x => Ok x
       | None => Raise (IndexError "index out of range")
       end.

(** [sum(l)] on integers. *)
Definition sum (l : list Z) : Z := fold_left Z.add l 0.

(** [list(zip(it, it))] for a single iterator [it] over [l]: consecutive
    elements are paired, a trailing odd element is dropped. *)
Fixpoint zip_iter_self {A} (l : list A) : list (A * A) :=
  match l with
  | a :: b :: rest => (a, b) :: zip_iter_self rest
  | _ => []
  end.

(** The unpacking [a, b = zip( * pairs )] of a list of pairs into two names:
    it fails on an empty list, because [zip] of no arguments yields nothing. *)
Definition unzip2 {A B} (pairs : list (A * B)) : result (list A * list B) :=
  match pairs with
  | [] => Raise (ValueError "not enough values to unpack (expected 2, got 0)")
  | _ => Ok (List.split pairs)
  end.

End Py.

Import Py.

(* ================================================================= *)
(** ** [random.Random] *)

Module PyRandom.

(** The generator is the stream of its future raw draws. *)
Definition Random : Type := nat -> Z.

Definition next (g : Random) : Z * Random :=
  (g 0%nat, fun i => g (S i)).

(** [itertools.accumulate(weights)] *)
Fixpoint accumulate_from (acc : Z) (ws : list Z) : list Z :=
  match ws with
  | [] => []
  | w :: rest => (acc + w) :: accumulate_from (acc + w) rest
  end.

Definition accumulate (ws : list Z) : list Z := accumulate_from 0 ws.

(** [bisect.bisect_right(a, x, lo, hi)]: the loop
    [while lo < hi: mid = (lo+hi)//2; if x < a[mid]: hi = mid else: lo = mid+1].
    The interval shrinks at every turn, so [hi - lo] turns are enough. *)
Fixpoint bisect_loop (fuel : nat) (a : list Z) (x : Z) (lo hi : nat) : nat :=
  match fuel with
  | O => lo
  | S fuel' =>
      if (lo <? hi)%nat then
        let mid := ((lo + hi) / 2)%nat in
        if x <? nth mid a 0 then bisect_loop fuel' a x lo mid
        else bisect_loop fuel' a x (S mid) hi
      else lo
  end.

Definition bisect (a : list Z) (x : Z) (lo hi : nat) : nat :=
  bisect_loop (hi - lo) a x lo hi.

(** [rng.choices(population, weights, k=1)[0]].  CPython draws
    [random() * total], a float in [0, total), and bisects the cumulative
    weights with it; the weights here are integers, so only the integer part
    of the draw matters and the draw is taken as an integer below [total]. *)
Definition choices1 {A} (population : list A) (weights : list Z) (g : Random)
  : result A * Random :=
  let n := length population in
  let cum_weights := accumulate weights in
  if negb (length cum_weights =? n)%nat then
    (Raise (ValueError "The number of weights does not match the population"), g)
  else
    match last (map Some cum_weights) None with
    | None => (Raise (IndexError "list index out of range"), g)
    | Some total =>
        if total <=? 0 then
          (Raise (ValueError "Total of weights must be greater than zero"), g)
        else
          let (r, g') := next g in
          let idx := bisect cum_weights (r mod total) 0 (n - 1) in
          match nth_error population idx with
          | Some x => (Ok x, g')
          | None => (Raise (IndexError "list index out of range"), g')
          end
    end.

(** [rng.randint(a, b)]: an integer [N] with [a <= N <= b]. *)
Definition randint (a b : Z) (g : Random) : result Z * Random :=
  if b <? a then (Raise (ValueError "empty range for randrange()"), g)
  else
    let (r, g') := next g in
    (Ok (a + r mod (b - a + 1)), g').

End PyRandom.

(* ================================================================= *)
(** ** [imitation.util.logger] *)

Module Logger.

(** What the code hands to its logger.  Formatted texts are kept as the
    values that are interpolated into them. *)
Inductive message : Type :=
| Discarded (num_discarded prev_num_trajectories fragment_length : Z)
| FewerTransitionsThanNeeded
| SamplesWillContain (num_transitions available : Z)
| Collecting (sample_steps : Z)
| CreatingFragmentPairs
| GatheringPreferences
| DatasetNowContains (samples : Z)
| TrainingRewardModel
| TrainingAgent (agent_steps : Z).

Inductive event : Type :=
| log (m : message)
| warn (m : message)
| record (key : string) (value : R)
| accumulate_means_enter (prefix : string)
| accumulate_means_exit (prefix : string)
| dump (step : Z).

(** The logger is the list of the events it received, oldest first. *)
Definition HierarchicalLogger : Type := list event.

Definition emit (l : HierarchicalLogger) (e : event) : HierarchicalLogger :=
  l ++ [e].

End Logger.

(* ================================================================= *)
(** ** [imitation.data.types] *)

Module Types.

(** Modelled from the spec: the trajectory type of [imitation.data.types],
    which is not part of this file.  A trajectory holds [n+1] observations,
    [n] actions, optional per-step infos, [n] rewards and a terminal flag. *)
Record TrajectoryWithRew (Obs Act Info : Type) : Type := mkTrajectoryWithRew {
  obs : list Obs;
  acts : list Act;
  infos : option (list Info);
  rews : list R;
  terminal : bool
}.

Arguments mkTrajectoryWithRew {Obs Act Info} obs acts infos rews terminal.

Section Trajectory.
Context {Obs Act Info : Type}.
Local Abbreviation traj := (TrajectoryWithRew Obs Act Info).

(** Modelled from the spec: [len(traj)] is the number of actions. *)
Definition traj_len (t : traj) : Z := len (acts t).

(** Modelled from the spec: the invariant
    [len(obs) == len(acts) + 1 == len(rews) + 1] of a trajectory,
    with infos, when present, one per action. *)
Definition well_formed (t : traj) : Prop :=
  len (obs t) = len (acts t) + 1 /\
  len (rews t) = len (acts t) /\
  match infos t with
  | Some infs => len infs = len (acts t)
  | None => True
  end.

End Trajectory.

Definition TrajectoryWithRewPair (Obs Act Info : Type) : Type :=
  TrajectoryWithRew Obs Act Info * TrajectoryWithRew Obs Act Info.

End Types.

Import Types.

(* ================================================================= *)
(** ** [class RandomFragmenter] *)

Module RandomFragmenter.

Record t : Type := mk {
  fragment_length : Z;
  num_pairs : Z;
  rng : PyRandom.Random;
  warning_threshold : Z;
  logger : Logger.HierarchicalLogger
}.

(** [RandomFragmenter(fragment_length=50, num_pairs=50, seed=None,
    warning_threshold=10, custom_logger=None)] *)
Definition __init__ (g : PyRandom.Random) (l : Logger.HierarchicalLogger) : t :=
  mk 50 50 g 10 l.

Definition set_rng (self : t) (g : PyRandom.Random) : t :=
  mk (fragment_length self) (num_pairs self) g (warning_threshold self)
     (logger self).

Definition set_logger (self : t) (l : Logger.HierarchicalLogger) : t :=
  mk (fragment_length self) (num_pairs self) (rng self)
     (warning_threshold self) l.

Definition emit (self : t) (e : Logger.event) : t :=
  set_logger self (Logger.emit (logger self) e).

Section Call.
Context {Obs Act Info : Type}.
Local Abbreviation traj := (TrajectoryWithRew Obs Act Info).

(** The fragment built in the loop body from the drawn trajectory and the
    drawn start offset. *)
Definition fragment_of (self : t) (tr : traj) (start : Z) : traj :=
  let n := traj_len tr in
  let end_ := start + fragment_length self in
  let terminal := (end_ =? n) && terminal tr in
  mkTrajectoryWithRew
    (slice (obs tr) start (end_ + 1))
    (slice (acts tr) start end_)
    (match infos tr with
     | Some infs => Some (slice infs start end_)
     | None => None
     end)
    (slice (rews tr) start end_)
    terminal.

(** One turn of [for _ in range(2 * self.num_pairs)]. *)
Definition draw_fragment (self : t) (trajectories : list traj)
    (weights : list Z) (g : PyRandom.Random) : result traj * PyRandom.Random :=
  match PyRandom.choices1 trajectories weights g with
  | (Raise e, g1) => (Raise e, g1)
  | (Ok tr, g1) =>
      let n := traj_len tr in
      match PyRandom.randint 0 (n - fragment_length self) g1 with
      | (Raise e, g2) => (Raise e, g2)
      | (Ok start, g2) => (Ok (fragment_of self tr start), g2)
      end
  end.

(** The loop, [turns] turns of it, appending to [fragments]. *)
Fixpoint draw_fragments (turns : nat) (self : t) (trajectories : list traj)
    (weights : list Z) (g : PyRandom.Random) (fragments : list traj)
  : result (list traj) * PyRandom.Random :=
  match turns with
  | O => (Ok fragments, g)
  | S turns' =>
      match draw_fragment self trajectories weights g with
      | (Raise e, g') => (Raise e, g')
      | (Ok fragment, g') =>
          draw_fragments turns' self trajectories weights g'
            (fragments ++ [fragment])
      end
  end.

(** The trajectories that survive the length filter. *)
Definition long_enough (self : t) (trajectories : list traj) : list traj :=
  filter (fun tr => fragment_length self <=? traj_len tr) trajectories.

(** The log line about discarded trajectories. *)
Definition report_discarded (self : t) (prev_num_trajectories : Z)
    (trajectories : list traj) : t :=
  let num_discarded := prev_num_trajectories - len trajectories in
  if num_discarded =? 0 then self
  else emit self (Logger.log (Logger.Discarded num_discarded
                    prev_num_trajectories (fragment_length self))).

(** The two warnings about the number of available transitions. *)
Definition report_transitions (self : t) (weights : list Z) : t :=
  let num_transitions := 2 * num_pairs self * fragment_length self in
  if sum weights <? num_transitions then
    emit self (Logger.warn Logger.FewerTransitionsThanNeeded)
  else if negb (warning_threshold self =? 0)
          && (sum weights <? warning_threshold self * num_transitions) then
    emit self (Logger.warn
                 (Logger.SamplesWillContain num_transitions (sum weights)))
  else self.

Definition __call__ (self : t) (trajectories : list traj)
  : result (list (traj * traj)) * t :=
  let prev_num_trajectories := len trajectories in
  let trajectories := long_enough self trajectories in
  if len trajectories =? 0 then
    (Raise (ValueError
       "No trajectories are long enough for the desired fragment length"),
     self)
  else
    let self := report_discarded self prev_num_trajectories trajectories in
    let weights := map traj_len trajectories in
    let self := report_transitions self weights in
    match draw_fragments (Z.to_nat (2 * num_pairs self)) self trajectories
            weights (rng self) [] with
    | (Raise e, g) => (Raise e, set_rng self g)
    | (Ok fragments, g) => (Ok (zip_iter_self fragments), set_rng self g)
    end.

(** *** Vocabulary of the statements about the fragmenter *)

(** [f] is the fragment cut from one of [trajectories], long enough for a
    fragment, at a start offset inside [0, len(traj) - fragment_length]. *)
Definition drawn_from (self : t) (trajectories : list traj) (f : traj) : Prop :=
  exists tr start,
    In tr trajectories /\
    fragment_length self <= traj_len tr /\
    0 <= start <= traj_len tr - fragment_length self /\
    f = fragment_of self tr start.

(** [f] holds exactly the steps [start, start + fragment_length) of [tr],
    with the one observation that follows them. *)
Definition is_slice_of (self : t) (tr : traj) (start : Z) (f : traj) : Prop :=
  let k := Z.to_nat (fragment_length self) in
  let s := Z.to_nat start in
  acts f = firstn k (skipn s (acts tr)) /\
  rews f = firstn k (skipn s (rews tr)) /\
  obs f = firstn (S k) (skipn s (obs tr)).

Definition has_fragment_shape (self : t) (f : traj) : Prop :=
  len (acts f) = fragment_length self /\
  len (rews f) = fragment_length self /\
  len (obs f) = fragment_length self + 1.

End Call.

End RandomFragmenter.

(* ================================================================= *)
(** ** One-dimensional tensors of [numpy] and [torch] *)

Module Tensor.

Local Open Scope R_scope.

(** [a.sum()] *)
Definition sum (a : list R) : R := fold_right Rplus 0 a.

(** [a.mean()] *)
Definition mean (a : list R) : R := sum a / INR (length a).

(** [sign(x)] *)
Definition sign (x : R) : R :=
  if Rlt_dec x 0 then -1 else if Rlt_dec 0 x then 1 else 0.

(** [clip(x, lo, hi)], which numpy and torch both compute as
    [minimum(maximum(x, lo), hi)]. *)
Definition clip (x lo hi : R) : R := Rmin (Rmax x lo) hi.

(** [scipy.special.xlogy(x, y)]: [x * log(y)], and [0] when [x] is [0]. *)
Definition xlogy (x y : R) : R :=
  if Req_dec_T x 0 then 0 else x * ln y.

(** An elementwise binary operation on two one-dimensional tensors, with
    broadcasting: equal sizes pair up, a tensor of size one is stretched
    to the size of the other, anything else is refused. *)
Definition broadcast2 (f : R -> R -> R) (a b : list R) : result (list R) :=
  if (length a =? length b)%nat then
    Ok (map (fun p => f (fst p) (snd p)) (combine a b))
  else match a, b with
       | [x], _ => Ok (map (fun y => f x y) b)
       | _, [y] => Ok (map (fun x => f x y) a)
       | _, _ =>
           Raise (RuntimeError
             "The size of tensor a must match the size of tensor b")
       end.

Definition sub : list R -> list R -> result (list R) := broadcast2 Rminus.
Definition mul : list R -> list R -> result (list R) := broadcast2 Rmult.

(** [gamma ** arange(n)] *)
Definition powers (gamma : R) (n : nat) : list R :=
  map (fun k => gamma ^ k) (seq 0 n).

(** The logarithm as [torch.nn.functional.binary_cross_entropy] takes it:
    clamped from below at [-100], which is also its value at [0]. *)
Definition log_clamped (x : R) : R :=
  if Rle_dec x 0 then -100 else Rmax (ln x) (-100).

Definition in_unit_interval (x : R) : bool :=
  if Rle_dec 0 x then (if Rle_dec x 1 then true else false) else false.

(** [torch.nn.functional.binary_cross_entropy(input, target)] with the
    default mean reduction: the sizes must agree, every input must lie
    in [0, 1], and the loss of one entry is
    [-(y * log x + (1 - y) * log (1 - x))] with the clamped logarithm. *)
Definition binary_cross_entropy (input target : list R) : result R :=
  if negb (length target =? length input)%nat then
    Raise (ValueError
      "Using a target size that is different to the input size")
  else if negb (forallb in_unit_interval input) then
    Raise (RuntimeError "all elements of input should be between 0 and 1")
  else
    Ok (mean (map (fun p =>
                     - (snd p * log_clamped (fst p)
                        + (1 - snd p) * log_clamped (1 - fst p)))
                  (combine input target))).

End Tensor.

(* ================================================================= *)
(** ** Rounding to binary32, the [float32] of numpy *)

Module Float32.

Local Open Scope R_scope.






End Float32.

Module Np.

Inductive dtype : Type := float32 | float64.

Definition dtype_eqb (a b : dtype) : bool :=
  match a, b with
  | float32, float32 | float64, float64 => true
  | _, _ => false
  end.

(** [np.result_type] on the two float kinds. *)
Definition promote (a b : dtype) : dtype :=
  match a, b with
  | float32, float32 => float32
  | _, _ => float64
  end.

(** An array: its shape, its element kind and its elements in row order. *)
Record ndarray : Type := mk_ndarray {
  shape : list nat;
  dtype_of : dtype;
  data : list R
}.

(** [np.array(xs, dtype=dt)] of a flat sequence of scalars. *)
Definition array (dt : dtype) (xs : list R) : ndarray :=
  mk_ndarray [length xs] dt xs.

Fixpoint shape_eqb (s1 s2 : list nat) : bool :=
  match s1, s2 with
  | [], [] => true
  | n :: r1, m :: r2 => (n =? m)%nat && shape_eqb r1 r2
  | _, _ => false
  end.

(** [len(a)] *)
Definition len (a : ndarray) : result Z :=
  match shape a with
  | [] => Raise (TypeError "len() of unsized object")
  | n :: _ => Ok (Z.of_nat n)
  end.

(** [a[i]] for an integer [i] on a one-dimensional array. *)
Definition getitem (a : ndarray) (i : Z) : result R :=
  match shape a with
  | [_] => Py.getitem (data a) i
  | _ => Raise (IndexError "not a one-dimensional array")
  end.

(** [np.concatenate((a, b))] of two one-dimensional arrays. *)
Definition concatenate (a b : ndarray) : result ndarray :=
  match shape a, shape b with
  | [n], [m] =>
      Ok (mk_ndarray [(n + m)%nat] (promote (dtype_of a) (dtype_of b))
            (data a ++ data b))
  | _, _ =>
      Raise (ValueError
        "all the input arrays must have same number of dimensions")
  end.

(** The elements of an array are as many as its shape says. *)
Definition well_shaped (a : ndarray) : Prop :=
  length (data a) = fold_right Nat.mul 1%nat (shape a).

(** [np.random.Generator]: the stream of the uniform draws in [0, 1) that
    it will deliver. *)
Definition Generator : Type := nat -> R.

(** [rng.binomial(n=1, p=ps)]: one Bernoulli draw per probability. *)
Fixpoint binomial1 (ps : list R) (g : Generator) : list R * Generator :=
  match ps with
  | [] => ([], g)
  | p :: rest =>
      let u := g 0%nat in
      let (xs, g') := binomial1 rest (fun i => g (S i)) in
      ((if Rlt_dec u p then 1%R else 0%R) :: xs, g')
  end.

End Np.

(* ================================================================= *)
(** ** [imitation.data.rollout] *)

Module Rollout.

Local Open Scope R_scope.

Fixpoint discounted_from (gamma : R) (t : nat) (rews : list R) : R :=
  match rews with
  | [] => 0
  | r :: rest => gamma ^ t * r + discounted_from gamma (S t) rest
  end.

(** Modelled from the spec: [rollout.compute_returns], which is not part of
    this file; the return of a fragment is the sum over [t] of
    [discount^t * reward_t], the plain sum for a discount of one. *)
Definition compute_returns (rews : list R) (gamma : R) : R :=
  discounted_from gamma 0 rews.

End Rollout.

(* ================================================================= *)
(** ** [class SyntheticGatherer] *)

Module SyntheticGatherer.

Local Open Scope R_scope.

Record t : Type := mk {
  temperature : R;
  discount_factor : R;
  sample : bool;
  rng : Np.Generator;
  threshold : R;
  logger : Logger.HierarchicalLogger
}.

(** [SyntheticGatherer(temperature=1, discount_factor=1, sample=True,
    seed=0, threshold=50, custom_logger=None)] *)
Definition __init__ (g : Np.Generator) (l : Logger.HierarchicalLogger) : t :=
  mk 1 1 true g 50 l.

Definition set_rng (self : t) (g : Np.Generator) : t :=
  mk (temperature self) (discount_factor self) (sample self) g
     (threshold self) (logger self).

Definition set_logger (self : t) (l : Logger.HierarchicalLogger) : t :=
  mk (temperature self) (discount_factor self) (sample self) (rng self)
     (threshold self) l.

Section Call.
Context {Obs Act Info : Type}.
Local Abbreviation traj := (TrajectoryWithRew Obs Act Info).

(** The return of the first and of the second fragment of a pair. *)
Definition return1 (self : t) (p : traj * traj) : R :=
  Rollout.compute_returns (rews (fst p)) (discount_factor self).

Definition return2 (self : t) (p : traj * traj) : R :=
  Rollout.compute_returns (rews (snd p)) (discount_factor self).

Definition _reward_sums (self : t) (fragment_pairs : list (traj * traj))
  : result (list R * list R) :=
  unzip2 (map (fun p => (return1 self p, return2 self p)) fragment_pairs).

(** The probabilities of the softmax branch, from the two arrays of
    returns already divided by the temperature. *)
Definition model_probs_of (self : t) (returns1 returns2 : list R)
  : result (list R) :=
  bind (Tensor.sub returns2 returns1) (fun diff =>
  let returns_diff :=
    map (fun d => Tensor.clip d (- threshold self) (threshold self)) diff in
  Ok (map (fun d => 1 / (1 + exp d)) returns_diff)).

Definition entropy_of (model_probs : list R) : R :=
  - Tensor.mean
      (map (fun p => Tensor.xlogy p p + Tensor.xlogy (1 - p) (1 - p))
           model_probs).

Definition __call__ (self : t) (fragment_pairs : list (traj * traj))
  : result Np.ndarray * t :=
  match _reward_sums self fragment_pairs with
  | Raise e => (Raise e, self)
  | Ok (returns1, returns2) =>
      if Req_dec_T (temperature self) 0 then
        match Tensor.sub returns1 returns2 with
        | Raise e => (Raise e, self)
        | Ok diff =>
            (Ok (Np.array Np.float32
                   (map (fun d => (Tensor.sign d + 1) / 2) diff)), self)
        end
      else
        let returns1 := map (fun r => r / temperature self) returns1 in
        let returns2 := map (fun r => r / temperature self) returns2 in
        match model_probs_of self returns1 returns2 with
        | Raise e => (Raise e, self)
        | Ok model_probs =>
            let entropy := entropy_of model_probs in
            let self :=
              set_logger self
                (Logger.emit (logger self) (Logger.record "entropy" entropy)) in
            if sample self then
              let (draws, g) := Np.binomial1 model_probs (rng self) in
              (Ok (Np.array Np.float32 draws), set_rng self g)
            else (Ok (Np.array Np.float32 model_probs), self)
        end
  end.




End Call.

End SyntheticGatherer.

(* ================================================================= *)
(** ** [class PreferenceDataset] *)

Module PreferenceDataset.

Section Dataset.
Context {Obs Act Info : Type}.
Local Abbreviation traj := (TrajectoryWithRew Obs Act Info).

Record t : Type := mk {
  fragments1 : list traj;
  fragments2 : list traj;
  preferences : Np.ndarray
}.

Definition __init__ : t := mk [] [] (Np.array Np.float64 []).

(** The statements of [push] run in order on the object: a failure of the
    last one leaves the two lists already extended. *)
Definition push (self : t) (fragments : list (traj * traj))
    (preferences_ : Np.ndarray) : result unit * t :=
  match unzip2 fragments with
  | Raise e => (Raise e, self)
  | Ok (fragments1_, fragments2_) =>
      if negb (Np.shape_eqb (Np.shape preferences_) [length fragments]) then
        (Raise (ValueError "Unexpected preferences shape"), self)
      else if negb (Np.dtype_eqb (Np.dtype_of preferences_) Np.float32) then
        (Raise (ValueError "preferences should have dtype float32"), self)
      else
        let self1 := mk (fragments1 self ++ fragments1_) (fragments2 self)
                        (preferences self) in
        let self2 := mk (fragments1 self1) (fragments2 self1 ++ fragments2_)
                        (preferences self1) in
        match Np.concatenate (preferences self2) preferences_ with
        | Raise e => (Raise e, self2)
        | Ok joined =>
            (Ok tt, mk (fragments1 self2) (fragments2 self2) joined)
        end
  end.

Definition __getitem__ (self : t) (i : Z) : result ((traj * traj) * R) :=
  bind (Py.getitem (fragments1 self) i) (fun f1 =>
  bind (Py.getitem (fragments2 self) i) (fun f2 =>
  bind (Np.getitem (preferences self) i) (fun p =>
  Ok ((f1, f2), p)))).

(** The assertion is a chained comparison: the length of the array is
    only asked for when the two lists agree. *)
Definition __len__ (self : t) : result Z :=
  if (Py.len (fragments1 self) =? Py.len (fragments2 self))%Z then
    bind (Np.len (preferences self)) (fun n =>
    if (Py.len (fragments2 self) =? n)%Z
    then Ok (Py.len (fragments1 self))
    else Raise AssertionError)
  else Raise AssertionError.

(** *** Vocabulary of the statements about the dataset *)

(** The three stores hold the same number of entries, the preferences in
    a one-dimensional array. *)
Definition consistent (self : t) : Prop :=
  length (fragments1 self) = length (fragments2 self) /\
  Np.shape (preferences self) = [length (fragments1 self)] /\
  length (Np.data (preferences self)) = length (fragments1 self).

(** [self'] holds the entries of [self], in their order, followed by [k]
    more. *)
Definition extends_by (k : nat) (self self' : t) : Prop :=
  exists new1 new2 newp,
    length new1 = k /\ length new2 = k /\ length newp = k /\
    fragments1 self' = fragments1 self ++ new1 /\
    fragments2 self' = fragments2 self ++ new2 /\
    Np.data (preferences self') = Np.data (preferences self) ++ newp.

(** A caller that pushes one batch after the other and carries on after a
    push that raises: the dataset after all of them, and the number of
    pairs that the successful pushes brought. *)
Fixpoint push_all (self : t)
    (batches : list (list (traj * traj) * Np.ndarray)) : t :=
  match batches with
  | [] => self
  | (fragments, preferences_) :: rest =>
      push_all (snd (push self fragments preferences_)) rest
  end.

Fixpoint pushed (self : t)
    (batches : list (list (traj * traj) * Np.ndarray)) : Z :=
  match batches with
  | [] => 0
  | (fragments, preferences_) :: rest =>
      match push self fragments preferences_ with
      | (Ok _, self') => Py.len fragments + pushed self' rest
      | (Raise _, self') => pushed self' rest
      end
  end.

End Dataset.

Arguments t : clear implicits.

End PreferenceDataset.

(** [preference_collate_fn(batch)]: a batch of dataset items, unzipped into
    the list of fragment pairs and the list of preferences. *)
Definition preference_collate_fn {Obs Act Info : Type}
    (batch : list (TrajectoryWithRewPair Obs Act Info * R))
  : result (list (TrajectoryWithRewPair Obs Act Info) * list R) :=
  bind (unzip2 batch) (fun unzipped =>
  Ok (fst unzipped, snd unzipped)).

(* ================================================================= *)
(** ** [class CrossEntropyRewardTrainer] *)

Module CrossEntropyRewardTrainer.

Local Open Scope R_scope.

(** The fields that the preference model reads.  The reward network, the
    optimiser and the logger belong to the surroundings of this class. *)
Record t : Type := mk {
  noise_prob : R;
  batch_size : Z;
  epochs : Z;
  discount_factor : R;
  threshold : R
}.

(** [CrossEntropyRewardTrainer(model, noise_prob=0.0, batch_size=32,
    epochs=1, lr=1e-3, discount_factor=1.0, threshold=50)] *)
Definition __init__ : t := mk 0 32 1 1 50.

(** The difference of the returns, before it is clipped.  Both arguments
    are one-dimensional by their type, which is what the assertion on
    [ndim] asks for. *)
Definition returns_diff (self : t) (rews1 rews2 : list R) : result R :=
  if Req_dec_T (discount_factor self) 1 then
    bind (Tensor.sub rews2 rews1) (fun d => Ok (Tensor.sum d))
  else
    let discounts := Tensor.powers (discount_factor self) (length rews1) in
    bind (Tensor.sub rews2 rews1) (fun d =>
    bind (Tensor.mul discounts d) (fun weighted =>
    Ok (Tensor.sum weighted))).

(** The probability of the preference model for a clipped difference of
    returns. *)
Definition softmax_first (self : t) (diff : R) : R :=
  1 / (1 + exp (Tensor.clip diff (- threshold self) (threshold self))).

Definition _probability (self : t) (rews1 rews2 : list R) : result R :=
  bind (returns_diff self rews1 rews2) (fun diff =>
  let diff := Tensor.clip diff (- threshold self) (threshold self) in
  let model_probability := 1 / (1 + exp diff) in
  Ok (noise_prob self * (1 / 2) + (1 - noise_prob self) * model_probability)).

Section Loss.
Context {Obs Act Info : Type}.

(** [self._rewards(rollout.flatten_trajectories([frag]))]: the rewards that
    the reward network predicts for the transitions of a fragment.  The
    network belongs to the surroundings. *)
Variable _rewards : TrajectoryWithRew Obs Act Info -> list R.

(** The loop of [_loss] that fills [probs], pair by pair. *)
Fixpoint probabilities (self : t)
    (fragment_pairs : list (TrajectoryWithRewPair Obs Act Info))
  : result (list R) :=
  match fragment_pairs with
  | [] => Ok []
  | fragment :: rest =>
      let frag1 := fst fragment in
      let frag2 := snd fragment in
      let rews1 := _rewards frag1 in
      let rews2 := _rewards frag2 in
      bind (_probability self rews1 rews2) (fun p =>
      bind (probabilities self rest) (fun ps =>
      Ok (p :: ps)))
  end.

Definition _loss (self : t)
    (fragment_pairs : list (TrajectoryWithRewPair Obs Act Info))
    (preferences : list R) : result R :=
  bind (probabilities self fragment_pairs) (fun probs =>
  Tensor.binary_cross_entropy probs preferences).

End Loss.

End CrossEntropyRewardTrainer.

(* ================================================================= *)
(** ** [class PreferenceComparisons] *)

Module PreferenceComparisons.

Section Orchestrator.
Context {Obs Act Info : Type}.
Local Abbreviation traj := (TrajectoryWithRew Obs Act Info).

(** The surroundings of the orchestrator: the trajectory generator with its
    policy, the reward network with the trainer's optimiser, and the
    horizon bookkeeping of the base class.  Their state is [Ext]; a call
    into them may raise, changes [Ext] and may write to the shared logger. *)
Variable Ext : Type.

Definition ext_call (A : Type) : Type :=
  Ext -> Logger.HierarchicalLogger ->
  result A * Ext * Logger.HierarchicalLogger.

Variable trajectory_generator_sample : Z -> ext_call (list traj).
Variable _check_fixed_horizon : list traj -> ext_call unit.
Variable reward_trainer_train :
  PreferenceDataset.t Obs Act Info -> ext_call unit.
Variable trajectory_generator_train : Z -> ext_call unit.

(** All components log to the one logger of the orchestrator: the logger
    is kept here and lent to a component for the time of a call. *)
Record t : Type := mk {
  ext : Ext;
  logger : Logger.HierarchicalLogger;
  fragmenter : RandomFragmenter.t;
  preference_gatherer : SyntheticGatherer.t;
  sample_steps : Z;
  agent_steps : Z;
  dataset : PreferenceDataset.t Obs Act Info
}.

(** The constructor.  A component that is not passed is built with its
    defaults, from the entropy that seeds its generator. *)
Definition __init__ (e : Ext) (sample_steps_ : Z) (agent_steps_ : option Z)
    (fragmenter_ : option RandomFragmenter.t)
    (preference_gatherer_ : option SyntheticGatherer.t)
    (custom_logger : Logger.HierarchicalLogger)
    (fragmenter_entropy : PyRandom.Random)
    (gatherer_entropy : Np.Generator) : t :=
  let fr := match fragmenter_ with
            | Some f => f
            | None => RandomFragmenter.__init__ fragmenter_entropy custom_logger
            end in
  let ga := match preference_gatherer_ with
            | Some g => g
            | None => SyntheticGatherer.__init__ gatherer_entropy custom_logger
            end in
  mk e custom_logger
     (RandomFragmenter.set_logger fr custom_logger)
     (SyntheticGatherer.set_logger ga custom_logger)
     sample_steps_
     (match agent_steps_ with Some a => a | None => sample_steps_ end)
     PreferenceDataset.__init__.

(** *** The monad of a method body: state [t], with exceptions *)

Definition M (A : Type) : Type := t -> result A * t.

Definition ret {A} (a : A) : M A := fun self => (Ok a, self).

Definition mbind {A B} (c : M A) (k : A -> M B) : M B :=
  fun self =>
    match c self with
    | (Ok a, self') => k a self'
    | (Raise e, self') => (Raise e, self')
    end.

Notation "x <- c ;; k" := (mbind c (fun x => k))
  (at level 61, c at next level, right associativity).
Notation "c ;;; k" := (mbind c (fun _ => k))
  (at level 61, right associativity).

Definition get {A} (proj : t -> A) : M A := fun self => (Ok (proj self), self).

Definition lift {A} (r : result A) : M A := fun self => (r, self).

Definition emit (e : Logger.event) : M unit :=
  fun self =>
    (Ok tt,
     mk (ext self) (Logger.emit (logger self) e) (fragmenter self)
        (preference_gatherer self) (sample_steps self) (agent_steps self)
        (dataset self)).

Definition call_ext {A} (c : ext_call A) : M A :=
  fun self =>
    match c (ext self) (logger self) with
    | (r, e', l') =>
        (r, mk e' l' (fragmenter self) (preference_gatherer self)
              (sample_steps self) (agent_steps self) (dataset self))
    end.

(** [with self.logger.accumulate_means(prefix): body]; the scope is left
    also when the body raises. *)
Definition accumulate_means {A} (prefix : string) (body : M A) : M A :=
  fun self =>
    match emit (Logger.accumulate_means_enter prefix) self with
    | (_, self1) =>
        match body self1 with
        | (r, self2) =>
            match emit (Logger.accumulate_means_exit prefix) self2 with
            | (_, self3) => (r, self3)
            end
        end
    end.

(** [self.fragmenter(trajectories)] *)
Definition call_fragmenter (trajectories : list traj)
  : M (list (traj * traj)) :=
  fun self =>
    let fr := RandomFragmenter.set_logger (fragmenter self) (logger self) in
    match RandomFragmenter.__call__ fr trajectories with
    | (r, fr') =>
        (r, mk (ext self) (RandomFragmenter.logger fr') fr'
              (preference_gatherer self) (sample_steps self)
              (agent_steps self) (dataset self))
    end.

(** [self.preference_gatherer(fragments)] *)
Definition call_gatherer (fragments : list (traj * traj)) : M Np.ndarray :=
  fun self =>
    let ga :=
      SyntheticGatherer.set_logger (preference_gatherer self) (logger self) in
    match SyntheticGatherer.__call__ ga fragments with
    | (r, ga') =>
        (r, mk (ext self) (SyntheticGatherer.logger ga') (fragmenter self)
              ga' (sample_steps self) (agent_steps self) (dataset self))
    end.

(** [self.dataset.push(fragments, preferences)] *)
Definition dataset_push (fragments : list (traj * traj))
    (preferences : Np.ndarray) : M unit :=
  fun self =>
    match PreferenceDataset.push (dataset self) fragments preferences with
    | (r, d') =>
        (r, mk (ext self) (logger self) (fragmenter self)
              (preference_gatherer self) (sample_steps self)
              (agent_steps self) d')
    end.

(** The body of [for i in range(iterations)]. *)
Definition train_iteration (i : Z) : M unit :=
  steps <- get sample_steps ;;
  emit (Logger.log (Logger.Collecting steps)) ;;;
  trajectories <- call_ext (trajectory_generator_sample steps) ;;
  call_ext (_check_fixed_horizon trajectories) ;;;
  emit (Logger.log Logger.CreatingFragmentPairs) ;;;
  fragments <- call_fragmenter trajectories ;;
  preferences <-
    accumulate_means "preferences"
      (emit (Logger.log Logger.GatheringPreferences) ;;;
       call_gatherer fragments) ;;
  dataset_push fragments preferences ;;;
  d <- get dataset ;;
  n <- lift (PreferenceDataset.__len__ d) ;;
  emit (Logger.log (Logger.DatasetNowContains n)) ;;;
  accumulate_means "reward"
    (emit (Logger.log Logger.TrainingRewardModel) ;;;
     d <- get dataset ;;
     call_ext (reward_trainer_train d)) ;;;
  accumulate_means "agent"
    (a <- get agent_steps ;;
     emit (Logger.log (Logger.TrainingAgent a)) ;;;
     call_ext (trajectory_generator_train a)) ;;;
  emit (Logger.dump i).

(** [turns] turns of the loop, the first with index [i]. *)
Fixpoint train_from (i : Z) (turns : nat) : M unit :=
  match turns with
  | O => ret tt
  | S turns' => train_iteration i ;;; train_from (i + 1) turns'
  end.

Definition train (iterations : Z) : M unit :=
  train_from 0 (Z.to_nat iterations).

(** *** Vocabulary of the statements about the loop *)

(** From every state in [P] the body [c] returns, with a result and a state
    in [Q]. *)
Definition returns {A} (c : M A) (P : t -> Prop) (Q : A -> t -> Prop) : Prop :=
  forall self, P self -> exists a self', c self = (Ok a, self') /\ Q a self'.

(** The state holds the dataset [d], and its fragmenter cuts fragments of
    length [FL] and returns [NP] pairs. *)
Definition holds (FL NP : Z) (d : PreferenceDataset.t Obs Act Info)
    (self : t) : Prop :=
  dataset self = d /\
  RandomFragmenter.fragment_length (fragmenter self) = FL /\
  RandomFragmenter.num_pairs (fragmenter self) = NP.

(** However the body [c] ends, it leaves a consistent dataset consistent
    and with all its entries in place, possibly followed by new ones. *)
Definition append_only {A} (c : M A) : Prop :=
  forall self r self',
    c self = (r, self') ->
    PreferenceDataset.consistent (dataset self) ->
    PreferenceDataset.consistent (dataset self') /\
    exists k, PreferenceDataset.extends_by k (dataset self) (dataset self').

(** What turn [i] of the loop asks of its surroundings, in order: a
    sample, the horizon check of it, a pass of the reward trainer over the
    dataset [d], and a pass of the trainer of the agent.  The state of the
    surroundings goes from each call to the next one, and the last call
    leaves it to [self'], which holds [d] as its dataset. *)
Definition calls_of_iteration (i : Z) (self : t)
    (d : PreferenceDataset.t Obs Act Info) (self' : t) : Prop :=
  exists trajectories e1 l1 e2 l2 l_pushed n e3 l3 e4 l4,
    trajectory_generator_sample (sample_steps self) (ext self)
      (logger self ++ [Logger.log (Logger.Collecting (sample_steps self))])
    = (Ok trajectories, e1, l1) /\
    _check_fixed_horizon trajectories e1 l1 = (Ok tt, e2, l2) /\
    PreferenceDataset.__len__ d = Ok n /\
    reward_trainer_train d e2
      (l_pushed ++ [Logger.log (Logger.DatasetNowContains n);
                    Logger.accumulate_means_enter "reward";
                    Logger.log Logger.TrainingRewardModel])
    = (Ok tt, e3, l3) /\
    trajectory_generator_train (agent_steps self) e3
      (l3 ++ [Logger.accumulate_means_exit "reward";
              Logger.accumulate_means_enter "agent";
              Logger.log (Logger.TrainingAgent (agent_steps self))])
    = (Ok tt, e4, l4) /\
    ext self' = e4 /\
    logger self' = l4 ++ [Logger.accumulate_means_exit "agent"; Logger.dump i] /\
    dataset self' = d.

End Orchestrator.

End PreferenceComparisons.

(* ================================================================= *)
(** ** A small corpus, used to run the definitions *)

Module Example.

Definition trajectory : TrajectoryWithRew nat nat unit :=
  mkTrajectoryWithRew [10; 11; 12; 13]%nat [0; 1; 2]%nat None
    [1%R; 2%R; 3%R] true.

Definition short_trajectory : TrajectoryWithRew nat nat unit :=
  mkTrajectoryWithRew [20; 21]%nat [5]%nat None [4%R] false.

(** Fragments of two steps, one pair, and a generator that draws
    0, 0, 1, 1, 2, 2, ... *)
Definition fragmenter : RandomFragmenter.t :=
  RandomFragmenter.mk 2 1 (fun i => Z.of_nat (i / 2)) 10 [].

(** What the fragmenter returns on [trajectory] alone, and its state
    afterwards: four draws are gone and one warning was logged. *)
Definition pairs
  : list (TrajectoryWithRew nat nat unit * TrajectoryWithRew nat nat unit) :=
  [(mkTrajectoryWithRew [10; 11; 12]%nat [0; 1]%nat None [1%R; 2%R] false,
    mkTrajectoryWithRew [11; 12; 13]%nat [1; 2]%nat None [2%R; 3%R] true)].

Definition fragmenter_after : RandomFragmenter.t :=
  RandomFragmenter.mk 2 1 (fun i => Z.of_nat ((4 + i) / 2)) 10
    [Logger.warn Logger.FewerTransitionsThanNeeded].


Definition gatherer_soft : SyntheticGatherer.t :=
  SyntheticGatherer.mk 1 1 false (fun _ => 0%R) 50 [].


(** A dataset that holds one pair already, and two arrays of preferences
    for a push of [pairs]: a good one, and one of the wrong length. *)
Definition dataset : PreferenceDataset.t nat nat unit :=
  PreferenceDataset.mk [trajectory] [short_trajectory]
    (Np.array Np.float64 [1%R]).

Definition good_preferences : Np.ndarray := Np.array Np.float32 [0%R].

Definition long_preferences : Np.ndarray := Np.array Np.float32 [0%R; 1%R].

(** A trainer that discounts by one half, with no label noise. *)
Definition discounting_trainer : CrossEntropyRewardTrainer.t :=
  CrossEntropyRewardTrainer.mk 0 32 1 (1 / 2) 50.

(** Surroundings for the orchestrator that never raise: the generator
    always delivers one trajectory of sixty steps. *)
Definition long_trajectory : TrajectoryWithRew nat nat unit :=
  mkTrajectoryWithRew (repeat 0%nat 61) (repeat 0%nat 60) None
    (repeat 1%R 60) false.

Definition sample (steps : Z)
  : PreferenceComparisons.ext_call unit (list (TrajectoryWithRew nat nat unit)) :=
  fun e l => (Ok [long_trajectory], e, l).

Definition check (trajectories : list (TrajectoryWithRew nat nat unit))
  : PreferenceComparisons.ext_call unit unit :=
  fun e l => (Ok tt, e, l).

Definition reward_train (d : PreferenceDataset.t nat nat unit)
  : PreferenceComparisons.ext_call unit unit :=
  fun e l => (Ok tt, e, l).

Definition agent_train (steps : Z) : PreferenceComparisons.ext_call unit unit :=
  fun e l => (Ok tt, e, l).

(** The same surroundings with a memory: their state is the list of the
    dataset sizes that the reward trainer has been handed so far. *)
Definition sample_seen (steps : Z)
  : PreferenceComparisons.ext_call (list (result Z))
      (list (TrajectoryWithRew nat nat unit)) :=
  fun e l => (Ok [long_trajectory], e, l).

Definition check_seen (trajectories : list (TrajectoryWithRew nat nat unit))
  : PreferenceComparisons.ext_call (list (result Z)) unit :=
  fun e l => (Ok tt, e, l).

Definition reward_train_seen (d : PreferenceDataset.t nat nat unit)
  : PreferenceComparisons.ext_call (list (result Z)) unit :=
  fun e l => (Ok tt, e ++ [PreferenceDataset.__len__ d], l).

Definition agent_train_seen (steps : Z)
  : PreferenceComparisons.ext_call (list (result Z)) unit :=
  fun e l => (Ok tt, e, l).

Definition orchestrator_seen
  : PreferenceComparisons.t (Obs:=nat) (Act:=nat) (Info:=unit)
      (list (result Z)) :=
  PreferenceComparisons.__init__ [] 100 None None None []
    (fun i => Z.of_nat i) (fun _ => 0%R).

(** The orchestrator with its default fragmenter and gatherer. *)
Definition orchestrator
  : PreferenceComparisons.t (Obs:=nat) (Act:=nat) (Info:=unit) unit :=
  PreferenceComparisons.__init__ tt 100 None None None []
    (fun i => Z.of_nat i) (fun _ => 0%R).

(** A trajectory that carries infos, and the state of the fragmenter after
    a call on the short and the long trajectory together: the short one was
    discarded, which is logged first. *)
Definition trajectory_with_infos : TrajectoryWithRew nat nat unit :=
  mkTrajectoryWithRew [10; 11; 12; 13]%nat [0; 1; 2]%nat
    (Some [tt; tt; tt]) [1%R; 2%R; 3%R] true.

Definition fragment_with_infos_0 : TrajectoryWithRew nat nat unit :=
  mkTrajectoryWithRew [10; 11; 12]%nat [0; 1]%nat (Some [tt; tt])
    [1%R; 2%R] false.

Definition fragment_with_infos_1 : TrajectoryWithRew nat nat unit :=
  mkTrajectoryWithRew [11; 12; 13]%nat [1; 2]%nat (Some [tt; tt])
    [2%R; 3%R] true.

Definition pairs_with_infos
  : list (TrajectoryWithRew nat nat unit * TrajectoryWithRew nat nat unit) :=
  [(fragment_with_infos_0, fragment_with_infos_1)].

Definition fragmenter_after_mixed : RandomFragmenter.t :=
  RandomFragmenter.mk 2 1 (fun i => Z.of_nat ((4 + i) / 2)) 10
    [Logger.log (Logger.Discarded 1 2 2);
     Logger.warn Logger.FewerTransitionsThanNeeded].

(** A fragmenter that is asked for no pairs, and one whose second warning
    is switched off. *)
Definition fragmenter_no_pairs : RandomFragmenter.t :=
  RandomFragmenter.mk 2 0 (fun i => Z.of_nat (i / 2)) 10 [].

Definition fragmenter_quiet : RandomFragmenter.t :=
  RandomFragmenter.mk 1 1 (fun i => Z.of_nat (i / 2)) 0 [].

(** A gatherer that samples its labels. *)
Definition gatherer_sampling : SyntheticGatherer.t :=
  SyntheticGatherer.mk 1 1 true (fun _ => 0%R) 50 [].

(** A trainer that takes every label for noise, one that takes every
    second label for noise, and a reward network that predicts the
    rewards of the environment. *)
Definition noisy_trainer : CrossEntropyRewardTrainer.t :=
  CrossEntropyRewardTrainer.mk 1 32 1 1 50.

Definition half_noisy_trainer : CrossEntropyRewardTrainer.t :=
  CrossEntropyRewardTrainer.mk (1 / 2) 32 1 1 50.

Definition true_rewards (tr : TrajectoryWithRew nat nat unit) : list R :=
  rews tr.

(** Surroundings in which a run cannot complete: a generator whose
    trajectories are too short for the default fragments, a horizon check
    that fails, and an orchestrator whose fragmenter is asked for no
    pairs. *)
Definition sample_short (steps : Z)
  : PreferenceComparisons.ext_call unit (list (TrajectoryWithRew nat nat unit)) :=
  fun e l => (Ok [short_trajectory], e, l).

Definition failing_check (trajectories : list (TrajectoryWithRew nat nat unit))
  : PreferenceComparisons.ext_call unit unit :=
  fun e l => (Raise (ValueError "variable horizon"), e, l).

Definition orchestrator_no_pairs
  : PreferenceComparisons.t (Obs:=nat) (Act:=nat) (Info:=unit) unit :=
  PreferenceComparisons.__init__ tt 100 None (Some fragmenter_no_pairs) None []
    (fun i => Z.of_nat i) (fun _ => 0%R).

(** The orchestrator with one pair in its dataset before the run. *)
Definition orchestrator_with_data
  : PreferenceComparisons.t (Obs:=nat) (Act:=nat) (Info:=unit) unit :=
  PreferenceComparisons.mk
    (PreferenceComparisons.ext orchestrator)
    (PreferenceComparisons.logger orchestrator)
    (PreferenceComparisons.fragmenter orchestrator)
    (PreferenceComparisons.preference_gatherer orchestrator)
    (PreferenceComparisons.sample_steps orchestrator)
    (PreferenceComparisons.agent_steps orchestrator)
    dataset.

End Example.

(* ================================================================= *)
(** * Properties *)

Unset Implicit Arguments.

(** ** Lists, slices and the generator *)

Section PyFacts.
Context {A : Type}.

Lemma len_nonneg (l : list A) : 0 <= len l.
Proof. unfold len. lia. Qed.

Lemma len_app (l1 l2 : list A) : len (l1 ++ l2) = len l1 + len l2.
Proof. unfold len. rewrite length_app. lia. Qed.

Lemma len_zero_nil (l : list A) : len l = 0 -> l = [].
Proof. destruct l; unfold len; simpl; [reflexivity | lia]. Qed.

(** Inside the list, a slice is a [firstn] of a [skipn]. *)
Lemma slice_in_range (l : list A) (i j : Z) :
  0 <= i -> i <= j -> j <= len l ->
  slice l i j = firstn (Z.to_nat (j - i)) (skipn (Z.to_nat i) l).
Proof.
  intros Hi Hij Hj. unfold slice, adjust_index.
  destruct (Z.ltb_spec i 0); [lia|].
  destruct (Z.ltb_spec j 0); [lia|].
  rewrite !Z.min_l by lia. reflexivity.
Qed.

Lemma len_slice (l : list A) (i j : Z) :
  0 <= i -> i <= j -> j <= len l -> len (slice l i j) = j - i.
Proof.
  intros Hi Hij Hj. rewrite slice_in_range by assumption.
  unfold len in *. rewrite length_firstn, length_skipn. lia.
Qed.

(** Induction on a list two elements at a time. *)
Lemma list_pair_ind (P : list A -> Prop) :
  P [] -> (forall a, P [a]) -> (forall a b l, P l -> P (a :: b :: l)) ->
  forall l, P l.
Proof.
  intros Hnil Hone Hstep. fix IH 1.
  intros [|a [|b l]]; [assumption | apply Hone | apply Hstep, IH].
Qed.

Lemma length_zip_iter_self (l : list A) :
  length (zip_iter_self l) = Nat.div2 (length l).
Proof.
  induction l as [| a | a b l IH] using list_pair_ind; simpl; auto.
Qed.

Lemma in_zip_iter_self (l : list A) (a b : A) :
  In (a, b) (zip_iter_self l) -> In a l /\ In b l.
Proof.
  induction l as [| x | x y l IH] using list_pair_ind; simpl; try tauto.
  intros [Heq | Hin].
  - inversion Heq; subst. auto.
  - destruct (IH Hin). auto.
Qed.

End PyFacts.

Lemma sum_shift (l : list Z) (acc : Z) :
  fold_left Z.add l acc = acc + Py.sum l.
Proof.
  unfold Py.sum. revert acc.
  induction l as [|w l IH]; intro acc; simpl; [lia|].
  rewrite (IH (acc + w)), (IH w). lia.
Qed.

Lemma sum_cons (w : Z) (l : list Z) : Py.sum (w :: l) = w + Py.sum l.
Proof. unfold Py.sum at 1. simpl. apply sum_shift. Qed.

Lemma sum_at_least (m : Z) (l : list Z) :
  Forall (fun w => m <= w) l -> m * len l <= Py.sum l.
Proof.
  induction 1 as [|w l Hw _ IH].
  - unfold Py.sum, len. simpl. lia.
  - rewrite sum_cons. unfold len in *. simpl length. lia.
Qed.

Section RandomFacts.
Import PyRandom.

Lemma length_accumulate_from (acc : Z) (ws : list Z) :
  length (accumulate_from acc ws) = length ws.
Proof. revert acc. induction ws; intro; simpl; auto. Qed.

Lemma last_accumulate_from (acc : Z) (ws : list Z) :
  ws <> [] ->
  last (map Some (accumulate_from acc ws)) None = Some (acc + Py.sum ws).
Proof.
  revert acc. induction ws as [|w ws IH]; intros acc Hne; [congruence|].
  destruct ws as [|w' ws].
  - simpl. rewrite sum_cons. unfold Py.sum. simpl. f_equal. lia.
  - change (accumulate_from acc (w :: w' :: ws))
      with ((acc + w) :: accumulate_from (acc + w) (w' :: ws)).
    rewrite map_cons.
    assert (Hstep : forall (x : option Z) l, l <> [] ->
              last (x :: l) None = last l None).
    { intros x [|y l] H; [congruence | reflexivity]. }
    rewrite Hstep by (simpl; discriminate).
    rewrite IH by discriminate.
    rewrite (sum_cons w). f_equal. lia.
Qed.

(** The search stays inside the interval it is given. *)
Lemma bisect_loop_bounds (fuel : nat) (a : list Z) (x : Z) (lo hi : nat) :
  (lo <= hi)%nat ->
  (lo <= bisect_loop fuel a x lo hi <= hi)%nat.
Proof.
  revert lo hi.
  induction fuel as [|fuel IH]; intros lo hi Hle; cbn [bisect_loop].
  - lia.
  - destruct (Nat.ltb_spec lo hi) as [Hlt|]; [|lia].
    assert (Hmid : (lo <= (lo + hi) / 2 < hi)%nat).
    { pose proof (Nat.div_mod_eq (lo + hi) 2) as Hdm.
      pose proof (Nat.mod_upper_bound (lo + hi) 2) as Hub. lia. }
    destruct (x <? nth ((lo + hi) / 2) a 0).
    + specialize (IH lo ((lo + hi) / 2)%nat). lia.
    + specialize (IH (S ((lo + hi) / 2)) hi). lia.
Qed.

(** [hi - lo] turns are enough: more fuel does not change the answer. *)
Lemma bisect_loop_fuel (fuel extra : nat) (a : list Z) (x : Z) (lo hi : nat) :
  (hi - lo <= fuel)%nat ->
  bisect_loop (fuel + extra) a x lo hi = bisect_loop fuel a x lo hi.
Proof.
  revert lo hi. induction fuel as [|fuel IH]; intros lo hi Hle.
  - destruct extra; cbn [bisect_loop Nat.add]; [reflexivity|].
    destruct (Nat.ltb_spec lo hi); [lia | reflexivity].
  - cbn [bisect_loop Nat.add].
    destruct (Nat.ltb_spec lo hi) as [Hlt|]; [|reflexivity].
    assert (Hmid : (lo <= (lo + hi) / 2 < hi)%nat).
    { pose proof (Nat.div_mod_eq (lo + hi) 2) as Hdm.
      pose proof (Nat.mod_upper_bound (lo + hi) 2) as Hub. lia. }
    destruct (x <? nth ((lo + hi) / 2) a 0); apply IH; lia.
Qed.

Lemma choices1_ok {A} (population : list A) (weights : list Z) (g : Random) :
  length weights = length population ->
  0 < Py.sum weights ->
  exists x, In x population /\
            choices1 population weights g = (Ok x, snd (next g)).
Proof.
  intros Hlen Hpos. unfold choices1, accumulate.
  rewrite length_accumulate_from, Hlen, Nat.eqb_refl. simpl negb. cbv iota.
  assert (Hne : weights <> []).
  { intro; subst. unfold Py.sum in Hpos. simpl in Hpos. lia. }
  rewrite last_accumulate_from by assumption. rewrite Z.add_0_l.
  destruct (Z.leb_spec (Py.sum weights) 0); [lia|].
  unfold next, bisect.
  set (idx := bisect_loop _ _ _ _ _).
  assert (Hidx : (idx < length population)%nat).
  { pose proof (bisect_loop_bounds (length population - 1 - 0)
                  (accumulate_from 0 weights) (g 0%nat mod Py.sum weights)
                  0 (length population - 1) (Nat.le_0_l _)) as Hb.
    fold idx in Hb. destruct population; [destruct weights; simpl in *; congruence|].
    simpl in *. lia. }
  destruct (nth_error population idx) as [x|] eqn:Hnth.
  - exists x. split; [eapply nth_error_In; eassumption | reflexivity].
  - apply nth_error_None in Hnth. lia.
Qed.

Lemma randint_ok (a b : Z) (g : Random) :
  a <= b ->
  exists v, a <= v <= b /\ randint a b g = (Ok v, snd (next g)).
Proof.
  intro Hab. unfold randint.
  destruct (Z.ltb_spec b a); [lia|]. unfold next.
  exists (a + g 0%nat mod (b - a + 1)). split; [|reflexivity].
  pose proof (Z.mod_pos_bound (g 0%nat) (b - a + 1)). lia.
Qed.

End RandomFacts.

Section RandomInversion.
Import PyRandom.

Lemma choices1_inv {A} (population : list A) (weights : list Z)
    (g g' : Random) (x : A) :
  choices1 population weights g = (Ok x, g') -> In x population.
Proof.
  unfold choices1.
  destruct (negb _); [discriminate|].
  destruct (last _ _) as [total|]; [|discriminate].
  destruct (total <=? 0); [discriminate|].
  unfold next.
  destruct (nth_error population _) as [y|] eqn:Hnth; [|discriminate].
  intro H. inversion H; subst. eapply nth_error_In; eassumption.
Qed.

Lemma randint_inv (a b : Z) (g g' : Random) (v : Z) :
  randint a b g = (Ok v, g') -> a <= v <= b.
Proof.
  unfold randint. destruct (Z.ltb_spec b a) as [|Hab]; [discriminate|].
  unfold next. intro Heq. inversion Heq; subst.
  pose proof (Z.mod_pos_bound (g 0%nat) (b - a + 1)). lia.
Qed.

End RandomInversion.

(** ** RandomFragmenter *)

Section FragmenterFacts.
Context {Obs Act Info : Type}.
Import RandomFragmenter.
Local Abbreviation traj := (TrajectoryWithRew Obs Act Info).

Lemma long_enough_In (self : t) (trajectories : list traj) (tr : traj) :
  In tr (long_enough self trajectories) <->
  In tr trajectories /\ fragment_length self <= traj_len tr.
Proof.
  unfold long_enough. rewrite filter_In.
  destruct (Z.leb_spec (fragment_length self) (traj_len tr));
    intuition (try lia; try discriminate).
Qed.

Lemma long_enough_all (self : t) (trajectories : list traj) :
  Forall (fun tr => fragment_length self <= traj_len tr) trajectories ->
  long_enough self trajectories = trajectories.
Proof.
  unfold long_enough. induction 1 as [|tr l Htr _ IH]; simpl; [reflexivity|].
  destruct (Z.leb_spec (fragment_length self) (traj_len tr)); [|lia].
  now rewrite IH.
Qed.

Lemma long_enough_none (self : t) (trajectories : list traj) :
  Forall (fun tr => traj_len tr < fragment_length self) trajectories ->
  long_enough self trajectories = [].
Proof.
  unfold long_enough. induction 1 as [|tr l Htr _ IH]; simpl; [reflexivity|].
  destruct (Z.leb_spec (fragment_length self) (traj_len tr)); [lia|].
  exact IH.
Qed.

Lemma weights_positive (m : Z) (l : list traj) :
  0 < m -> l <> [] -> Forall (fun tr => m <= traj_len tr) l ->
  0 < Py.sum (map traj_len l).
Proof.
  intros Hm Hne Hall.
  assert (Hw : Forall (fun w => m <= w) (map traj_len l)).
  { apply Forall_map. exact Hall. }
  apply sum_at_least in Hw.
  assert (1 <= len (map traj_len l)).
  { destruct l; [congruence|]. unfold len. simpl length. lia. }
  nia.
Qed.

(** One turn of the loop, when it returns, returns a fragment drawn from
    the population it was given. *)
Lemma draw_fragment_inv (self : t) (population : list traj) (weights : list Z)
    (g g' : PyRandom.Random) (f : traj) :
  draw_fragment self population weights g = (Ok f, g') ->
  exists tr start,
    In tr population /\
    0 <= start <= traj_len tr - fragment_length self /\
    f = fragment_of self tr start.
Proof.
  unfold draw_fragment.
  destruct (PyRandom.choices1 population weights g) as [[tr|e] g1] eqn:Hc;
    [|discriminate].
  destruct (PyRandom.randint 0 (traj_len tr - fragment_length self) g1)
    as [[start|e] g2] eqn:Hr; [|discriminate].
  intro H. inversion H; subst.
  exists tr, start. split; [|split].
  - eapply choices1_inv; eassumption.
  - eapply randint_inv; eassumption.
  - reflexivity.
Qed.

(** One turn of the loop returns whenever the population is not empty and
    every member is long enough for a fragment of positive length. *)
Lemma draw_fragment_ok (self : t) (population : list traj)
    (g : PyRandom.Random) :
  0 < fragment_length self -> population <> [] ->
  Forall (fun tr => fragment_length self <= traj_len tr) population ->
  exists f g',
    draw_fragment self population (map traj_len population) g = (Ok f, g').
Proof.
  intros Hfl Hne Hall. unfold draw_fragment.
  destruct (choices1_ok population (map traj_len population) g)
    as [tr [Hin Hc]].
  - apply length_map.
  - eapply weights_positive; eassumption.
  - rewrite Hc.
    rewrite Forall_forall in Hall. specialize (Hall tr Hin).
    destruct (randint_ok 0 (traj_len tr - fragment_length self)
                (snd (PyRandom.next g))) as [start [_ Hr]]; [lia|].
    rewrite Hr. eauto.
Qed.

Lemma draw_fragments_inv (self : t) (population : list traj)
    (weights : list Z) (turns : nat) :
  forall (g g' : PyRandom.Random) (acc fragments : list traj),
    draw_fragments turns self population weights g acc = (Ok fragments, g') ->
    exists new,
      fragments = acc ++ new /\ length new = turns /\
      Forall (fun f => exists tr start,
                In tr population /\
                0 <= start <= traj_len tr - fragment_length self /\
                f = fragment_of self tr start) new.
Proof.
  induction turns as [|turns IH]; intros g g' acc fragments; simpl.
  - intro H. inversion H; subst. exists []. rewrite app_nil_r. auto.
  - destruct (draw_fragment self population weights g) as [[f|e] g1] eqn:Hd;
      [|discriminate].
    intro H. apply IH in H. destruct H as [new [Heq [Hlen Hall]]].
    exists (f :: new). split; [|split].
    + rewrite Heq, <- app_assoc. reflexivity.
    + simpl. now rewrite Hlen.
    + constructor; [|assumption].
      eapply draw_fragment_inv; eassumption.
Qed.

Lemma draw_fragments_ok (self : t) (population : list traj) (turns : nat) :
  0 < fragment_length self -> population <> [] ->
  Forall (fun tr => fragment_length self <= traj_len tr) population ->
  forall (g : PyRandom.Random) (acc : list traj),
  exists fragments g',
    draw_fragments turns self population (map traj_len population) g acc
    = (Ok fragments, g').
Proof.
  intros Hfl Hne Hall.
  induction turns as [|turns IH]; intros g acc; simpl.
  - eauto.
  - destruct (draw_fragment_ok self population g Hfl Hne Hall)
      as [f [g1 Hd]].
    rewrite Hd. apply IH.
Qed.

(** The fragmenter's state after its log lines, before the draws. *)
Lemma reports_keep_settings (self : t) (prev : Z) (l : list traj)
    (weights : list Z) :
  let self' := report_transitions (report_discarded self prev l) weights in
  fragment_length self' = fragment_length self /\
  num_pairs self' = num_pairs self /\
  rng self' = rng self.
Proof.
  unfold report_transitions, report_discarded.
  repeat match goal with
         | |- context [if ?c then _ else _] => destruct c
         end; simpl; auto.
Qed.

(** What a returning call returns. *)
Lemma call_inv (self self' : t) (trajectories : list traj)
    (pairs : list (traj * traj)) :
  __call__ self trajectories = (Ok pairs, self') ->
  exists fragments,
    pairs = zip_iter_self fragments /\
    length fragments = Z.to_nat (2 * num_pairs self) /\
    Forall (drawn_from self trajectories) fragments.
Proof.
  unfold __call__.
  destruct (len (long_enough self trajectories) =? 0); [discriminate|].
  set (l := long_enough self trajectories).
  set (self1 := report_transitions _ _).
  destruct (reports_keep_settings self (len trajectories) l (map traj_len l))
    as [Hfl [Hnp Hrng]].
  fold self1 in Hfl, Hnp, Hrng.
  destruct (draw_fragments _ self1 l _ _ _) as [[fragments|e] g] eqn:Hd;
    [|discriminate].
  intro H. inversion H; subst pairs self'. clear H.
  apply draw_fragments_inv in Hd. destruct Hd as [new [Heq [Hlen Hall]]].
  simpl in Heq. subst new. exists fragments.
  split; [reflexivity|]. split; [rewrite Hlen, Hnp; reflexivity|].
  eapply Forall_impl; [|exact Hall].
  intros f [tr [start [Hin [Hstart Hf]]]].
  apply long_enough_In in Hin. destruct Hin as [Hin Hlong].
  exists tr, start. rewrite Hfl in Hstart.
  repeat split; try assumption; try lia.
  subst f. unfold fragment_of. rewrite Hfl. reflexivity.
Qed.

(** A call returns as soon as one trajectory is long enough for a fragment
    of positive length; the log then carries the warnings that apply. *)
Lemma call_ok (self : t) (trajectories : list traj) :
  0 < fragment_length self ->
  long_enough self trajectories <> [] ->
  exists pairs self',
    __call__ self trajectories = (Ok pairs, self') /\
    logger self' =
      logger (report_transitions
                (report_discarded self (len trajectories)
                   (long_enough self trajectories))
                (map traj_len (long_enough self trajectories))).
Proof.
  intros Hpos Hne. unfold __call__.
  destruct (Z.eqb_spec (len (long_enough self trajectories)) 0) as [Hz|_].
  { apply len_zero_nil in Hz. contradiction. }
  set (l := long_enough self trajectories) in *.
  set (self1 := report_transitions _ _).
  destruct (reports_keep_settings self (len trajectories) l (map traj_len l))
    as [Hfl [Hnp Hrng]].
  fold self1 in Hfl, Hnp, Hrng.
  destruct (draw_fragments_ok self1 l (Z.to_nat (2 * num_pairs self1)))
    with (g := rng self1) (acc := @nil traj) as [fragments [g' Hd]].
  - lia.
  - exact Hne.
  - rewrite Hfl. apply Forall_forall. intros tr Hin.
    apply long_enough_In in Hin. tauto.
  - rewrite Hd. eauto.
Qed.

Lemma fragment_of_is_slice (self : t) (tr : traj) (start : Z) :
  well_formed tr ->
  0 <= fragment_length self ->
  0 <= start <= traj_len tr - fragment_length self ->
  is_slice_of self tr start (fragment_of self tr start) /\
  has_fragment_shape self (fragment_of self tr start).
Proof.
  intros [Hobs [Hrews _]] Hfl Hstart.
  unfold is_slice_of, has_fragment_shape, fragment_of, traj_len in *.
  cbn [acts rews obs].
  rewrite !len_slice by lia.
  rewrite !slice_in_range by lia.
  replace (start + fragment_length self - start) with (fragment_length self)
    by lia.
  replace (start + fragment_length self + 1 - start)
    with (fragment_length self + 1) by lia.
  replace (Z.to_nat (fragment_length self + 1))
    with (S (Z.to_nat (fragment_length self))) by lia.
  repeat split; reflexivity || lia.
Qed.

End FragmenterFacts.

Section FragmenterClaims.
Context {Obs Act Info : Type}.
Import RandomFragmenter.
Local Abbreviation traj := (TrajectoryWithRew Obs Act Info).

(** C3.  For a non-empty sequence of well-formed trajectories that are all
    at least [fragment_length] long (a positive length, and a non-negative
    number of pairs), the fragmenter returns, and returns exactly
    [num_pairs] pairs; every fragment in them is the contiguous slice
    [start, start + fragment_length) of one input trajectory, with [start]
    in [0, len(traj) - fragment_length], and has [fragment_length] actions
    and rewards and [fragment_length + 1] observations. *)
Theorem fragmenter_returns_num_pairs_of_slices
    (self : t) (trajectories : list traj) :
  0 < fragment_length self ->
  0 <= num_pairs self ->
  trajectories <> [] ->
  Forall (fun tr => well_formed tr /\ fragment_length self <= traj_len tr)
         trajectories ->
  exists pairs self',
    __call__ self trajectories = (Ok pairs, self') /\
    len pairs = num_pairs self /\
    forall f1 f2, In (f1, f2) pairs ->
      forall f, f = f1 \/ f = f2 ->
        has_fragment_shape self f /\
        exists tr start,
          In tr trajectories /\
          0 <= start <= traj_len tr - fragment_length self /\
          is_slice_of self tr start f.
Proof.
  intros Hfl Hnp Hne Hall.
  assert (Hlong : Forall (fun tr => fragment_length self <= traj_len tr)
                         trajectories).
  { eapply Forall_impl; [|exact Hall]. simpl. tauto. }
  destruct (call_ok self trajectories Hfl) as [pairs [self' [Hcall _]]].
  { rewrite long_enough_all; assumption. }
  exists pairs, self'. split; [exact Hcall|].
  destruct (call_inv _ _ _ _ Hcall) as [fragments [Hpairs [Hlen Hdrawn]]].
  split.
  - subst pairs. unfold len. rewrite length_zip_iter_self, Hlen.
    replace (Z.to_nat (2 * num_pairs self))
      with (2 * Z.to_nat (num_pairs self))%nat by lia.
    rewrite Nat.div2_double. lia.
  - intros f1 f2 Hin f Hf. subst pairs.
    apply in_zip_iter_self in Hin. destruct Hin as [Hin1 Hin2].
    rewrite Forall_forall in Hdrawn, Hall.
    assert (Hinf : In f fragments) by (destruct Hf; subst; assumption).
    destruct (Hdrawn f Hinf) as [tr [start [Htr [_ [Hstart Heq]]]]].
    destruct (Hall tr Htr) as [Hwf _].
    destruct (fragment_of_is_slice self tr start Hwf) as [Hslice Hshape];
      [lia | assumption |].
    subst f. split; [exact Hshape|]. exists tr, start. auto.
Qed.

(** C4.  Every fragment that the fragmenter returns was cut from an input
    trajectory at some start offset, and its terminal flag is true exactly
    when the end of the slice, [start + fragment_length], is the length of
    that trajectory and that trajectory is terminal. *)
Theorem fragment_terminal_iff_cut_at_terminal_end
    (self self' : t) (trajectories : list traj) (pairs : list (traj * traj)) :
  __call__ self trajectories = (Ok pairs, self') ->
  forall f1 f2, In (f1, f2) pairs ->
    forall f, f = f1 \/ f = f2 ->
      exists tr start,
        In tr trajectories /\
        0 <= start <= traj_len tr - fragment_length self /\
        f = fragment_of self tr start /\
        (terminal f = true <->
         start + fragment_length self = traj_len tr /\ terminal tr = true).
Proof.
  intros Hcall f1 f2 Hin f Hf.
  destruct (call_inv _ _ _ _ Hcall) as [fragments [Hpairs [_ Hdrawn]]].
  subst pairs. apply in_zip_iter_self in Hin. destruct Hin as [Hin1 Hin2].
  rewrite Forall_forall in Hdrawn.
  assert (Hinf : In f fragments) by (destruct Hf; subst; assumption).
  destruct (Hdrawn f Hinf) as [tr [start [Htr [_ [Hstart Heq]]]]].
  exists tr, start.
  split; [assumption|]. split; [lia|]. split; [assumption|].
  subst f. unfold fragment_of. cbn [terminal].
  rewrite andb_true_iff, Z.eqb_eq. reflexivity.
Qed.

(** C5.  The fragmenter raises at once, with its state untouched, when no
    input trajectory is at least [fragment_length] long.  When one is (for a
    positive fragment length) it returns, also when fewer transitions are
    available than the pairs need: those conditions only put a warning into
    the log. *)
Theorem fragmenter_raises_only_without_long_trajectory
    (self : t) (trajectories : list traj) :
  (Forall (fun tr => traj_len tr < fragment_length self) trajectories ->
   exists msg, __call__ self trajectories = (Raise (ValueError msg), self))
  /\
  (0 < fragment_length self ->
   Exists (fun tr => fragment_length self <= traj_len tr) trajectories ->
   exists pairs self',
     __call__ self trajectories = (Ok pairs, self') /\
     let available := Py.sum (map traj_len (long_enough self trajectories)) in
     let needed := 2 * num_pairs self * fragment_length self in
     (available < needed ->
      In (Logger.warn Logger.FewerTransitionsThanNeeded) (logger self')) /\
     (needed <= available -> warning_threshold self <> 0 ->
      available < warning_threshold self * needed ->
      In (Logger.warn (Logger.SamplesWillContain needed available))
         (logger self'))).
Proof.
  split.
  - intro Hshort. unfold __call__.
    rewrite long_enough_none by assumption. simpl. eauto.
  - intros Hfl Hex.
    destruct (call_ok self trajectories Hfl) as [pairs [self' [Hcall Hlog]]].
    { apply Exists_exists in Hex. destruct Hex as [tr [Hin Hlen]].
      intro Hnil.
      assert (Hin' : In tr (long_enough self trajectories))
        by (apply long_enough_In; auto).
      rewrite Hnil in Hin'. exact Hin'. }
    exists pairs, self'. split; [exact Hcall|].
    cbv zeta. rewrite Hlog. clear Hcall Hlog.
    set (l := long_enough self trajectories).
    set (self0 := report_discarded self (len trajectories) l).
    assert (Hkeep : fragment_length self0 = fragment_length self /\
                    num_pairs self0 = num_pairs self /\
                    warning_threshold self0 = warning_threshold self).
    { unfold self0, report_discarded.
      destruct (_ =? 0); simpl; auto. }
    destruct Hkeep as [Hk1 [Hk2 Hk3]].
    unfold report_transitions. rewrite Hk1, Hk2, Hk3.
    split.
    + intro Hlt.
      destruct (Z.ltb_spec (Py.sum (map traj_len l))
                  (2 * num_pairs self * fragment_length self)); [|lia].
      unfold emit, Logger.emit. simpl. apply in_or_app. right. simpl. auto.
    + intros Hge Hthr Hlt.
      destruct (Z.ltb_spec (Py.sum (map traj_len l))
                  (2 * num_pairs self * fragment_length self)); [lia|].
      destruct (Z.eqb_spec (warning_threshold self) 0); [contradiction|].
      destruct (Z.ltb_spec (Py.sum (map traj_len l))
                  (warning_threshold self
                   * (2 * num_pairs self * fragment_length self))); [|lia].
      unfold emit, Logger.emit. simpl. apply in_or_app. right. simpl. auto.
Qed.

End FragmenterClaims.

(** The three statements on the small corpus. *)

Lemma fragmenter_returns_num_pairs_of_slices_witness :
  (0 < RandomFragmenter.fragment_length Example.fragmenter /\
   0 <= RandomFragmenter.num_pairs Example.fragmenter /\
   [Example.trajectory] <> [] /\
   Forall (fun tr => well_formed tr /\
             RandomFragmenter.fragment_length Example.fragmenter
             <= traj_len tr) [Example.trajectory]) /\
  exists pairs self',
    RandomFragmenter.__call__ Example.fragmenter [Example.trajectory]
    = (Ok pairs, self') /\
    len pairs = RandomFragmenter.num_pairs Example.fragmenter /\
    forall f1 f2, In (f1, f2) pairs ->
      forall f, f = f1 \/ f = f2 ->
        RandomFragmenter.has_fragment_shape Example.fragmenter f /\
        exists tr start,
          In tr [Example.trajectory] /\
          0 <= start
            <= traj_len tr - RandomFragmenter.fragment_length Example.fragmenter /\
          RandomFragmenter.is_slice_of Example.fragmenter tr start f.
Proof.
  assert (H1 : 0 < RandomFragmenter.fragment_length Example.fragmenter)
    by (simpl; lia).
  assert (H2 : 0 <= RandomFragmenter.num_pairs Example.fragmenter)
    by (simpl; lia).
  assert (H3 : [Example.trajectory] <> []) by discriminate.
  assert (H4 : Forall (fun tr => well_formed tr /\
                 RandomFragmenter.fragment_length Example.fragmenter
                 <= traj_len tr) [Example.trajectory]).
  { constructor; [|constructor].
    unfold well_formed, traj_len, len. simpl. lia. }
  split; [auto|].
  exact (fragmenter_returns_num_pairs_of_slices
           Example.fragmenter [Example.trajectory] H1 H2 H3 H4).
Defined.

Lemma fragment_terminal_iff_cut_at_terminal_end_witness :
  RandomFragmenter.__call__ Example.fragmenter [Example.trajectory]
  = (Ok Example.pairs, Example.fragmenter_after) /\
  forall f1 f2, In (f1, f2) Example.pairs ->
    forall f, f = f1 \/ f = f2 ->
      exists tr start,
        In tr [Example.trajectory] /\
        0 <= start
          <= traj_len tr - RandomFragmenter.fragment_length Example.fragmenter /\
        f = RandomFragmenter.fragment_of Example.fragmenter tr start /\
        (terminal f = true <->
         start + RandomFragmenter.fragment_length Example.fragmenter
         = traj_len tr /\ terminal tr = true).
Proof.
  assert (Hcall :
    RandomFragmenter.__call__ Example.fragmenter [Example.trajectory]
    = (Ok Example.pairs, Example.fragmenter_after)) by reflexivity.
  split; [exact Hcall|].
  exact (fragment_terminal_iff_cut_at_terminal_end
           Example.fragmenter Example.fragmenter_after
           [Example.trajectory] Example.pairs Hcall).
Defined.

Lemma fragmenter_raises_only_without_long_trajectory_witness :
  (Forall (fun tr => traj_len tr
                     < RandomFragmenter.fragment_length Example.fragmenter)
          [Example.short_trajectory] /\
   exists msg,
     RandomFragmenter.__call__ Example.fragmenter [Example.short_trajectory]
     = (Raise (ValueError msg), Example.fragmenter))
  /\
  (0 < RandomFragmenter.fragment_length Example.fragmenter /\
   Exists (fun tr => RandomFragmenter.fragment_length Example.fragmenter
                     <= traj_len tr)
          [Example.short_trajectory; Example.trajectory] /\
   exists pairs self',
     RandomFragmenter.__call__ Example.fragmenter
       [Example.short_trajectory; Example.trajectory] = (Ok pairs, self') /\
     In (Logger.warn Logger.FewerTransitionsThanNeeded)
        (RandomFragmenter.logger self')).
Proof.
  assert (Ha : Forall (fun tr => traj_len tr
                 < RandomFragmenter.fragment_length Example.fragmenter)
                 [Example.short_trajectory]).
  { constructor; [|constructor]. unfold traj_len, len. simpl. lia. }
  assert (Hb1 : 0 < RandomFragmenter.fragment_length Example.fragmenter)
    by (simpl; lia).
  assert (Hb2 : Exists (fun tr =>
                  RandomFragmenter.fragment_length Example.fragmenter
                  <= traj_len tr)
                  [Example.short_trajectory; Example.trajectory]).
  { apply Exists_cons_tl, Exists_cons_hd. unfold traj_len, len. simpl. lia. }
  split.
  - split; [exact Ha|].
    exact (proj1 (fragmenter_raises_only_without_long_trajectory
                    Example.fragmenter [Example.short_trajectory]) Ha).
  - split; [exact Hb1|]. split; [exact Hb2|].
    destruct (proj2 (fragmenter_raises_only_without_long_trajectory
                       Example.fragmenter
                       [Example.short_trajectory; Example.trajectory])
                Hb1 Hb2) as [pairs [self' [Hcall [Hwarn _]]]].
    exists pairs, self'. split; [exact Hcall|].
    apply Hwarn. vm_compute. reflexivity.
Defined.

(** ** Tensors *)

Section TensorFacts.
Local Open Scope R_scope.

Lemma split_map_pair {A B C} (f : A -> B) (g : A -> C) (l : list A) :
  List.split (map (fun p => (f p, g p)) l) = (map f l, map g l).
Proof.
  induction l as [|a l IH]; simpl; [reflexivity|]. now rewrite IH.
Qed.

Lemma combine_map_pair {A B C} (f : A -> B) (g : A -> C) (l : list A) :
  combine (map f l) (map g l) = map (fun p => (f p, g p)) l.
Proof.
  induction l as [|a l IH]; simpl; [reflexivity|]. now rewrite IH.
Qed.

(** Two tensors of one size combine element by element. *)
Lemma broadcast2_same_length (f : R -> R -> R) (a b : list R) :
  length a = length b ->
  Tensor.broadcast2 f a b
  = Ok (map (fun p => f (fst p) (snd p)) (combine a b)).
Proof.
  intro Hlen. unfold Tensor.broadcast2. now rewrite Hlen, Nat.eqb_refl.
Qed.

Lemma broadcast2_maps {A} (f : R -> R -> R) (u v : A -> R) (l : list A) :
  Tensor.broadcast2 f (map u l) (map v l)
  = Ok (map (fun p => f (u p) (v p)) l).
Proof.
  rewrite broadcast2_same_length by (now rewrite !length_map).
  rewrite combine_map_pair, map_map. reflexivity.
Qed.




(** For a non-negative threshold the clipped value lies in
    [-threshold, threshold]. *)
Lemma clip_bounds (x thr : R) :
  0 <= thr -> - thr <= Tensor.clip x (- thr) thr <= thr.
Proof.
  intro Hthr. unfold Tensor.clip, Rmin, Rmax.
  destruct (Rle_dec x (- thr)); destruct (Rle_dec _ thr); lra.
Qed.

(** Within the threshold, clipping changes nothing. *)
Lemma clip_inside (x thr : R) :
  - thr <= x <= thr -> Tensor.clip x (- thr) thr = x.
Proof.
  intro Hx. unfold Tensor.clip, Rmin, Rmax.
  destruct (Rle_dec x (- thr)); destruct (Rle_dec _ thr); lra.
Qed.

(** For a non-negative threshold, clipping commutes with negation. *)
Lemma clip_opp (x thr : R) :
  0 <= thr ->
  Tensor.clip (- x) (- thr) thr = - Tensor.clip x (- thr) thr.
Proof.
  intro Hthr. unfold Tensor.clip, Rmin, Rmax.
  destruct (Rle_dec x (- thr)); destruct (Rle_dec (- x) (- thr));
    repeat match goal with
           | |- context [Rle_dec ?a ?b] => destruct (Rle_dec a b)
           end; lra.
Qed.

(** The logistic function takes its values strictly between 0 and 1. *)
Lemma logistic_in_unit_interval (d : R) : 0 < 1 / (1 + exp d) < 1.
Proof.
  pose proof (exp_pos d) as Hexp.
  assert (Hden : 0 < 1 + exp d) by lra.
  split.
  - apply Rdiv_lt_0_compat; lra.
  - apply Rmult_lt_reg_r with (1 + exp d); [assumption|].
    unfold Rdiv. rewrite Rmult_assoc, Rinv_l by lra. lra.
Qed.

(** The logistic values at [d] and at [-d] add up to one. *)
Lemma logistic_opp (d : R) : 1 / (1 + exp (- d)) = 1 - 1 / (1 + exp d).
Proof.
  pose proof (exp_pos d) as Hexp.
  rewrite exp_Ropp. field. split; lra.
Qed.

End TensorFacts.

(** ** Rounding to binary32 *)

Section Float32Facts.
Local Open Scope R_scope.
Import Float32.



























End Float32Facts.

(** ** SyntheticGatherer *)

Section GathererFacts.
Context {Obs Act Info : Type}.
Import SyntheticGatherer.
Local Open Scope R_scope.
Local Abbreviation traj := (TrajectoryWithRew Obs Act Info).

Lemma reward_sums_nonempty (self : t) (fragment_pairs : list (traj * traj)) :
  fragment_pairs <> [] ->
  _reward_sums self fragment_pairs
  = Ok (map (return1 self) fragment_pairs, map (return2 self) fragment_pairs).
Proof.
  intro Hne. unfold _reward_sums, unzip2.
  destruct fragment_pairs as [|p l]; [congruence|].
  rewrite split_map_pair. reflexivity.
Qed.

Lemma reward_sums_empty (self : t) :
  exists msg, _reward_sums self (@nil (traj * traj)) = Raise (ValueError msg).
Proof. unfold _reward_sums. simpl. eauto. Qed.

(** The call at temperature zero, in closed form. *)
Lemma call_zero_temperature (self : t) (fragment_pairs : list (traj * traj)) :
  temperature self = 0 -> fragment_pairs <> [] ->
  __call__ self fragment_pairs
  = (Ok (Np.array Np.float32
           (map (fun p =>
                   (Tensor.sign (return1 self p - return2 self p) + 1) / 2)
                fragment_pairs)),
     self).
Proof.
  intros HT Hne. unfold __call__.
  rewrite reward_sums_nonempty by assumption.
  destruct (Req_dec_T (temperature self) 0); [|contradiction].
  unfold Tensor.sub. rewrite broadcast2_maps, map_map. reflexivity.
Qed.

(** The call at a non-zero temperature without sampling, in closed form. *)
Lemma call_softmax (self : t) (fragment_pairs : list (traj * traj)) :
  temperature self <> 0 -> sample self = false -> fragment_pairs <> [] ->
  let probs :=
    map (fun p =>
           1 / (1 + exp (Tensor.clip
                           (return2 self p / temperature self
                            - return1 self p / temperature self)
                           (- threshold self) (threshold self))))
        fragment_pairs in
  __call__ self fragment_pairs
  = (Ok (Np.array Np.float32 probs),
     set_logger self
       (Logger.emit (logger self)
          (Logger.record "entropy" (entropy_of probs)))).
Proof.
  intros HT Hs Hne probs. unfold __call__.
  rewrite reward_sums_nonempty by assumption.
  destruct (Req_dec_T (temperature self) 0); [contradiction|].
  unfold model_probs_of, Tensor.sub.
  rewrite !map_map, broadcast2_maps. cbn [bind].
  rewrite !map_map. cbn [sample set_logger]. rewrite Hs.
  reflexivity.
Qed.




End GathererFacts.





(** ** PreferenceDataset *)

Section GetitemFacts.
Context {A : Type}.

Lemma getitem_nth (l : list A) (i : nat) (x : A) :
  nth_error l i = Some x -> Py.getitem l (Z.of_nat i) = Ok x.
Proof.
  intro Hnth. unfold Py.getitem.
  assert (Hlt : (i < length l)%nat).
  { apply nth_error_Some. congruence. }
  destruct (Z.ltb_spec (Z.of_nat i) 0); [lia|].
  destruct (Z.ltb_spec (Z.of_nat i) 0); [lia|].
  destruct (Z.leb_spec (len l) (Z.of_nat i)); [unfold len in *; lia|].
  simpl. rewrite Nat2Z.id, Hnth. reflexivity.
Qed.

(** Appending to a list does not move the entries it had. *)
Lemma getitem_app_old (l new : list A) (i : Z) :
  0 <= i < len l -> Py.getitem (l ++ new) i = Py.getitem l i.
Proof.
  intros [Hlo Hhi]. unfold Py.getitem. rewrite len_app.
  pose proof (len_nonneg new).
  destruct (Z.ltb_spec i 0); [lia|].
  destruct (Z.ltb_spec i 0); [lia|].
  destruct (Z.leb_spec (len l + len new) i); [lia|].
  destruct (Z.leb_spec (len l) i); [lia|].
  simpl. rewrite nth_error_app1 by (unfold len in *; lia). reflexivity.
Qed.

Lemma getitem_app_new (l new : list A) (j : nat) (x : A) :
  nth_error new j = Some x ->
  Py.getitem (l ++ new) (len l + Z.of_nat j) = Ok x.
Proof.
  intro Hnth. unfold len.
  replace (Z.of_nat (length l) + Z.of_nat j)
    with (Z.of_nat (length l + j)) by lia.
  apply getitem_nth.
  rewrite nth_error_app2 by lia.
  replace (length l + j - length l)%nat with j by lia. exact Hnth.
Qed.

End GetitemFacts.

Section DatasetFacts.
Context {Obs Act Info : Type}.
Import PreferenceDataset.
Local Abbreviation traj := (TrajectoryWithRew Obs Act Info).
Local Abbreviation dataset := (PreferenceDataset.t Obs Act Info).

Lemma shape_eqb_eq (s1 s2 : list nat) :
  Np.shape_eqb s1 s2 = true <-> s1 = s2.
Proof.
  revert s2. induction s1 as [|n s1 IH]; intros [|m s2]; simpl;
    try (split; [discriminate | congruence]); [tauto|].
  rewrite andb_true_iff, Nat.eqb_eq, IH.
  split; [intros [-> ->]; reflexivity | intro H; inversion H; auto].
Qed.

Lemma dtype_eqb_eq (a b : Np.dtype) : Np.dtype_eqb a b = true <-> a = b.
Proof. destruct a, b; simpl; split; congruence. Qed.

Lemma init_consistent : consistent (@__init__ Obs Act Info).
Proof. unfold consistent. simpl. auto. Qed.

Lemma len_consistent (self : dataset) :
  consistent self -> __len__ self = Ok (len (fragments1 self)).
Proof.
  intros [H12 [Hshape _]]. unfold __len__, Np.len, len.
  rewrite Hshape, H12, Z.eqb_refl. cbn [bind].
  rewrite Z.eqb_refl. reflexivity.
Qed.

(** A push that passes its checks appends to the three stores. *)
Lemma push_ok (self : dataset) (fragments : list (traj * traj))
    (prefs : Np.ndarray) :
  consistent self ->
  fragments <> [] ->
  Np.shape prefs = [length fragments] ->
  Np.dtype_of prefs = Np.float32 ->
  push self fragments prefs
  = (Ok tt,
     mk (fragments1 self ++ fst (List.split fragments))
        (fragments2 self ++ snd (List.split fragments))
        (Np.mk_ndarray [(length (fragments1 self) + length fragments)%nat]
           (Np.promote (Np.dtype_of (preferences self)) Np.float32)
           (Np.data (preferences self) ++ Np.data prefs))).
Proof.
  intros [H12 [Hshape Hdata]] Hne Hs Hd. unfold push, unzip2.
  destruct fragments as [|p l]; [congruence|].
  set (fragments := p :: l) in *.
  destruct (List.split fragments) as [new1 new2] eqn:Hsplit.
  rewrite Hs, Hd.
  replace (Np.shape_eqb [length fragments] [length fragments]) with true
    by (symmetry; apply shape_eqb_eq; reflexivity).
  cbn [negb Np.dtype_eqb fragments1 fragments2 preferences fst snd].
  unfold Np.concatenate. rewrite Hshape, Hs. rewrite Hd. reflexivity.
Qed.

(** Every failing push leaves a consistent dataset as it was. *)
Lemma push_raise_unchanged (self self' : dataset)
    (fragments : list (traj * traj)) (prefs : Np.ndarray) (e : exn) :
  consistent self ->
  push self fragments prefs = (Raise e, self') -> self' = self.
Proof.
  intros [H12 [Hshape Hdata]]. unfold push.
  destruct (unzip2 fragments) as [[new1 new2]|e0]; [|congruence].
  destruct (Np.shape_eqb (Np.shape prefs) [length fragments]) eqn:Hs;
    cbn [negb]; [|congruence].
  destruct (Np.dtype_eqb (Np.dtype_of prefs) Np.float32); cbn [negb];
    [|congruence].
  apply shape_eqb_eq in Hs.
  unfold Np.concatenate. cbn [preferences]. rewrite Hshape, Hs. discriminate.
Qed.

Lemma split_as_maps {A B} (l : list (A * B)) :
  List.split l = (map fst l, map snd l).
Proof.
  induction l as [|[a b] l IH]; simpl; [reflexivity|]. now rewrite IH.
Qed.

(** A push that returns passed all three checks. *)
Lemma push_ok_inv (self self' : dataset) (fragments : list (traj * traj))
    (prefs : Np.ndarray) :
  push self fragments prefs = (Ok tt, self') ->
  fragments <> [] /\
  Np.shape prefs = [length fragments] /\
  Np.dtype_of prefs = Np.float32.
Proof.
  unfold push, unzip2.
  destruct fragments as [|p l]; [discriminate|].
  set (fragments := p :: l) in *.
  destruct (List.split fragments) as [new1 new2].
  destruct (Np.shape_eqb (Np.shape prefs) [length fragments]) eqn:Hs;
    cbn [negb]; [|discriminate].
  destruct (Np.dtype_eqb (Np.dtype_of prefs) Np.float32) eqn:Hd;
    cbn [negb]; [|discriminate].
  intros _. apply shape_eqb_eq in Hs. apply dtype_eqb_eq in Hd.
  repeat split; try assumption. discriminate.
Qed.

(** C8.  On a dataset in a consistent state and for an array that holds
    as many elements as its shape says:
    - a push whose array has another shape than [(len(fragments),)], or
      another element kind than float32, raises;
    - every push that raises leaves the dataset exactly as it was;
    - a push that returns makes the length grow by the number of pushed
      pairs, leaves the old entries where they were, and has the new pairs
      and their preferences follow them in the order of the push;
    - a push of at least one pair that passes both checks returns. *)
Theorem push_checks_then_appends (self : dataset)
    (fragments : list (traj * traj)) (prefs : Np.ndarray) :
  consistent self ->
  Np.well_shaped prefs ->
  (Np.shape prefs <> [length fragments] \/ Np.dtype_of prefs <> Np.float32 ->
   exists e, push self fragments prefs = (Raise e, self))
  /\
  (forall e self', push self fragments prefs = (Raise e, self') ->
                   self' = self)
  /\
  (forall self', push self fragments prefs = (Ok tt, self') ->
     consistent self' /\
     exists n,
       __len__ self = Ok n /\
       __len__ self' = Ok (n + len fragments) /\
       (forall i, 0 <= i < n -> __getitem__ self' i = __getitem__ self i) /\
       (forall j pair, nth_error fragments j = Some pair ->
          exists q,
            nth_error (Np.data prefs) j = Some q /\
            __getitem__ self' (n + Z.of_nat j) = Ok (pair, q)))
  /\
  (fragments <> [] -> Np.shape prefs = [length fragments] ->
   Np.dtype_of prefs = Np.float32 ->
   exists self', push self fragments prefs = (Ok tt, self')).
Proof.
  intros Hcons Hwell.
  split; [|split; [|split]].
  - intros Hbad.
    destruct (push self fragments prefs) as [[[]|e] self'] eqn:Hpush.
    + apply push_ok_inv in Hpush. destruct Hpush as [_ [Hs Hd]].
      destruct Hbad; contradiction.
    + exists e. f_equal. eapply push_raise_unchanged; eassumption.
  - intros e self' Hpush. eapply push_raise_unchanged; eassumption.
  - intros self' Hpush.
    destruct (push_ok_inv _ _ _ _ Hpush) as [Hne [Hs Hd]].
    rewrite (push_ok self fragments prefs Hcons Hne Hs Hd) in Hpush.
    inversion Hpush as [Hself']. clear Hpush.
    rewrite split_as_maps. cbn [fst snd].
    assert (Hplen : length (Np.data prefs) = length fragments).
    { unfold Np.well_shaped in Hwell. rewrite Hs in Hwell. simpl in Hwell.
      lia. }
    pose proof Hcons as [H12 [Hshape Hdata]].
    assert (Hcons' : consistent
              (mk (fragments1 self ++ map fst fragments)
                  (fragments2 self ++ map snd fragments)
                  (Np.mk_ndarray
                     [(length (fragments1 self) + length fragments)%nat]
                     (Np.promote (Np.dtype_of (preferences self)) Np.float32)
                     (Np.data (preferences self) ++ Np.data prefs)))).
    { unfold consistent. cbn [fragments1 fragments2 preferences
                              Np.shape Np.data].
      rewrite !length_app, !length_map. repeat split; lia. }
    split; [exact Hcons'|].
    exists (len (fragments1 self)).
    split; [apply len_consistent; exact Hcons|].
    split.
    { rewrite (len_consistent _ Hcons'). cbn [fragments1].
      rewrite len_app. unfold len. now rewrite length_map. }
    split.
    + intros i Hi. unfold __getitem__, Np.getitem.
      cbn [fragments1 fragments2 preferences Np.shape Np.data].
      rewrite Hshape.
      rewrite !getitem_app_old; [reflexivity | | | ];
        unfold len in *; lia.
    + intros j [f1 f2] Hj.
      assert (Hjlt : (j < length fragments)%nat).
      { apply nth_error_Some. congruence. }
      destruct (nth_error (Np.data prefs) j) as [q|] eqn:Hq.
      2:{ apply nth_error_None in Hq. lia. }
      exists q. split; [reflexivity|].
      unfold __getitem__, Np.getitem.
      cbn [fragments1 fragments2 preferences Np.shape Np.data].
      rewrite (getitem_app_new (fragments1 self) (map fst fragments) j f1)
        by (rewrite nth_error_map, Hj; reflexivity).
      cbn [bind].
      replace (len (fragments1 self)) with (len (fragments2 self))
        by (unfold len; lia).
      rewrite (getitem_app_new (fragments2 self) (map snd fragments) j f2)
        by (rewrite nth_error_map, Hj; reflexivity).
      cbn [bind].
      replace (len (fragments2 self)) with (len (Np.data (preferences self)))
        by (unfold len; lia).
      rewrite (getitem_app_new _ _ j q Hq). reflexivity.
  - intros Hne Hs Hd. eexists. apply push_ok; assumption.
Qed.

(** C10.  A push of no pairs raises, whatever the preferences: the
    unpacking of the empty list of pairs into two names fails before any
    check.  It does so also for the empty float32 array, whose shape matches
    the number of pairs.  The dataset is left as it was. *)
Theorem push_of_no_pairs_raises (self : dataset) :
  (forall prefs, exists msg, push self [] prefs = (Raise (ValueError msg), self))
  /\
  Np.shape (Np.array Np.float32 []) = [length (@nil (traj * traj))] /\
  Np.dtype_of (Np.array Np.float32 []) = Np.float32 /\
  exists msg,
    push self [] (Np.array Np.float32 []) = (Raise (ValueError msg), self).
Proof.
  assert (H : forall prefs,
            exists msg, push self [] prefs = (Raise (ValueError msg), self)).
  { intro prefs. unfold push, unzip2. eauto. }
  split; [exact H|]. split; [reflexivity|]. split; [reflexivity|]. apply H.
Qed.

End DatasetFacts.

Lemma push_checks_then_appends_witness :
  (PreferenceDataset.consistent Example.dataset /\
   Np.well_shaped Example.good_preferences /\
   Np.well_shaped Example.long_preferences) /\
  (exists e,
     PreferenceDataset.push Example.dataset Example.pairs
       Example.long_preferences = (Raise e, Example.dataset)) /\
  (exists self',
     PreferenceDataset.push Example.dataset Example.pairs
       Example.good_preferences = (Ok tt, self') /\
     PreferenceDataset.__len__ self' = Ok 2 /\
     PreferenceDataset.__getitem__ self' 0
     = Ok ((Example.trajectory, Example.short_trajectory), 1%R) /\
     exists pair,
       nth_error Example.pairs 0 = Some pair /\
       PreferenceDataset.__getitem__ self' 1 = Ok (pair, 0%R)).
Proof.
  assert (Hc : PreferenceDataset.consistent Example.dataset)
    by (unfold PreferenceDataset.consistent; simpl; auto).
  assert (Hg : Np.well_shaped Example.good_preferences) by reflexivity.
  assert (Hl : Np.well_shaped Example.long_preferences) by reflexivity.
  split; [auto|]. split.
  - apply (proj1 (push_checks_then_appends Example.dataset Example.pairs
                    Example.long_preferences Hc Hl)).
    left. discriminate.
  - destruct (push_checks_then_appends Example.dataset Example.pairs
                Example.good_preferences Hc Hg)
      as [_ [_ [Hok Hreturns]]].
    destruct Hreturns as [self' Hpush];
      [discriminate | reflexivity | reflexivity |].
    exists self'. split; [exact Hpush|].
    destruct (Hok self' Hpush) as [_ [n [Hn [Hlen [Hold Hnew]]]]].
    assert (n = 1) by (vm_compute in Hn; congruence). subst n.
    split; [exact Hlen|]. split.
    + rewrite Hold by lia. reflexivity.
    + destruct (Hnew 0%nat _ eq_refl) as [q [Hq Hitem]].
      eexists. split; [reflexivity|].
      simpl in Hq. injection Hq as <-. exact Hitem.
Defined.

(** ** CrossEntropyRewardTrainer *)

Section TrainerFacts.
Import CrossEntropyRewardTrainer.
Local Open Scope R_scope.

Lemma discounted_from_one (t : nat) (rews : list R) :
  Rollout.discounted_from 1 t rews = Tensor.sum rews.
Proof.
  revert t. induction rews as [|r rews IH]; intro t; simpl; [reflexivity|].
  rewrite IH, pow1. lra.
Qed.

Lemma sum_of_differences (a b : list R) :
  length a = length b ->
  Tensor.sum (map (fun p => fst p - snd p) (combine a b))
  = Tensor.sum a - Tensor.sum b.
Proof.
  revert b. induction a as [|x a IH]; intros [|y b] Hlen;
    try discriminate Hlen; simpl; [lra|].
  rewrite IH by (simpl in Hlen; congruence). lra.
Qed.

Lemma sum_of_discounted_differences (gamma : R) (a b : list R) (t : nat) :
  length a = length b ->
  Tensor.sum
    (map (fun p => fst p * snd p)
       (combine (map (fun k => gamma ^ k) (seq t (length b)))
                (map (fun p => fst p - snd p) (combine a b))))
  = Rollout.discounted_from gamma t a - Rollout.discounted_from gamma t b.
Proof.
  revert b t. induction a as [|x a IH]; intros [|y b] t Hlen;
    try discriminate Hlen; simpl; [lra|].
  rewrite IH by (simpl in Hlen; congruence). lra.
Qed.

(** For tensors of one length, the difference that is clipped is the
    return of the second fragment minus the return of the first. *)
Lemma returns_diff_same_length (self : t) (rews1 rews2 : list R) :
  length rews1 = length rews2 ->
  returns_diff self rews1 rews2
  = Ok (Rollout.compute_returns rews2 (discount_factor self)
        - Rollout.compute_returns rews1 (discount_factor self)).
Proof.
  intro Hlen. unfold returns_diff, Rollout.compute_returns, Tensor.sub.
  rewrite broadcast2_same_length by congruence. cbn [bind].
  destruct (Req_dec_T (discount_factor self) 1) as [Hone|Hne].
  - rewrite Hone, !discounted_from_one.
    rewrite sum_of_differences by congruence. reflexivity.
  - unfold Tensor.mul, Tensor.powers.
    rewrite broadcast2_same_length.
    + cbn [bind]. rewrite sum_of_discounted_differences by congruence.
      reflexivity.
    + rewrite !length_map, length_seq, length_combine. lia.
Qed.

Lemma probability_same_length (self : t) (rews1 rews2 : list R) :
  length rews1 = length rews2 ->
  _probability self rews1 rews2
  = Ok (noise_prob self * (1 / 2)
        + (1 - noise_prob self)
          * softmax_first self
              (Rollout.compute_returns rews2 (discount_factor self)
               - Rollout.compute_returns rews1 (discount_factor self))).
Proof.
  intro Hlen. unfold _probability.
  rewrite returns_diff_same_length by assumption. reflexivity.
Qed.

(** C1, as the code has it.  For two reward tensors of one length the
    predicted probability that fragment 1 is preferred is the blend
    [noise_prob * 0.5 + (1 - noise_prob) * p] of one half with
    [p = 1 / (1 + exp (clip (return2 - return1)))]: the softmax form
    and the orientation of the synthetic gatherer, not the reversed one.  The
    returns are the discounted sums of the predicted rewards, and for a
    non-negative threshold the clipped argument lies in
    [-threshold, threshold]. *)
Theorem probability_is_softmax_of_return2_minus_return1
    (self : t) (rews1 rews2 : list R) :
  length rews1 = length rews2 ->
  let return1 := Rollout.compute_returns rews1 (discount_factor self) in
  let return2 := Rollout.compute_returns rews2 (discount_factor self) in
  let diff :=
    Tensor.clip (return2 - return1) (- threshold self) (threshold self) in
  _probability self rews1 rews2
  = Ok (noise_prob self * (1 / 2)
        + (1 - noise_prob self) * (1 / (1 + exp diff)))
  /\ (0 <= threshold self -> - threshold self <= diff <= threshold self).
Proof.
  intros Hlen return1 return2 diff. split.
  - rewrite probability_same_length by assumption. reflexivity.
  - intro Hthr. apply clip_bounds. exact Hthr.
Qed.

(** On two reward tensors of one length, as the fragments of one
    fragmenter give them, and for a non-negative threshold, swapping the
    fragments complements the predicted probability, whatever the noise
    probability and the discount. *)
Theorem probability_swap_complements (self : t) (rews1 rews2 : list R) :
  length rews1 = length rews2 ->
  0 <= threshold self ->
  exists p q,
    _probability self rews1 rews2 = Ok p /\
    _probability self rews2 rews1 = Ok q /\
    p = 1 - q.
Proof.
  intros Hlen Hthr.
  rewrite (probability_same_length self rews1 rews2 Hlen).
  rewrite (probability_same_length self rews2 rews1 (eq_sym Hlen)).
  eexists. eexists. split; [reflexivity|]. split; [reflexivity|].
  unfold softmax_first.
  set (r1 := Rollout.compute_returns rews1 (discount_factor self)).
  set (r2 := Rollout.compute_returns rews2 (discount_factor self)).
  replace (r1 - r2) with (- (r2 - r1)) by lra.
  rewrite clip_opp by assumption. rewrite logistic_opp. lra.
Qed.

End TrainerFacts.

Section TrainerExamples.
Import CrossEntropyRewardTrainer.
Local Open Scope R_scope.

Lemma logistic_above_one_half_at (d : R) :
  d < 0 -> 1 / 2 < 1 / (1 + exp d).
Proof.
  intro Hd. pose proof (exp_pos d) as Hpos.
  assert (Hlt : exp d < 1) by (rewrite <- exp_0; apply exp_increasing, Hd).
  apply Rmult_lt_reg_r with (1 + exp d); [lra|].
  unfold Rdiv at 2. rewrite Rmult_assoc, Rinv_l by lra. lra.
Qed.

Lemma logistic_injective (a b : R) :
  1 / (1 + exp a) = 1 / (1 + exp b) -> a = b.
Proof.
  intro H. pose proof (exp_pos a). pose proof (exp_pos b).
  apply exp_inv.
  assert (Hinv : / (1 + exp a) = / (1 + exp b)) by lra.
  apply Rinv_eq_reg in Hinv. lra.
Qed.

Lemma probability_is_softmax_of_return2_minus_return1_witness :
  length [1; 2] = length [2; 3] /\
  _probability __init__ [1; 2] [2; 3]
  = Ok (0 * (1 / 2) + (1 - 0) * (1 / (1 + exp 2))).
Proof.
  assert (Hlen : length [1; 2] = length [2; 3]) by reflexivity.
  split; [exact Hlen|].
  pose proof (probability_is_softmax_of_return2_minus_return1
                __init__ [1; 2] [2; 3] Hlen) as Hp.
  cbv zeta in Hp. destruct Hp as [Hp _]. rewrite Hp.
  assert (Hclip :
    Tensor.clip
      (Rollout.compute_returns [2; 3] (discount_factor __init__)
       - Rollout.compute_returns [1; 2] (discount_factor __init__))
      (- threshold __init__) (threshold __init__) = 2).
  { rewrite clip_inside;
      cbv [Rollout.compute_returns Rollout.discounted_from __init__
           discount_factor threshold]; simpl; lra. }
  rewrite Hclip. reflexivity.
Defined.

(** C1 as the claim words it fails.  With rewards [1] for the first
    fragment and [0] for the second, no noise and no discount, the code
    returns [1 / (1 + exp (-1))], above one half; the reversed formula
    gives [1 / (1 + exp 1)]. *)
Lemma probability_is_not_softmax_of_return1_minus_return2 :
  _probability __init__ [1] [0]
  <> Ok (1 / (1 + exp (Tensor.clip
                         (Rollout.compute_returns [1] (discount_factor __init__)
                          - Rollout.compute_returns [0] (discount_factor __init__))
                         (- threshold __init__) (threshold __init__)))).
Proof.
  rewrite probability_same_length by reflexivity.
  unfold softmax_first.
  change (discount_factor __init__) with 1.
  change (threshold __init__) with 50.
  change (noise_prob __init__) with 0.
  assert (R1 : Rollout.compute_returns [1] 1 = 1)
    by (cbv [Rollout.compute_returns Rollout.discounted_from]; simpl; lra).
  assert (R0 : Rollout.compute_returns [0] 1 = 0)
    by (cbv [Rollout.compute_returns Rollout.discounted_from]; simpl; lra).
  rewrite R1, R0. rewrite !clip_inside by lra.
  intro H. injection H as H.
  assert (H' : 1 / (1 + exp (0 - 1)) = 1 / (1 + exp (1 - 0))) by lra.
  apply logistic_injective in H'. lra.
Qed.

Lemma probability_swap_complements_witness :
  (length [1; 2] = length [2; 3] /\ 0 <= threshold Example.discounting_trainer)
  /\
  exists p q,
    _probability Example.discounting_trainer [1; 2] [2; 3] = Ok p /\
    _probability Example.discounting_trainer [2; 3] [1; 2] = Ok q /\
    p = 1 - q.
Proof.
  assert (Hlen : length [1; 2] = length [2; 3]) by reflexivity.
  assert (Hthr : 0 <= threshold Example.discounting_trainer)
    by (simpl; lra).
  split; [auto|].
  exact (probability_swap_complements Example.discounting_trainer
           [1; 2] [2; 3] Hlen Hthr).
Defined.

(** Without its hypothesis on the threshold the symmetry is lost: with a
    threshold of -1 the clip returns -1 for either order, and both
    probabilities are [1 / (1 + exp (-1))]. *)
Lemma probability_swap_fails_for_negative_threshold :
  exists p q,
    _probability (mk 0 32 1 1 (-1)) [1] [0] = Ok p /\
    _probability (mk 0 32 1 1 (-1)) [0] [1] = Ok q /\
    p <> 1 - q.
Proof.
  rewrite !probability_same_length by reflexivity.
  eexists. eexists. split; [reflexivity|]. split; [reflexivity|].
  unfold softmax_first. cbn [noise_prob threshold discount_factor].
  assert (R1 : Rollout.compute_returns [1] 1 = 1)
    by (cbv [Rollout.compute_returns Rollout.discounted_from]; simpl; lra).
  assert (R0 : Rollout.compute_returns [0] 1 = 0)
    by (cbv [Rollout.compute_returns Rollout.discounted_from]; simpl; lra).
  rewrite R1, R0.
  assert (C1 : Tensor.clip (0 - 1) (- -1) (-1) = -1).
  { unfold Tensor.clip, Rmin, Rmax.
    destruct (Rle_dec (0 - 1) (- -1)); destruct (Rle_dec _ (-1)); lra. }
  assert (C2 : Tensor.clip (1 - 0) (- -1) (-1) = -1).
  { unfold Tensor.clip, Rmin, Rmax.
    destruct (Rle_dec (1 - 0) (- -1)); destruct (Rle_dec _ (-1)); lra. }
  rewrite C1, C2.
  pose proof (logistic_above_one_half_at (-1) ltac:(lra)). lra.
Qed.


End TrainerExamples.

(** ** PreferenceComparisons *)

Section ComponentCalls.
Context {Obs Act Info : Type}.
Local Abbreviation traj := (TrajectoryWithRew Obs Act Info).
Local Abbreviation dataset := (PreferenceDataset.t Obs Act Info).

Lemma length_binomial1 (ps : list R) (g : Np.Generator) :
  length (fst (Np.binomial1 ps g)) = length ps.
Proof.
  revert g. induction ps as [|p ps IH]; intro g; simpl; [reflexivity|].
  specialize (IH (fun i => g (S i))).
  destruct (Np.binomial1 ps (fun i => g (S i))) as [xs g'].
  simpl in *. now rewrite IH.
Qed.

(** On a batch with at least one pair the gatherer returns a float32
    array with one entry per pair, in each of its three modes. *)
Lemma gatherer_call_ok (ga : SyntheticGatherer.t)
    (fragments : list (traj * traj)) :
  fragments <> [] ->
  exists out ga',
    SyntheticGatherer.__call__ ga fragments
    = (Ok (Np.array Np.float32 out), ga') /\
    length out = length fragments.
Proof.
  intro Hne.
  destruct (Req_dec_T (SyntheticGatherer.temperature ga) 0) as [HT|HT].
  - rewrite call_zero_temperature by assumption.
    eexists. eexists. split; [reflexivity|]. now rewrite length_map.
  - destruct (SyntheticGatherer.sample ga) eqn:Hs.
    + unfold SyntheticGatherer.__call__.
      rewrite reward_sums_nonempty by assumption.
      destruct (Req_dec_T (SyntheticGatherer.temperature ga) 0);
        [contradiction|].
      unfold SyntheticGatherer.model_probs_of, Tensor.sub.
      rewrite !map_map, broadcast2_maps. cbn [bind].
      rewrite !map_map.
      cbn [SyntheticGatherer.sample SyntheticGatherer.set_logger
           SyntheticGatherer.rng].
      rewrite Hs.
      match goal with
      | |- context [Np.binomial1 ?ps ?g] =>
          pose proof (length_binomial1 ps g) as Hlen;
          destruct (Np.binomial1 ps g) as [draws g']
      end.
      eexists. eexists. split; [reflexivity|].
      simpl in Hlen. now rewrite Hlen, length_map.
    + pose proof (call_softmax ga fragments HT Hs Hne) as Hcall.
      cbv zeta in Hcall. rewrite Hcall.
      eexists. eexists. split; [reflexivity|]. now rewrite length_map.
Qed.

(** A call of the fragmenter changes neither the fragment length nor the
    number of pairs. *)
Lemma fragmenter_call_keeps_settings (fr fr' : RandomFragmenter.t)
    (trajectories : list traj) (r : result (list (traj * traj))) :
  RandomFragmenter.__call__ fr trajectories = (r, fr') ->
  RandomFragmenter.fragment_length fr' = RandomFragmenter.fragment_length fr /\
  RandomFragmenter.num_pairs fr' = RandomFragmenter.num_pairs fr.
Proof.
  unfold RandomFragmenter.__call__.
  destruct (len (RandomFragmenter.long_enough fr trajectories) =? 0).
  { intro H. inversion H; subst. auto. }
  set (l := RandomFragmenter.long_enough fr trajectories).
  set (fr1 := RandomFragmenter.report_transitions _ _).
  destruct (reports_keep_settings fr (len trajectories) l
              (map traj_len l)) as [Hfl [Hnp _]].
  fold fr1 in Hfl, Hnp.
  destruct (RandomFragmenter.draw_fragments _ fr1 l _ _ _) as [[fs|e] g];
    intro H; inversion H; subst; simpl; auto.
Qed.

(** The fragmenter returns exactly [num_pairs] pairs as soon as one of the
    trajectories is long enough. *)
Lemma fragmenter_call_ok (fr : RandomFragmenter.t) (trajectories : list traj) :
  0 < RandomFragmenter.fragment_length fr ->
  0 <= RandomFragmenter.num_pairs fr ->
  Exists (fun tr => RandomFragmenter.fragment_length fr <= traj_len tr)
         trajectories ->
  exists pairs fr',
    RandomFragmenter.__call__ fr trajectories = (Ok pairs, fr') /\
    length pairs = Z.to_nat (RandomFragmenter.num_pairs fr).
Proof.
  intros Hfl Hnp Hex.
  destruct (call_ok fr trajectories Hfl) as [pairs [fr' [Hcall _]]].
  { apply Exists_exists in Hex. destruct Hex as [tr [Hin Hlen]].
    intro Hnil.
    assert (Hin' : In tr (RandomFragmenter.long_enough fr trajectories))
      by (apply long_enough_In; auto).
    rewrite Hnil in Hin'. exact Hin'. }
  exists pairs, fr'. split; [exact Hcall|].
  destruct (call_inv _ _ _ _ Hcall) as [fragments [Hpairs [Hlen _]]].
  subst pairs. rewrite length_zip_iter_self, Hlen.
  replace (Z.to_nat (2 * RandomFragmenter.num_pairs fr))
    with (2 * Z.to_nat (RandomFragmenter.num_pairs fr))%nat by lia.
  apply Nat.div2_double.
Qed.

Lemma extends_by_refl (d : dataset) : PreferenceDataset.extends_by 0 d d.
Proof.
  exists [], [], []. rewrite !app_nil_r. simpl. auto 10.
Qed.

Lemma extends_by_trans (a b : nat) (d1 d2 d3 : dataset) :
  PreferenceDataset.extends_by a d1 d2 ->
  PreferenceDataset.extends_by b d2 d3 ->
  PreferenceDataset.extends_by (a + b) d1 d3.
Proof.
  intros [n1 [n2 [np [H1 [H2 [H3 [E1 [E2 E3]]]]]]]]
         [m1 [m2 [mp [G1 [G2 [G3 [F1 [F2 F3]]]]]]]].
  exists (n1 ++ m1), (n2 ++ m2), (np ++ mp).
  rewrite !length_app, F1, F2, F3, E1, E2, E3, !app_assoc.
  repeat split; lia.
Qed.

Lemma extends_by_len (k : nat) (d d' : dataset) :
  PreferenceDataset.extends_by k d d' ->
  len (PreferenceDataset.fragments1 d')
  = len (PreferenceDataset.fragments1 d) + Z.of_nat k.
Proof.
  intros [n1 [n2 [np [H1 [_ [_ [E1 _]]]]]]].
  rewrite E1, len_app. unfold len. lia.
Qed.

(** A push of the gatherer's answer for a non-empty batch succeeds and
    appends one entry per pair. *)
Lemma push_gathered (d : dataset) (fragments : list (traj * traj))
    (out : list R) :
  PreferenceDataset.consistent d ->
  fragments <> [] ->
  length out = length fragments ->
  exists d',
    PreferenceDataset.push d fragments (Np.array Np.float32 out)
    = (Ok tt, d') /\
    PreferenceDataset.consistent d' /\
    PreferenceDataset.extends_by (length fragments) d d'.
Proof.
  intros Hcons Hne Hlen.
  rewrite push_ok; try assumption;
    [| unfold Np.array; simpl; congruence | reflexivity].
  eexists. split; [reflexivity|].
  rewrite split_as_maps. cbn [fst snd].
  destruct Hcons as [H12 [Hshape Hdata]].
  split.
  - unfold PreferenceDataset.consistent.
    cbn [PreferenceDataset.fragments1 PreferenceDataset.fragments2
         PreferenceDataset.preferences Np.shape Np.data Np.array].
    rewrite !length_app, !length_map. repeat split; lia.
  - exists (map fst fragments), (map snd fragments), out.
    rewrite !length_map. cbn. auto 10.
Qed.

End ComponentCalls.

Section OrchestratorFacts.
Context {Obs Act Info Ext : Type}.
Import PreferenceComparisons.
Local Abbreviation traj := (TrajectoryWithRew Obs Act Info).
Local Abbreviation dataset_t := (PreferenceDataset.t Obs Act Info).
Local Abbreviation self_t :=
  (PreferenceComparisons.t (Obs:=Obs) (Act:=Act) (Info:=Info) Ext).
Local Abbreviation body :=
  (PreferenceComparisons.M (Obs:=Obs) (Act:=Act) (Info:=Info) Ext).

(** *** Method bodies that return *)

Lemma returns_bind {A B} (c : body A) (k : A -> body B)
    (P : self_t -> Prop) (Q : A -> self_t -> Prop) (R : B -> self_t -> Prop) :
  returns c P Q -> (forall a, returns (k a) (Q a) R) ->
  returns (mbind c k) P R.
Proof.
  intros Hc Hk self HP. unfold mbind.
  destruct (Hc self HP) as [a [self1 [Hrun HQ]]]. rewrite Hrun.
  exact (Hk a self1 HQ).
Qed.

Lemma returns_post {A} (c : body A) (P : self_t -> Prop)
    (Q Q' : A -> self_t -> Prop) :
  returns c P Q -> (forall a self, Q a self -> Q' a self) -> returns c P Q'.
Proof.
  intros Hc Himp self HP.
  destruct (Hc self HP) as [a [self1 [Hrun HQ]]]. eauto.
Qed.

Lemma returns_assuming {A} (c : body A) (phi : Prop) (P : self_t -> Prop)
    (Q : A -> self_t -> Prop) :
  (phi -> returns c P Q) -> returns c (fun self => phi /\ P self) Q.
Proof. intros Hc self [Hphi HP]. exact (Hc Hphi self HP). Qed.

Lemma returns_get {A} (proj : self_t -> A) (P : self_t -> Prop) :
  returns (get proj) P (fun _ => P).
Proof. intros self HP. unfold get. eauto. Qed.

Lemma returns_lift {A} (r : result A) (a : A) (P : self_t -> Prop) :
  r = Ok a -> returns (lift r) P (fun x self => x = a /\ P self).
Proof. intros -> self HP. unfold lift. eauto. Qed.

(** *** The invariant of the loop *)

(** The fragment length and the number of pairs of the run. *)
Variable FL NP : Z.

Local Abbreviation holds := (PreferenceComparisons.holds (Ext:=Ext) FL NP).

Lemma returns_emit (e : Logger.event) (d : dataset_t) :
  returns (emit e) (holds d) (fun _ => holds d).
Proof.
  intros self H. unfold emit.
  eexists. eexists. split; [reflexivity | exact H].
Qed.

Lemma returns_call_ext {A} (c : ext_call Ext A) (phi : A -> Prop)
    (d : dataset_t) :
  (forall e l, exists a e' l', c e l = (Ok a, e', l') /\ phi a) ->
  returns (call_ext c) (holds d) (fun a self => phi a /\ holds d self).
Proof.
  intros Hc self H. unfold call_ext.
  destruct (Hc (ext self) (logger self)) as [a [e' [l' [Hrun Hphi]]]].
  rewrite Hrun. eexists. eexists. split; [reflexivity|]. split; assumption.
Qed.

Lemma returns_call_ext_unit (c : ext_call Ext unit) (d : dataset_t) :
  (forall e l, exists e' l', c e l = (Ok tt, e', l')) ->
  returns (call_ext c) (holds d) (fun _ => holds d).
Proof.
  intros Hc self H. unfold call_ext.
  destruct (Hc (ext self) (logger self)) as [e' [l' Hrun]].
  rewrite Hrun. eexists. eexists. split; [reflexivity | exact H].
Qed.

Lemma returns_get_dataset (d : dataset_t) :
  returns (get (dataset (Ext:=Ext))) (holds d)
          (fun x self => x = d /\ holds d self).
Proof.
  intros self H. unfold get. eexists. eexists.
  split; [reflexivity|]. split; [apply H | exact H].
Qed.

Lemma returns_exists {A X} (c : body A) (P : X -> self_t -> Prop)
    (Q : A -> self_t -> Prop) :
  (forall x, returns c (P x) Q) ->
  returns c (fun self => exists x, P x self) Q.
Proof. intros Hc self [x HP]. exact (Hc x self HP). Qed.

(** The scope of [accumulate_means] only adds two log entries. *)
Lemma returns_accumulate_means {A} (prefix : string) (c : body A)
    (d d' : dataset_t) (phi : A -> Prop) :
  returns c (holds d) (fun a self => phi a /\ holds d' self) ->
  returns (accumulate_means prefix c) (holds d)
          (fun a self => phi a /\ holds d' self).
Proof.
  intros Hc self H. unfold accumulate_means, emit.
  edestruct Hc as [a [self1 [Hrun [Hphi H1]]]]; [|rewrite Hrun].
  - exact H.
  - eexists. eexists. split; [reflexivity|]. split; assumption.
Qed.

Lemma returns_call_fragmenter (trajectories : list traj) (d : dataset_t) :
  0 < FL -> 0 <= NP ->
  Exists (fun tr => FL <= traj_len tr) trajectories ->
  returns (call_fragmenter trajectories) (holds d)
          (fun pairs self => length pairs = Z.to_nat NP /\ holds d self).
Proof.
  intros HFL HNP Hlong self [Hd [Hfl Hnp]]. unfold call_fragmenter.
  set (fr := RandomFragmenter.set_logger (fragmenter self) (logger self)).
  assert (Hfl' : RandomFragmenter.fragment_length fr = FL) by exact Hfl.
  assert (Hnp' : RandomFragmenter.num_pairs fr = NP) by exact Hnp.
  destruct (fragmenter_call_ok fr trajectories) as [pairs [fr' [Hcall Hlen]]];
    try (rewrite ?Hfl', ?Hnp'; assumption).
  rewrite Hcall.
  destruct (fragmenter_call_keeps_settings _ _ _ _ Hcall) as [Hk1 Hk2].
  eexists. eexists. split; [reflexivity|].
  split; [congruence|]. unfold holds. simpl. repeat split; congruence.
Qed.

Lemma returns_call_gatherer (fragments : list (traj * traj)) (d : dataset_t) :
  fragments <> [] ->
  returns (call_gatherer fragments) (holds d)
          (fun prefs self =>
             (exists out, prefs = Np.array Np.float32 out /\
                          length out = length fragments) /\
             holds d self).
Proof.
  intros Hne self H. unfold call_gatherer.
  destruct (gatherer_call_ok
              (SyntheticGatherer.set_logger (preference_gatherer self)
                 (logger self)) fragments Hne) as [out [ga' [Hcall Hlen]]].
  rewrite Hcall. eexists. eexists. split; [reflexivity|].
  split; [eauto | exact H].
Qed.

Lemma returns_dataset_push (fragments : list (traj * traj)) (out : list R)
    (d : dataset_t) :
  PreferenceDataset.consistent d ->
  fragments <> [] -> length out = length fragments ->
  returns (dataset_push fragments (Np.array Np.float32 out)) (holds d)
          (fun _ self =>
             exists d',
               (PreferenceDataset.consistent d' /\
                PreferenceDataset.extends_by (length fragments) d d') /\
               holds d' self).
Proof.
  intros Hcons Hne Hlen self [Hd [Hfl Hnp]]. unfold dataset_push.
  rewrite Hd.
  destruct (push_gathered d fragments out Hcons Hne Hlen)
    as [d' [Hpush [Hcons' Hext]]].
  rewrite Hpush. eexists. eexists. split; [reflexivity|].
  exists d'. unfold PreferenceComparisons.holds. simpl. auto.
Qed.

(** *** The loop *)

Variable trajectory_generator_sample : Z -> ext_call Ext (list traj).
Variable _check_fixed_horizon : list traj -> ext_call Ext unit.
Variable reward_trainer_train : dataset_t -> ext_call Ext unit.
Variable trajectory_generator_train : Z -> ext_call Ext unit.

Local Abbreviation train_iteration :=
  (PreferenceComparisons.train_iteration trajectory_generator_sample
     _check_fixed_horizon reward_trainer_train trajectory_generator_train).
Local Abbreviation train_from :=
  (PreferenceComparisons.train_from trajectory_generator_sample
     _check_fixed_horizon reward_trainer_train trajectory_generator_train).
Local Abbreviation train :=
  (PreferenceComparisons.train trajectory_generator_sample
     _check_fixed_horizon reward_trainer_train trajectory_generator_train).

Hypothesis FL_positive : 0 < FL.
Hypothesis NP_positive : 0 < NP.

(** What the run needs from its surroundings: every sample holds a
    trajectory long enough for a fragment, and no call raises; of the
    reward trainer this is asked only for a dataset that is not empty. *)
Hypothesis sample_ok : forall steps e l,
  exists trajectories e' l',
    trajectory_generator_sample steps e l = (Ok trajectories, e', l') /\
    Exists (fun tr => FL <= traj_len tr) trajectories.
Hypothesis check_ok : forall trajectories e l,
  exists e' l', _check_fixed_horizon trajectories e l = (Ok tt, e', l').
Hypothesis reward_train_ok : forall d e l n,
  PreferenceDataset.__len__ d = Ok n -> 0 < n ->
  exists e' l', reward_trainer_train d e l = (Ok tt, e', l').
Hypothesis agent_train_ok : forall steps e l,
  exists e' l', trajectory_generator_train steps e l = (Ok tt, e', l').

(** One turn of the loop returns and appends [NP] entries to the dataset. *)
Lemma train_iteration_returns (i : Z) (d : dataset_t) :
  PreferenceDataset.consistent d ->
  returns (train_iteration i) (holds d)
    (fun _ self =>
       exists d',
         (PreferenceDataset.consistent d' /\
          PreferenceDataset.extends_by (Z.to_nat NP) d d') /\
         holds d' self).
Proof.
  intro Hcons. unfold PreferenceComparisons.train_iteration.
  eapply returns_bind; [apply returns_get | intros steps].
  eapply returns_bind; [apply returns_emit | intros ?].
  eapply returns_bind;
    [apply returns_call_ext, sample_ok | intros trajectories].
  apply returns_assuming. intro Hlong.
  eapply returns_bind;
    [apply returns_call_ext_unit, check_ok | intros ?].
  eapply returns_bind; [apply returns_emit | intros ?].
  eapply returns_bind;
    [apply returns_call_fragmenter; [lia | lia | exact Hlong]
    | intros fragments].
  apply returns_assuming. intro Hlen.
  assert (Hne : fragments <> []).
  { intro; subst. simpl in Hlen. lia. }
  eapply returns_bind.
  { apply returns_accumulate_means.
    eapply returns_bind; [apply returns_emit | intros ?].
    apply returns_call_gatherer. exact Hne. }
  intros preferences. apply returns_assuming.
  intros [out [-> Hout]].
  eapply returns_bind;
    [apply returns_dataset_push; assumption | intros ?].
  apply returns_exists. intro d'.
  apply returns_assuming. intros [Hcons' Hext].
  rewrite Hlen in Hext.
  apply returns_post with (Q := fun _ => holds d'); [|eauto].
  eapply returns_bind; [apply returns_get_dataset | intros d0].
  apply returns_assuming. intros ->.
  eapply returns_bind;
    [apply returns_lift, len_consistent, Hcons' | intros n].
  apply returns_assuming. intros _.
  eapply returns_bind; [apply returns_emit | intros ?].
  eapply returns_bind.
  { apply returns_post
      with (Q := fun (_ : unit) self => True /\ holds d' self);
      [|intros ? ? H; exact H].
    apply returns_accumulate_means.
    eapply returns_bind; [apply returns_emit | intros ?].
    eapply returns_bind; [apply returns_get_dataset | intros d1].
    apply returns_assuming. intros ->.
    eapply returns_post; [apply returns_call_ext_unit | auto].
    intros e l.
    apply (reward_train_ok d' e l _ (len_consistent _ Hcons')).
    rewrite (extends_by_len _ _ _ Hext).
    pose proof (len_nonneg (PreferenceDataset.fragments1 d)). lia. }
  intros ?. apply returns_assuming. intros _.
  eapply returns_bind.
  { apply returns_post
      with (Q := fun (_ : unit) self => True /\ holds d' self);
      [|intros ? ? H; exact H].
    apply returns_accumulate_means.
    eapply returns_bind; [apply returns_get | intros steps'].
    eapply returns_bind; [apply returns_emit | intros ?].
    eapply returns_post;
      [apply returns_call_ext_unit, agent_train_ok | auto]. }
  intros ?. apply returns_assuming. intros _.
  apply returns_emit.
Qed.

Lemma returns_ret {A} (a : A) (P : self_t -> Prop) :
  returns (ret a) P (fun _ => P).
Proof. intros self HP. unfold ret. eauto. Qed.

(** [turns] turns of the loop return and append [turns * NP] entries. *)
Lemma train_from_returns (turns : nat) :
  forall (i : Z) (d : dataset_t),
    PreferenceDataset.consistent d ->
    returns (train_from i turns) (holds d)
      (fun _ self =>
         exists d',
           (PreferenceDataset.consistent d' /\
            PreferenceDataset.extends_by (turns * Z.to_nat NP) d d') /\
           holds d' self).
Proof.
  induction turns as [|turns IH]; intros i d Hcons;
    cbn [PreferenceComparisons.train_from].
  - eapply returns_post; [apply returns_ret|].
    intros ? self H. exists d. split; [split|]; try assumption.
    apply extends_by_refl.
  - eapply returns_bind; [apply train_iteration_returns, Hcons | intros ?].
    apply returns_exists. intro d1.
    apply returns_assuming. intros [Hcons1 Hext1].
    eapply returns_post; [apply IH, Hcons1|].
    intros ? self [d2 [[Hcons2 Hext2] H2]].
    exists d2. split; [split|]; try assumption.
    change (S turns * Z.to_nat NP)%nat
      with (Z.to_nat NP + turns * Z.to_nat NP)%nat.
    eapply extends_by_trans; eassumption.
Qed.

(** A run of [a + b] turns is a run of [a] turns followed by one of [b]
    turns. *)
Lemma train_from_app (a b : nat) :
  forall (i : Z) (self : self_t),
    train_from i (a + b) self
    = mbind (train_from i a) (fun _ => train_from (i + Z.of_nat a) b) self.
Proof.
  induction a as [|a IH]; intros i self.
  - cbn [Nat.add PreferenceComparisons.train_from]. unfold mbind, ret.
    now rewrite Z.add_0_r.
  - cbn [Nat.add PreferenceComparisons.train_from]. unfold mbind at 1 2 3.
    destruct (train_iteration i self) as [[u|e] self1]; [|reflexivity].
    rewrite IH. unfold mbind.
    replace (i + 1 + Z.of_nat a) with (i + Z.of_nat (S a)) by lia.
    reflexivity.
Qed.

(** The calls of a turn that returned, read off the body of the loop. *)
Lemma train_iteration_calls (i : Z) (self self' : self_t) :
  train_iteration i self = (Ok tt, self') ->
  calls_of_iteration trajectory_generator_sample _check_fixed_horizon
    reward_trainer_train trajectory_generator_train i self
    (dataset self') self'.
Proof.
  unfold PreferenceComparisons.train_iteration, mbind, get, emit, call_ext,
    accumulate_means, call_fragmenter, call_gatherer, dataset_push, lift,
    emit, Logger.emit.
  cbn [ext logger sample_steps agent_steps dataset fragmenter
       preference_gatherer].
  destruct (trajectory_generator_sample _ _ _)
    as [[[trajectories|ex] e1] l1] eqn:Hsample; [|discriminate].
  cbn [ext logger sample_steps agent_steps dataset fragmenter
       preference_gatherer].
  destruct (_check_fixed_horizon _ _ _) as [[[[]|ex] e2] l2] eqn:Hcheck;
    [|discriminate].
  cbn [ext logger sample_steps agent_steps dataset fragmenter
       preference_gatherer].
  destruct (RandomFragmenter.__call__ _ _) as [[fragments|ex] fr'];
    [|discriminate].
  cbn [ext logger sample_steps agent_steps dataset fragmenter
       preference_gatherer].
  destruct (SyntheticGatherer.__call__ _ _) as [[preferences|ex] ga'];
    [|discriminate].
  cbn [ext logger sample_steps agent_steps dataset fragmenter
       preference_gatherer].
  destruct (PreferenceDataset.push _ _ _) as [[[]|ex] d'];
    [|discriminate].
  cbn [ext logger sample_steps agent_steps dataset fragmenter
       preference_gatherer].
  destruct (PreferenceDataset.__len__ d') as [n|ex] eqn:Hlen;
    [|discriminate].
  cbn [ext logger sample_steps agent_steps dataset fragmenter
       preference_gatherer].
  destruct (reward_trainer_train _ _ _) as [[[[]|ex] e3] l3] eqn:Hreward;
    [|discriminate].
  cbn [ext logger sample_steps agent_steps dataset fragmenter
       preference_gatherer].
  destruct (trajectory_generator_train _ _ _) as [[[[]|ex] e4] l4] eqn:Hagent;
    [|discriminate].
  cbn [ext logger sample_steps agent_steps dataset fragmenter
       preference_gatherer].
  intro H. injection H as <-.
  cbn [ext logger sample_steps agent_steps dataset fragmenter
       preference_gatherer].
  rewrite <- !app_assoc in Hreward, Hagent. cbn [app] in Hreward, Hagent.
  unfold calls_of_iteration.
  exists trajectories, e1, l1, e2, l2,
    (SyntheticGatherer.logger ga' ++
     [Logger.accumulate_means_exit "preferences"]), n, e3, l3, e4, l4.
  cbn [ext logger dataset].
  repeat split; try assumption; try reflexivity.
  now rewrite <- app_assoc.
Qed.

(** C9.  An orchestrator that starts from the empty dataset, in
    surroundings that do not raise and whose samples always hold a
    trajectory long enough for a fragment, runs any number [n] of
    iterations to the end.  After iteration [i] of the run the dataset
    holds [i * num_pairs] entries, and at the end of the run it holds
    [n * num_pairs]: the entries it had after iteration [i], in their
    order, followed by [(n - i) * num_pairs] more.  Nothing is ever removed.
    The next turn, if there is one, appends [num_pairs] entries and then
    hands the reward trainer the whole dataset, of [(i + 1) * num_pairs]
    entries: what the trainer saw in the turn before, followed by the new
    entries. *)
Theorem dataset_grows_by_num_pairs_each_iteration
    (self0 : self_t) (n i : Z) :
  dataset self0 = PreferenceDataset.__init__ ->
  RandomFragmenter.fragment_length (fragmenter self0) = FL ->
  RandomFragmenter.num_pairs (fragmenter self0) = NP ->
  0 <= i <= n ->
  exists self_i self_n,
    train i self0 = (Ok tt, self_i) /\
    train_from i (Z.to_nat (n - i)) self_i = (Ok tt, self_n) /\
    train n self0 = (Ok tt, self_n) /\
    PreferenceDataset.__len__ (dataset self_i) = Ok (i * NP) /\
    PreferenceDataset.__len__ (dataset self_n) = Ok (n * NP) /\
    PreferenceDataset.extends_by (Z.to_nat ((n - i) * NP))
      (dataset self_i) (dataset self_n) /\
    (i < n ->
     exists self_i1,
       train_iteration i self_i = (Ok tt, self_i1) /\
       train (i + 1) self0 = (Ok tt, self_i1) /\
       PreferenceDataset.__len__ (dataset self_i1) = Ok ((i + 1) * NP) /\
       PreferenceDataset.extends_by (Z.to_nat NP)
         (dataset self_i) (dataset self_i1) /\
       calls_of_iteration trajectory_generator_sample _check_fixed_horizon
         reward_trainer_train trajectory_generator_train i self_i
         (dataset self_i1) self_i1).
Proof.
  intros Hd Hfl Hnp Hin.
  assert (H0 : holds PreferenceDataset.__init__ self0)
    by (unfold PreferenceComparisons.holds; auto).
  destruct (train_from_returns (Z.to_nat i) 0 _ init_consistent self0 H0)
    as [[] [self_i [Hrun_i [d_i [[Hcons_i Hext_i] H_i]]]]].
  destruct (train_from_returns (Z.to_nat (n - i)) i _ Hcons_i self_i H_i)
    as [[] [self_n [Hrun_n [d_n [[Hcons_n Hext_n] H_n]]]]].
  destruct (train_iteration_returns i _ Hcons_i self_i H_i)
    as [[] [self_i1 [Hrun_1 [d_1 [[Hcons_1 Hext_1] H_1]]]]].
  exists self_i, self_n.
  destruct H_i as [Hdi _]. destruct H_n as [Hdn _]. destruct H_1 as [Hd1 _].
  rewrite Hdi, Hdn.
  split; [exact Hrun_i|]. split; [exact Hrun_n|].
  split; [|split; [|split; [|split]]].
  - unfold PreferenceComparisons.train.
    replace (Z.to_nat n) with (Z.to_nat i + Z.to_nat (n - i))%nat by lia.
    rewrite train_from_app. unfold mbind. rewrite Hrun_i.
    replace (0 + Z.of_nat (Z.to_nat i)) with i by lia. exact Hrun_n.
  - rewrite (len_consistent _ Hcons_i), (extends_by_len _ _ _ Hext_i).
    f_equal. unfold len. simpl. nia.
  - rewrite (len_consistent _ Hcons_n), (extends_by_len _ _ _ Hext_n),
      (extends_by_len _ _ _ Hext_i).
    f_equal. unfold len. simpl. nia.
  - replace (Z.to_nat ((n - i) * NP))
      with (Z.to_nat (n - i) * Z.to_nat NP)%nat by nia.
    exact Hext_n.
  - intros _. exists self_i1. rewrite Hd1.
    split; [exact Hrun_1|]. split; [|split; [|split]].
    + unfold PreferenceComparisons.train.
      replace (Z.to_nat (i + 1)) with (Z.to_nat i + 1)%nat by lia.
      rewrite train_from_app. unfold mbind. rewrite Hrun_i.
      replace (0 + Z.of_nat (Z.to_nat i)) with i by lia.
      cbn [PreferenceComparisons.train_from]. unfold mbind.
      rewrite Hrun_1. reflexivity.
    + rewrite (len_consistent _ Hcons_1), (extends_by_len _ _ _ Hext_1),
        (extends_by_len _ _ _ Hext_i).
      f_equal. unfold len. simpl. nia.
    + exact Hext_1.
    + rewrite <- Hd1. apply train_iteration_calls. exact Hrun_1.
Qed.

End OrchestratorFacts.

Lemma dataset_grows_by_num_pairs_each_iteration_witness :
  (0 < 50 /\ 0 < 50 /\
   (forall steps e l,
      exists trajectories e' l',
        Example.sample_seen steps e l = (Ok trajectories, e', l') /\
        Exists (fun tr => 50 <= traj_len tr) trajectories) /\
   (forall trajectories e l,
      exists e' l', Example.check_seen trajectories e l = (Ok tt, e', l')) /\
   (forall d e l n,
      PreferenceDataset.__len__ d = Ok n -> 0 < n ->
      exists e' l', Example.reward_train_seen d e l = (Ok tt, e', l')) /\
   (forall steps e l,
      exists e' l', Example.agent_train_seen steps e l = (Ok tt, e', l')) /\
   PreferenceComparisons.dataset Example.orchestrator_seen
   = PreferenceDataset.__init__ /\
   RandomFragmenter.fragment_length
     (PreferenceComparisons.fragmenter Example.orchestrator_seen) = 50 /\
   RandomFragmenter.num_pairs
     (PreferenceComparisons.fragmenter Example.orchestrator_seen) = 50 /\
   0 <= 1 <= 2) /\
  exists self_1 self_2,
    PreferenceComparisons.train Example.sample_seen Example.check_seen
      Example.reward_train_seen Example.agent_train_seen 1
      Example.orchestrator_seen
    = (Ok tt, self_1) /\
    PreferenceComparisons.train Example.sample_seen Example.check_seen
      Example.reward_train_seen Example.agent_train_seen 2
      Example.orchestrator_seen
    = (Ok tt, self_2) /\
    PreferenceDataset.__len__ (PreferenceComparisons.dataset self_1)
    = Ok (1 * 50) /\
    PreferenceDataset.__len__ (PreferenceComparisons.dataset self_2)
    = Ok (2 * 50) /\
    PreferenceDataset.extends_by 50
      (PreferenceComparisons.dataset self_1)
      (PreferenceComparisons.dataset self_2) /\
    PreferenceComparisons.ext self_2
    = PreferenceComparisons.ext self_1 ++ [Ok 100].
Proof.
  assert (H1 : 0 < 50) by lia.
  assert (H2 : forall steps e l,
            exists trajectories e' l',
              Example.sample_seen steps e l = (Ok trajectories, e', l') /\
              Exists (fun tr => 50 <= traj_len tr) trajectories).
  { intros steps e l. exists [Example.long_trajectory], e, l.
    split; [reflexivity|]. apply Exists_cons_hd. vm_compute. discriminate. }
  assert (H3 : forall trajectories e l,
            exists e' l',
              Example.check_seen trajectories e l = (Ok tt, e', l'))
    by (intros; eexists; eexists; reflexivity).
  assert (H4 : forall d e l n,
            PreferenceDataset.__len__ d = Ok n -> 0 < n ->
            exists e' l',
              Example.reward_train_seen d e l = (Ok tt, e', l'))
    by (intros; eexists; eexists; reflexivity).
  assert (H5 : forall steps e l,
            exists e' l',
              Example.agent_train_seen steps e l = (Ok tt, e', l'))
    by (intros; eexists; eexists; reflexivity).
  assert (H6 : 0 <= 1 <= 2) by lia.
  split; [repeat split; auto; lia|].
  destruct (dataset_grows_by_num_pairs_each_iteration 50 50
              Example.sample_seen Example.check_seen
              Example.reward_train_seen Example.agent_train_seen
              H1 H1 H2 H3 H4 H5
              Example.orchestrator_seen 2 1 eq_refl eq_refl eq_refl H6)
    as [self_1 [self_2 [Hr1 [_ [Hr2 [Hl1 [Hl2 [Hext Hnext]]]]]]]].
  exists self_1, self_2.
  split; [exact Hr1|]. split; [exact Hr2|]. split; [exact Hl1|].
  split; [exact Hl2|]. split; [exact Hext|].
  destruct (Hnext ltac:(lia))
    as [self' [_ [Hr2' [_ [_ Hcalls]]]]].
  change (1 + 1) with 2 in Hr2'. rewrite Hr2 in Hr2'.
  injection Hr2' as <-.
  destruct Hcalls
    as [trajectories [e1 [l1 [e2 [l2 [lp [k [e3 [l3 [e4 [l4
         [Hsample [Hcheck [Hlen [Hreward [Hagent [Hext' _]]]]]]]]]]]]]]]]].
  unfold Example.sample_seen in Hsample. injection Hsample as _ <- _.
  unfold Example.check_seen in Hcheck. injection Hcheck as <- _.
  unfold Example.reward_train_seen in Hreward. rewrite Hl2 in Hreward.
  injection Hreward as <- _.
  unfold Example.agent_train_seen in Hagent. injection Hagent as <- _.
  exact Hext'.
Defined.

(* ================================================================= *)
(** * Further properties *)

(** ** RandomFragmenter: its fragments, its log, its edge cases *)

Section FragmenterMore.
Context {Obs Act Info : Type}.
Import RandomFragmenter.
Local Abbreviation traj := (TrajectoryWithRew Obs Act Info).

(** Where a call leaves the fragmenter: untouched when it raised for want
    of a long trajectory, and otherwise with its two reports in the log and
    a generator that has moved on. *)
Lemma call_state (self self' : t) (trajectories : list traj)
    (r : result (list (traj * traj))) :
  __call__ self trajectories = (r, self') ->
  (long_enough self trajectories = [] /\ self' = self) \/
  (long_enough self trajectories <> [] /\
   exists g,
     self' = set_rng
               (report_transitions
                  (report_discarded self (len trajectories)
                     (long_enough self trajectories))
                  (map traj_len (long_enough self trajectories))) g).
Proof.
  unfold __call__.
  destruct (Z.eqb_spec (len (long_enough self trajectories)) 0) as [Hz|Hnz].
  - intro H. inversion H; subst. left. split; [|reflexivity].
    apply len_zero_nil. exact Hz.
  - intro H. right. split.
    { intro Hnil. rewrite Hnil in Hnz. apply Hnz. reflexivity. }
    destruct (draw_fragments _ _ _ _ _ _) as [[fragments|e] g];
      inversion H; subst; eauto.
Qed.

Lemma fragment_of_well_formed (self : t) (tr : traj) (start : Z) :
  well_formed tr ->
  0 <= fragment_length self ->
  0 <= start <= traj_len tr - fragment_length self ->
  well_formed (fragment_of self tr start) /\
  traj_len (fragment_of self tr start) = fragment_length self /\
  (infos (fragment_of self tr start) = None <-> infos tr = None).
Proof.
  intros [Hobs [Hrews Hinfos]] Hfl Hstart.
  unfold well_formed, fragment_of, traj_len in *.
  cbn [acts rews obs infos].
  destruct (infos tr) as [infs|].
  - rewrite !len_slice by lia. repeat split; try lia; discriminate.
  - rewrite !len_slice by lia. repeat split; try lia; reflexivity.
Qed.

(** The infos of a fragment are the infos of its steps, when the source
    has infos, and absent otherwise. *)
Lemma fragment_of_infos (self : t) (tr : traj) (start : Z) :
  well_formed tr ->
  0 <= fragment_length self ->
  0 <= start <= traj_len tr - fragment_length self ->
  match infos tr with
  | Some infs =>
      infos (fragment_of self tr start)
      = Some (firstn (Z.to_nat (fragment_length self))
                (skipn (Z.to_nat start) infs))
  | None => infos (fragment_of self tr start) = None
  end.
Proof.
  intros [_ [_ Hinfos]] Hfl Hstart.
  unfold fragment_of, traj_len in *. cbn [infos].
  destruct (infos tr) as [infs|]; [|reflexivity].
  rewrite slice_in_range by lia.
  replace (start + fragment_length self - start) with (fragment_length self)
    by lia.
  reflexivity.
Qed.

(** Every fragment that the fragmenter returns is itself a well-formed
    trajectory of [fragment_length] steps, cut from one of the
    trajectories that are at least [fragment_length] long: shorter ones
    are never used.  It is the fragment of its source at a start offset
    inside the source: its actions, rewards and observations are the
    steps from that offset on, and it has infos exactly when its source
    has them, namely the infos of the same steps. *)
Theorem fragments_are_well_formed
    (self self' : t) (trajectories : list traj) (pairs : list (traj * traj)) :
  0 <= fragment_length self ->
  Forall well_formed trajectories ->
  __call__ self trajectories = (Ok pairs, self') ->
  forall f1 f2, In (f1, f2) pairs ->
    forall f, f = f1 \/ f = f2 ->
      well_formed f /\
      traj_len f = fragment_length self /\
      exists tr start,
        In tr trajectories /\
        fragment_length self <= traj_len tr /\
        0 <= start <= traj_len tr - fragment_length self /\
        f = fragment_of self tr start /\
        is_slice_of self tr start f /\
        (infos f = None <-> infos tr = None) /\
        match infos tr with
        | Some infs =>
            infos f = Some (firstn (Z.to_nat (fragment_length self))
                              (skipn (Z.to_nat start) infs))
        | None => infos f = None
        end.
Proof.
  intros Hfl Hwf Hcall f1 f2 Hin f Hf.
  destruct (call_inv _ _ _ _ Hcall) as [fragments [Hpairs [_ Hdrawn]]].
  subst pairs. apply in_zip_iter_self in Hin. destruct Hin as [Hin1 Hin2].
  rewrite Forall_forall in Hdrawn, Hwf.
  assert (Hinf : In f fragments) by (destruct Hf; subst; assumption).
  destruct (Hdrawn f Hinf) as [tr [start [Htr [Hlong [Hstart Heq]]]]].
  destruct (fragment_of_well_formed self tr start (Hwf tr Htr) Hfl Hstart)
    as [Hw [Hl Hi]].
  destruct (fragment_of_is_slice self tr start (Hwf tr Htr) Hfl Hstart)
    as [Hslice _].
  pose proof (fragment_of_infos self tr start (Hwf tr Htr) Hfl Hstart)
    as Hinfos.
  subst f. split; [exact Hw|]. split; [exact Hl|].
  exists tr, start. auto 10.
Qed.

Lemma report_discarded_warns_nothing (self : t) (prev : Z) (l : list traj)
    (m : Logger.message) :
  In (Logger.warn m) (logger (report_discarded self prev l)) ->
  In (Logger.warn m) (logger self).
Proof.
  unfold report_discarded. destruct (_ =? 0); [auto|].
  unfold emit, Logger.emit. simpl. intro H.
  apply in_app_or in H. destruct H as [H|[H|[]]]; [exact H | discriminate].
Qed.

(** A warning threshold of zero switches the second warning off: when the
    trajectories that are long enough hold at least the
    [2 * num_pairs * fragment_length] transitions that the pairs need, a
    call adds no warning to the log, however it ends. *)
Theorem zero_warning_threshold_silences
    (self self' : t) (trajectories : list traj)
    (r : result (list (traj * traj))) :
  warning_threshold self = 0 ->
  2 * num_pairs self * fragment_length self
  <= Py.sum (map traj_len (long_enough self trajectories)) ->
  __call__ self trajectories = (r, self') ->
  forall m, In (Logger.warn m) (logger self') ->
            In (Logger.warn m) (logger self).
Proof.
  intros Hthr Henough Hcall m Hin.
  destruct (call_state _ _ _ _ Hcall) as [[_ ->] | [_ [g ->]]];
    [exact Hin|].
  cbn [set_rng logger] in Hin.
  set (l := long_enough self trajectories) in *.
  set (self0 := report_discarded self (len trajectories) l) in *.
  assert (Hkeep : fragment_length self0 = fragment_length self /\
                  num_pairs self0 = num_pairs self /\
                  warning_threshold self0 = warning_threshold self).
  { unfold self0, report_discarded. destruct (_ =? 0); simpl; auto. }
  destruct Hkeep as [Hk1 [Hk2 Hk3]].
  unfold report_transitions in Hin. rewrite Hk1, Hk2, Hk3, Hthr in Hin.
  destruct (Z.ltb_spec (Py.sum (map traj_len l))
              (2 * num_pairs self * fragment_length self)); [lia|].
  cbn [Z.eqb negb andb] in Hin.
  eapply report_discarded_warns_nothing. exact Hin.
Qed.

Lemma len_filter_split (p : traj -> bool) (l : list traj) :
  len l - len (filter p l) = len (filter (fun x => negb (p x)) l).
Proof.
  unfold len. induction l as [|x l IH]; cbn [filter length]; [reflexivity|].
  destruct (p x); cbn [negb length]; lia.
Qed.

(** The log line about discarded trajectories reports how many of the
    input trajectories are shorter than [fragment_length].  It is written
    whenever some are but not all, and it is the first thing the call
    logs. *)
Theorem discarded_trajectories_are_counted
    (self self' : t) (trajectories : list traj)
    (r : result (list (traj * traj))) :
  let short :=
    filter (fun tr => negb (fragment_length self <=? traj_len tr))
           trajectories in
  __call__ self trajectories = (r, self') ->
  short <> [] ->
  long_enough self trajectories <> [] ->
  exists rest,
    logger self'
    = logger self
      ++ Logger.log (Logger.Discarded (len short) (len trajectories)
                       (fragment_length self)) :: rest.
Proof.
  intros short Hcall Hshort Hlong.
  destruct (call_state _ _ _ _ Hcall) as [[Hnil _] | [_ [g ->]]];
    [contradiction|].
  cbn [set_rng logger].
  set (l := long_enough self trajectories) in *.
  assert (Hcount : len trajectories - len l = len short).
  { unfold l, long_enough, short. apply len_filter_split. }
  assert (Hpos : len short <> 0).
  { intro H0. apply len_zero_nil in H0. contradiction. }
  unfold report_discarded. rewrite Hcount.
  destruct (Z.eqb_spec (len short) 0); [contradiction|].
  unfold report_transitions.
  repeat match goal with
         | |- context [if ?c then _ else _] => destruct c
         end;
    unfold emit, Logger.emit; cbn [logger set_logger];
    rewrite <- ?app_assoc; simpl; eauto.
Qed.

(** A fragmenter that is asked for no pairs, or for a negative number of
    them, returns the empty list as soon as one trajectory is long enough,
    and draws nothing from its generator. *)
Theorem no_pairs_no_draws (self : t) (trajectories : list traj) :
  num_pairs self <= 0 ->
  Exists (fun tr => fragment_length self <= traj_len tr) trajectories ->
  exists self',
    __call__ self trajectories = (Ok [], self') /\ rng self' = rng self.
Proof.
  intros Hnp Hex.
  assert (Hne : long_enough self trajectories <> []).
  { apply Exists_exists in Hex. destruct Hex as [tr [Hin Hlen]].
    intro Hnil.
    assert (Hin' : In tr (long_enough self trajectories))
      by (apply long_enough_In; auto).
    rewrite Hnil in Hin'. exact Hin'. }
  unfold __call__.
  destruct (Z.eqb_spec (len (long_enough self trajectories)) 0) as [Hz|_].
  { apply len_zero_nil in Hz. contradiction. }
  set (l := long_enough self trajectories).
  set (self1 := report_transitions _ _).
  destruct (reports_keep_settings self (len trajectories) l (map traj_len l))
    as [_ [Hk Hrng]].
  fold self1 in Hk, Hrng.
  replace (Z.to_nat (2 * num_pairs self1)) with 0%nat by lia.
  cbn [draw_fragments zip_iter_self].
  eexists. split; [reflexivity|]. cbn [set_rng rng]. exact Hrng.
Qed.

End FragmenterMore.

Lemma fragments_are_well_formed_witness :
  (0 <= RandomFragmenter.fragment_length Example.fragmenter /\
   Forall well_formed [Example.short_trajectory; Example.trajectory_with_infos] /\
   RandomFragmenter.__call__ Example.fragmenter
     [Example.short_trajectory; Example.trajectory_with_infos]
   = (Ok Example.pairs_with_infos, Example.fragmenter_after_mixed) /\
   In (Example.fragment_with_infos_0, Example.fragment_with_infos_1)
      Example.pairs_with_infos) /\
  exists start,
    0 <= start <= 1 /\
    Example.fragment_with_infos_1
    = RandomFragmenter.fragment_of Example.fragmenter
        Example.trajectory_with_infos start /\
    infos Example.fragment_with_infos_1
    = Some (firstn 2 (skipn (Z.to_nat start) [tt; tt; tt])).
Proof.
  assert (H1 : 0 <= RandomFragmenter.fragment_length Example.fragmenter)
    by (simpl; lia).
  assert (H2 : Forall well_formed
                 [Example.short_trajectory; Example.trajectory_with_infos]).
  { repeat constructor; unfold len; simpl; lia. }
  assert (H3 : RandomFragmenter.__call__ Example.fragmenter
                 [Example.short_trajectory; Example.trajectory_with_infos]
               = (Ok Example.pairs_with_infos, Example.fragmenter_after_mixed))
    by reflexivity.
  assert (H4 : In (Example.fragment_with_infos_0,
                   Example.fragment_with_infos_1) Example.pairs_with_infos)
    by (left; reflexivity).
  split; [auto|].
  destruct (fragments_are_well_formed Example.fragmenter
              Example.fragmenter_after_mixed
              [Example.short_trajectory; Example.trajectory_with_infos]
              Example.pairs_with_infos H1 H2 H3 _ _ H4
              Example.fragment_with_infos_1 (or_intror eq_refl))
    as [_ [_ [tr [start [Htr [Hlong [Hstart [Heq [_ [_ Hinfos]]]]]]]]]].
  destruct Htr as [<-|[<-|[]]].
  { exfalso. revert Hlong. vm_compute. intro H. apply H. reflexivity. }
  exists start. split; [|split].
  - revert Hstart. unfold traj_len, len. simpl. lia.
  - exact Heq.
  - exact Hinfos.
Defined.

Lemma zero_warning_threshold_silences_witness :
  (RandomFragmenter.warning_threshold Example.fragmenter_quiet = 0 /\
   2 * RandomFragmenter.num_pairs Example.fragmenter_quiet
     * RandomFragmenter.fragment_length Example.fragmenter_quiet
   <= Py.sum (map traj_len
                (RandomFragmenter.long_enough Example.fragmenter_quiet
                   [Example.trajectory]))) /\
  forall m,
    In (Logger.warn m)
       (RandomFragmenter.logger
          (snd (RandomFragmenter.__call__ Example.fragmenter_quiet
                  [Example.trajectory]))) ->
    In (Logger.warn m) (RandomFragmenter.logger Example.fragmenter_quiet).
Proof.
  assert (H1 : RandomFragmenter.warning_threshold Example.fragmenter_quiet = 0)
    by reflexivity.
  assert (H2 : 2 * RandomFragmenter.num_pairs Example.fragmenter_quiet
                 * RandomFragmenter.fragment_length Example.fragmenter_quiet
               <= Py.sum (map traj_len
                    (RandomFragmenter.long_enough Example.fragmenter_quiet
                       [Example.trajectory])))
    by (vm_compute; discriminate).
  split; [auto|].
  exact (zero_warning_threshold_silences Example.fragmenter_quiet _
           [Example.trajectory] _ H1 H2 (surjective_pairing _)).
Defined.

Lemma discarded_trajectories_are_counted_witness :
  RandomFragmenter.__call__ Example.fragmenter
    [Example.short_trajectory; Example.trajectory]
  = (Ok Example.pairs, Example.fragmenter_after_mixed) /\
  exists rest,
    RandomFragmenter.logger Example.fragmenter_after_mixed
    = RandomFragmenter.logger Example.fragmenter
      ++ Logger.log (Logger.Discarded 1 2 2) :: rest.
Proof.
  assert (H : RandomFragmenter.__call__ Example.fragmenter
                [Example.short_trajectory; Example.trajectory]
              = (Ok Example.pairs, Example.fragmenter_after_mixed))
    by reflexivity.
  split; [exact H|].
  apply (discarded_trajectories_are_counted Example.fragmenter _
           [Example.short_trajectory; Example.trajectory] _ H);
    discriminate.
Defined.

Lemma no_pairs_no_draws_witness :
  (RandomFragmenter.num_pairs Example.fragmenter_no_pairs <= 0 /\
   Exists (fun tr => RandomFragmenter.fragment_length
                       Example.fragmenter_no_pairs <= traj_len tr)
          [Example.trajectory]) /\
  exists self',
    RandomFragmenter.__call__ Example.fragmenter_no_pairs [Example.trajectory]
    = (Ok [], self') /\
    RandomFragmenter.rng self'
    = RandomFragmenter.rng Example.fragmenter_no_pairs.
Proof.
  assert (H1 : RandomFragmenter.num_pairs Example.fragmenter_no_pairs <= 0)
    by (simpl; lia).
  assert (H2 : Exists (fun tr => RandomFragmenter.fragment_length
                         Example.fragmenter_no_pairs <= traj_len tr)
                 [Example.trajectory]).
  { apply Exists_cons_hd. vm_compute. discriminate. }
  split; [auto|].
  exact (no_pairs_no_draws Example.fragmenter_no_pairs
           [Example.trajectory] H1 H2).
Defined.

(** ** SyntheticGatherer: shape of the preference model *)

Section RealFacts.
Local Open Scope R_scope.

Lemma clip_monotone (x y lo hi : R) :
  x <= y -> Tensor.clip x lo hi <= Tensor.clip y lo hi.
Proof.
  intro Hxy. unfold Tensor.clip.
  apply Rle_min_compat_r. apply Rle_max_compat_r. exact Hxy.
Qed.

Lemma logistic_antitone (a b : R) :
  a <= b -> 1 / (1 + exp b) <= 1 / (1 + exp a).
Proof.
  intro Hab. pose proof (exp_pos a). pose proof (exp_pos b).
  assert (Hexp : exp a <= exp b).
  { destruct Hab as [Hlt|Heq]; [left; now apply exp_increasing|].
    subst. right. reflexivity. }
  unfold Rdiv. rewrite !Rmult_1_l.
  apply Rinv_le_contravar; lra.
Qed.

(** The logistic value is above one half exactly for a negative argument,
    and one half exactly at zero. *)
Lemma logistic_above_half (d : R) : 1 / 2 < 1 / (1 + exp d) <-> d < 0.
Proof.
  pose proof (exp_pos d) as Hpos.
  assert (Hiff : 1 / 2 < 1 / (1 + exp d) <-> exp d < 1).
  { split; intro H.
    - apply Rmult_lt_compat_r with (r := 2 * (1 + exp d)) in H; [|lra].
      field_simplify in H; lra.
    - unfold Rdiv. rewrite !Rmult_1_l.
      apply Rinv_lt_contravar; nra. }
  rewrite Hiff. rewrite <- exp_0. split.
  - apply exp_lt_inv.
  - apply exp_increasing.
Qed.

Lemma logistic_half (d : R) : 1 / (1 + exp d) = 1 / 2 <-> d = 0.
Proof.
  pose proof (exp_pos d) as Hpos. split.
  - intro H. apply exp_inv. rewrite exp_0.
    assert (Hinv : / (1 + exp d) = / 2) by lra.
    apply Rinv_eq_reg in Hinv. lra.
  - intros ->. rewrite exp_0. lra.
Qed.

(** For a positive threshold, clipping keeps the sign. *)
Lemma clip_negative (x thr : R) :
  0 < thr -> (Tensor.clip x (- thr) thr < 0 <-> x < 0).
Proof.
  intro Hthr. unfold Tensor.clip, Rmin, Rmax.
  destruct (Rle_dec x (- thr)); destruct (Rle_dec _ thr); split; lra.
Qed.

Lemma clip_zero (x thr : R) :
  0 < thr -> (Tensor.clip x (- thr) thr = 0 <-> x = 0).
Proof.
  intro Hthr. unfold Tensor.clip, Rmin, Rmax.
  destruct (Rle_dec x (- thr)); destruct (Rle_dec _ thr); split; lra.
Qed.

Lemma ln_below_line (t : R) : 0 < t -> ln t <= t - 1.
Proof.
  intro Ht. pose proof (exp_ineq1_le (ln t)) as H.
  rewrite exp_ln in H by assumption. lra.
Qed.

(** The binary entropy of a probability strictly between 0 and 1 lies
    between 0 and [ln 2]. *)
Lemma binary_entropy_bounds (p : R) :
  0 < p < 1 ->
  0 <= - (Tensor.xlogy p p + Tensor.xlogy (1 - p) (1 - p)) <= ln 2.
Proof.
  intros [Hp0 Hp1]. unfold Tensor.xlogy.
  destruct (Req_dec_T p 0); [lra|].
  destruct (Req_dec_T (1 - p) 0); [lra|].
  pose proof (ln_below_line p Hp0) as Hlp.
  pose proof (ln_below_line (1 - p)) as Hlq.
  assert (Hhp : 0 < / (2 * p)) by (apply Rinv_0_lt_compat; lra).
  assert (Hhq : 0 < / (2 * (1 - p))) by (apply Rinv_0_lt_compat; lra).
  pose proof (ln_below_line _ Hhp) as Hup.
  pose proof (ln_below_line _ Hhq) as Huq.
  rewrite ln_Rinv, ln_mult in Hup by lra.
  rewrite ln_Rinv, ln_mult in Huq by lra.
  assert (Hp : p * / (2 * p) = / 2) by (field; lra).
  assert (Hq : (1 - p) * / (2 * (1 - p)) = / 2) by (field; lra).
  split.
  - assert (p * ln p <= 0) by nra.
    assert ((1 - p) * ln (1 - p) <= 0) by nra. lra.
  - assert (H1 : p * (- (ln 2 + ln p)) <= p * (/ (2 * p) - 1)) by nra.
    assert (H2 : (1 - p) * (- (ln 2 + ln (1 - p)))
                 <= (1 - p) * (/ (2 * (1 - p)) - 1)) by nra.
    rewrite Rmult_minus_distr_l, Hp in H1.
    rewrite Rmult_minus_distr_l, Hq in H2. lra.
Qed.

Lemma sum_bounds (a b : R) (l : list R) :
  Forall (fun x => a <= x <= b) l ->
  a * INR (length l) <= Tensor.sum l <= b * INR (length l).
Proof.
  induction 1 as [|x l Hx _ IH].
  - simpl. lra.
  - change (length (x :: l)) with (S (length l)). rewrite S_INR.
    simpl Tensor.sum. lra.
Qed.

(** The mean of a non-empty list lies between any two bounds of its
    entries. *)
Lemma mean_bounds (a b : R) (l : list R) :
  l <> [] -> Forall (fun x => a <= x <= b) l ->
  a <= Tensor.mean l <= b.
Proof.
  intros Hne Hall. unfold Tensor.mean.
  assert (Hn : 0 < INR (length l)).
  { destruct l; [congruence|]. apply lt_0_INR. simpl. lia. }
  pose proof (sum_bounds a b l Hall) as [Hlo Hhi].
  split.
  - apply Rmult_le_reg_r with (INR (length l)); [exact Hn|].
    unfold Rdiv. rewrite Rmult_assoc, Rinv_l by lra. lra.
  - apply Rmult_le_reg_r with (INR (length l)); [exact Hn|].
    unfold Rdiv. rewrite Rmult_assoc, Rinv_l by lra. lra.
Qed.

Lemma binomial1_binary (ps : list R) (g : Np.Generator) :
  Forall (fun x => x = 0 \/ x = 1) (fst (Np.binomial1 ps g)).
Proof.
  revert g. induction ps as [|p ps IH]; intro g; simpl; [constructor|].
  specialize (IH (fun i => g (S i))).
  destruct (Np.binomial1 ps (fun i => g (S i))) as [xs g'].
  simpl in *. constructor; [|exact IH].
  destruct (Rlt_dec (g 0%nat) p); auto.
Qed.

End RealFacts.

Section GathererMore.
Context {Obs Act Info : Type}.
Import SyntheticGatherer.
Local Open Scope R_scope.
Local Abbreviation traj := (TrajectoryWithRew Obs Act Info).

(** The probability of the softmax branch for one pair. *)
Local Abbreviation soft self p :=
  (1 / (1 + exp (Tensor.clip
                   (return2 self p / temperature self
                    - return1 self p / temperature self)
                   (- threshold self) (threshold self)))).

(** The call at a non-zero temperature with sampling, in closed form. *)
Lemma call_sampling (self : t) (fragment_pairs : list (traj * traj)) :
  temperature self <> 0 -> sample self = true -> fragment_pairs <> [] ->
  let probs := map (fun p => soft self p) fragment_pairs in
  __call__ self fragment_pairs
  = (Ok (Np.array Np.float32 (fst (Np.binomial1 probs (rng self)))),
     set_rng
       (set_logger self
          (Logger.emit (logger self)
             (Logger.record "entropy" (entropy_of probs))))
       (snd (Np.binomial1 probs (rng self)))).
Proof.
  intros HT Hs Hne probs. unfold __call__.
  rewrite reward_sums_nonempty by assumption.
  destruct (Req_dec_T (temperature self) 0); [contradiction|].
  unfold model_probs_of, Tensor.sub.
  rewrite !map_map, broadcast2_maps. cbn [bind].
  rewrite !map_map. cbn [sample set_logger rng]. rewrite Hs.
  fold probs. destruct (Np.binomial1 probs (rng self)). reflexivity.
Qed.

(** With sampling switched on, at a non-zero temperature, the gatherer
    returns one label per pair and every label is 0 or 1. *)
Theorem sampled_preferences_are_binary
    (self : t) (fragment_pairs : list (traj * traj)) :
  temperature self <> 0 -> sample self = true -> fragment_pairs <> [] ->
  exists labels self',
    __call__ self fragment_pairs = (Ok (Np.array Np.float32 labels), self') /\
    length labels = length fragment_pairs /\
    Forall (fun x => x = 0 \/ x = 1) labels.
Proof.
  intros HT Hs Hne.
  pose proof (call_sampling self fragment_pairs HT Hs Hne) as Hcall.
  cbv zeta in Hcall.
  eexists. eexists. split; [exact Hcall|]. split.
  - now rewrite length_binomial1, length_map.
  - apply binomial1_binary.
Qed.

(** At a positive temperature and without sampling, the probability that
    fragment 1 is preferred does not decrease when the lead of its return
    over the return of fragment 2 grows: of two pairs of one batch, the one
    with the larger [return1 - return2] gets the larger probability. *)
Theorem soft_preference_is_monotone
    (self : t) (fragment_pairs : list (traj * traj)) :
  0 < temperature self -> sample self = false -> fragment_pairs <> [] ->
  exists probs self',
    __call__ self fragment_pairs = (Ok (Np.array Np.float32 probs), self') /\
    forall i j p q pi pj,
      nth_error fragment_pairs i = Some p ->
      nth_error fragment_pairs j = Some q ->
      nth_error probs i = Some pi ->
      nth_error probs j = Some pj ->
      return1 self p - return2 self p <= return1 self q - return2 self q ->
      pi <= pj.
Proof.
  intros HT Hs Hne.
  assert (HT0 : temperature self <> 0) by lra.
  pose proof (call_softmax self fragment_pairs HT0 Hs Hne) as Hcall.
  cbv zeta in Hcall.
  eexists. eexists. split; [exact Hcall|].
  intros i j p q pi pj Hp Hq Hpi Hpj Hle.
  rewrite nth_error_map, Hp in Hpi. rewrite nth_error_map, Hq in Hpj.
  cbn [option_map] in Hpi, Hpj.
  injection Hpi as <-. injection Hpj as <-.
  apply logistic_antitone, clip_monotone.
  assert (Hinv : 0 < / temperature self) by (apply Rinv_0_lt_compat; lra).
  unfold Rdiv. nra.
Qed.

(** At a positive temperature, with a positive threshold and without
    sampling, the probability is above one half exactly when fragment 1
    has the larger return, and one half exactly when the returns are
    equal: the soft preference sides with the hard label of temperature
    zero. *)
Theorem soft_preference_sides_with_larger_return
    (self : t) (fragment_pairs : list (traj * traj)) :
  0 < temperature self -> 0 < threshold self -> sample self = false ->
  fragment_pairs <> [] ->
  exists probs self',
    __call__ self fragment_pairs = (Ok (Np.array Np.float32 probs), self') /\
    forall i p q,
      nth_error fragment_pairs i = Some p ->
      nth_error probs i = Some q ->
      (1 / 2 < q <-> return2 self p < return1 self p) /\
      (q = 1 / 2 <-> return1 self p = return2 self p).
Proof.
  intros HT Hthr Hs Hne.
  assert (HT0 : temperature self <> 0) by lra.
  pose proof (call_softmax self fragment_pairs HT0 Hs Hne) as Hcall.
  cbv zeta in Hcall.
  eexists. eexists. split; [exact Hcall|].
  intros i p q Hp Hq.
  rewrite nth_error_map, Hp in Hq. cbn [option_map] in Hq.
  injection Hq as <-.
  assert (Hinv : 0 < / temperature self) by (apply Rinv_0_lt_compat; lra).
  assert (Hdiff : return2 self p / temperature self
                  - return1 self p / temperature self
                  = (return2 self p - return1 self p) * / temperature self)
    by (unfold Rdiv; ring).
  rewrite Hdiff. split.
  - rewrite logistic_above_half, clip_negative by assumption.
    split; intro H; nra.
  - rewrite logistic_half, clip_zero by assumption.
    split; intro H; nra.
Qed.

(** Without sampling, or at temperature zero, and for a non-negative
    threshold, the gatherer is symmetric: asked about every pair the other
    way round, it answers with the complements [1 - p] of its answers. *)
Theorem gatherer_swap_complements
    (self : t) (fragment_pairs : list (traj * traj)) :
  temperature self = 0 \/ sample self = false ->
  0 <= threshold self ->
  fragment_pairs <> [] ->
  exists out self' self'',
    __call__ self fragment_pairs = (Ok (Np.array Np.float32 out), self') /\
    __call__ self (map (fun p => (snd p, fst p)) fragment_pairs)
    = (Ok (Np.array Np.float32 (map (fun x => 1 - x) out)), self'').
Proof.
  intros Hmode Hthr Hne.
  assert (Hne' : map (fun p : traj * traj => (snd p, fst p)) fragment_pairs
                 <> []).
  { destruct fragment_pairs; [congruence | discriminate]. }
  destruct (Req_dec_T (temperature self) 0) as [HT|HT].
  - rewrite !call_zero_temperature by assumption.
    eexists. eexists. eexists. split; [reflexivity|].
    do 3 f_equal. rewrite !map_map. apply map_ext. intros [f1 f2].
    unfold return1, return2. cbn [fst snd].
    set (x := Rollout.compute_returns (rews f1) (discount_factor self)
              - Rollout.compute_returns (rews f2) (discount_factor self)).
    replace (Rollout.compute_returns (rews f2) (discount_factor self)
             - Rollout.compute_returns (rews f1) (discount_factor self))
      with (- x) by (unfold x; ring).
    unfold Tensor.sign.
    destruct (Rlt_dec x 0); destruct (Rlt_dec 0 x);
      destruct (Rlt_dec (- x) 0); destruct (Rlt_dec 0 (- x)); lra.
  - destruct Hmode as [H0|Hs]; [contradiction|].
    pose proof (call_softmax self fragment_pairs HT Hs Hne) as Hcall.
    pose proof (call_softmax self _ HT Hs Hne') as Hcall'.
    cbv zeta in Hcall, Hcall'. rewrite Hcall, Hcall'.
    eexists. eexists. eexists. split; [reflexivity|].
    f_equal. do 2 f_equal. rewrite !map_map. apply map_ext. intros [f1 f2].
    unfold return1, return2. cbn [fst snd].
    set (r1 := Rollout.compute_returns (rews f1) (discount_factor self)).
    set (r2 := Rollout.compute_returns (rews f2) (discount_factor self)).
    replace (r1 / temperature self - r2 / temperature self)
      with (- (r2 / temperature self - r1 / temperature self)) by lra.
    rewrite clip_opp by assumption. apply logistic_opp.
Qed.

(** On an empty batch the gatherer raises a [ValueError], in every
    configuration, and is left as it was: nothing is logged and no
    randomness is consumed. *)
Theorem gatherer_raises_on_empty_batch (self : t) :
  exists msg,
    __call__ self (@nil (traj * traj)) = (Raise (ValueError msg), self).
Proof. unfold __call__, _reward_sums. simpl. eauto. Qed.

(** At a non-zero temperature, a call on a batch with at least one pair
    adds exactly one entry to the log: the record, under the key
    ["entropy"], of the mean binary entropy of the probabilities of the
    softmax model, [-(p * ln p + (1 - p) * ln (1 - p))] averaged over the
    pairs.  The value lies between 0 and [ln 2].  Without sampling, the
    probabilities are also the result of the call. *)
Theorem entropy_is_recorded_and_bounded
    (self : t) (fragment_pairs : list (traj * traj)) :
  temperature self <> 0 -> fragment_pairs <> [] ->
  let probs := map (fun p => soft self p) fragment_pairs in
  let entropy :=
    - (fold_right Rplus 0
         (map (fun q => q * ln q + (1 - q) * ln (1 - q)) probs)
       / INR (length fragment_pairs)) in
  exists r self',
    __call__ self fragment_pairs = (r, self') /\
    logger self' = logger self ++ [Logger.record "entropy" entropy] /\
    (sample self = false -> r = Ok (Np.array Np.float32 probs)) /\
    0 <= entropy <= ln 2.
Proof.
  intros HT Hne probs entropy.
  assert (Hprobs : forall q, In q probs -> 0 < q < 1).
  { intros q Hq. unfold probs in Hq. apply in_map_iff in Hq.
    destruct Hq as [p [<- _]]. apply logistic_in_unit_interval. }
  assert (Hentropy : entropy_of probs = entropy).
  { unfold entropy_of, entropy, Tensor.mean, Tensor.sum.
    rewrite length_map. unfold probs at 2. rewrite length_map.
    do 3 f_equal. apply map_ext_in. intros q Hq.
    destruct (Hprobs q Hq) as [Hq0 Hq1]. unfold Tensor.xlogy.
    destruct (Req_dec_T q 0); [lra|].
    destruct (Req_dec_T (1 - q) 0); [lra | reflexivity]. }
  assert (Hbounds : 0 <= entropy_of probs <= ln 2).
  { unfold entropy_of.
    assert (Hm : - ln 2
                 <= Tensor.mean
                      (map (fun p => Tensor.xlogy p p
                                     + Tensor.xlogy (1 - p) (1 - p)) probs)
                 <= 0).
    { apply mean_bounds.
      - unfold probs. destruct fragment_pairs; [congruence | discriminate].
      - apply Forall_map. apply Forall_forall. intros q Hq.
        pose proof (binary_entropy_bounds q (Hprobs q Hq)). lra. }
    lra. }
  rewrite Hentropy in Hbounds.
  destruct (sample self) eqn:Hs.
  - pose proof (call_sampling self fragment_pairs HT Hs Hne) as Hcall.
    cbv zeta in Hcall. fold probs in Hcall. rewrite Hentropy in Hcall.
    eexists. eexists.
    split; [exact Hcall|]. split; [reflexivity|].
    split; [discriminate | exact Hbounds].
  - pose proof (call_softmax self fragment_pairs HT Hs Hne) as Hcall.
    cbv zeta in Hcall. fold probs in Hcall. rewrite Hentropy in Hcall.
    eexists. eexists.
    split; [exact Hcall|]. split; [reflexivity|].
    split; [reflexivity | exact Hbounds].
Qed.

End GathererMore.

Section GathererWitnesses.
Import SyntheticGatherer.
Local Open Scope R_scope.

Lemma sampled_preferences_are_binary_witness :
  (temperature Example.gatherer_sampling <> 0 /\
   sample Example.gatherer_sampling = true /\
   Example.pairs <> []) /\
  exists labels self',
    __call__ Example.gatherer_sampling Example.pairs
    = (Ok (Np.array Np.float32 labels), self') /\
    length labels = length Example.pairs /\
    Forall (fun x => x = 0 \/ x = 1) labels.
Proof.
  assert (H1 : temperature Example.gatherer_sampling <> 0) by (simpl; lra).
  assert (H2 : sample Example.gatherer_sampling = true) by reflexivity.
  assert (H3 : Example.pairs <> []) by discriminate.
  split; [auto|].
  exact (sampled_preferences_are_binary Example.gatherer_sampling
           Example.pairs H1 H2 H3).
Defined.

Lemma soft_preference_is_monotone_witness :
  (0 < temperature Example.gatherer_soft /\
   sample Example.gatherer_soft = false /\
   Example.pairs ++ [(Example.trajectory, Example.short_trajectory)] <> []) /\
  exists probs self',
    __call__ Example.gatherer_soft
      (Example.pairs ++ [(Example.trajectory, Example.short_trajectory)])
    = (Ok (Np.array Np.float32 probs), self') /\
    forall pi pj,
      nth_error probs 0 = Some pi -> nth_error probs 1 = Some pj -> pi <= pj.
Proof.
  assert (H1 : 0 < temperature Example.gatherer_soft) by (simpl; lra).
  assert (H2 : sample Example.gatherer_soft = false) by reflexivity.
  assert (H3 : Example.pairs
               ++ [(Example.trajectory, Example.short_trajectory)] <> [])
    by discriminate.
  split; [auto|].
  destruct (soft_preference_is_monotone Example.gatherer_soft _ H1 H2 H3)
    as [probs [self' [Hcall Hmono]]].
  exists probs, self'. split; [exact Hcall|].
  intros pi pj Hpi Hpj.
  apply (Hmono 0%nat 1%nat _ _ pi pj eq_refl eq_refl Hpi Hpj).
  cbv [return1 return2 Rollout.compute_returns Rollout.discounted_from
       fst snd rews Example.trajectory Example.short_trajectory
       Example.gatherer_soft discount_factor].
  simpl. lra.
Defined.

Lemma soft_preference_sides_with_larger_return_witness :
  (0 < temperature Example.gatherer_soft /\
   0 < threshold Example.gatherer_soft /\
   sample Example.gatherer_soft = false /\
   Example.pairs <> []) /\
  exists probs self',
    __call__ Example.gatherer_soft Example.pairs
    = (Ok (Np.array Np.float32 probs), self') /\
    forall q, nth_error probs 0 = Some q -> ~ (1 / 2 < q) /\ q <> 1 / 2.
Proof.
  assert (H1 : 0 < temperature Example.gatherer_soft) by (simpl; lra).
  assert (H2 : 0 < threshold Example.gatherer_soft) by (simpl; lra).
  assert (H3 : sample Example.gatherer_soft = false) by reflexivity.
  assert (H4 : Example.pairs <> []) by discriminate.
  split; [auto|].
  destruct (soft_preference_sides_with_larger_return Example.gatherer_soft
              Example.pairs H1 H2 H3 H4)
    as [probs [self' [Hcall Hside]]].
  exists probs, self'. split; [exact Hcall|].
  intros q Hq. destruct (Hside 0%nat _ q eq_refl Hq) as [Habove Hhalf].
  cbv [return1 return2 Rollout.compute_returns Rollout.discounted_from
       fst snd rews Example.gatherer_soft discount_factor]
    in Habove, Hhalf.
  simpl in Habove, Hhalf.
  split; intro H; [apply Habove in H | apply Hhalf in H]; lra.
Defined.

Lemma gatherer_swap_complements_witness :
  ((temperature Example.gatherer_soft = 0
    \/ sample Example.gatherer_soft = false) /\
   0 <= threshold Example.gatherer_soft /\
   Example.pairs <> []) /\
  exists out self' self'',
    __call__ Example.gatherer_soft Example.pairs
    = (Ok (Np.array Np.float32 out), self') /\
    __call__ Example.gatherer_soft
      (map (fun p => (snd p, fst p)) Example.pairs)
    = (Ok (Np.array Np.float32 (map (fun x => 1 - x) out)), self'').
Proof.
  assert (H1 : temperature Example.gatherer_soft = 0
               \/ sample Example.gatherer_soft = false)
    by (right; reflexivity).
  assert (H2 : 0 <= threshold Example.gatherer_soft) by (simpl; lra).
  assert (H3 : Example.pairs <> []) by discriminate.
  split; [auto|].
  exact (gatherer_swap_complements Example.gatherer_soft Example.pairs
           H1 H2 H3).
Defined.

Lemma entropy_is_recorded_and_bounded_witness :
  (temperature Example.gatherer_sampling <> 0 /\ Example.pairs <> []) /\
  exists r self' q,
    q = 1 / (1 + exp 2) /\
    __call__ Example.gatherer_sampling Example.pairs = (r, self') /\
    logger self'
    = [Logger.record "entropy" (- (q * ln q + (1 - q) * ln (1 - q)))].
Proof.
  assert (H1 : temperature Example.gatherer_sampling <> 0) by (simpl; lra).
  assert (H2 : Example.pairs <> []) by discriminate.
  split; [auto|].
  destruct (entropy_is_recorded_and_bounded Example.gatherer_sampling
              Example.pairs H1 H2) as [r [self' [Hcall [Hlog _]]]].
  exists r, self', (1 / (1 + exp 2)).
  split; [reflexivity|]. split; [exact Hcall|].
  rewrite Hlog. cbn [Example.gatherer_sampling logger app Example.pairs map
                     fold_right length INR].
  do 2 f_equal.
  assert (Hclip :
    Tensor.clip
      (return2 Example.gatherer_sampling
         (mkTrajectoryWithRew [10; 11; 12]%nat [0; 1]%nat
            (@None (list unit)) [1; 2] false,
          mkTrajectoryWithRew [11; 12; 13]%nat [1; 2]%nat
            (@None (list unit)) [2; 3] true)
       / temperature Example.gatherer_sampling
       - return1 Example.gatherer_sampling
           (mkTrajectoryWithRew [10; 11; 12]%nat [0; 1]%nat
              (@None (list unit)) [1; 2] false,
            mkTrajectoryWithRew [11; 12; 13]%nat [1; 2]%nat
              (@None (list unit)) [2; 3] true)
         / temperature Example.gatherer_sampling)
      (- threshold Example.gatherer_sampling)
      (threshold Example.gatherer_sampling) = 2).
  { rewrite clip_inside;
      cbv [return1 return2 Rollout.compute_returns Rollout.discounted_from
           fst snd rews Example.gatherer_sampling discount_factor temperature
           threshold]; simpl; lra. }
  rewrite Hclip. lra.
Defined.

End GathererWitnesses.

(** ** PreferenceDataset: sequences of pushes, indexing, collation *)

Section DatasetMore.
Context {Obs Act Info : Type}.
Import PreferenceDataset.
Local Abbreviation traj := (TrajectoryWithRew Obs Act Info).
Local Abbreviation dataset := (PreferenceDataset.t Obs Act Info).

(** What one push does to a consistent dataset, whichever way it ends. *)
Lemma push_step (self : dataset) (fragments : list (traj * traj))
    (prefs : Np.ndarray) :
  consistent self -> Np.well_shaped prefs ->
  (exists e, push self fragments prefs = (Raise e, self)) \/
  (exists self',
     push self fragments prefs = (Ok tt, self') /\
     consistent self' /\
     len (fragments1 self') = len (fragments1 self) + len fragments).
Proof.
  intros Hcons Hwell.
  destruct (push self fragments prefs) as [[[]|e] self'] eqn:Hpush.
  - right. exists self'. split; [reflexivity|].
    destruct (push_ok_inv _ _ _ _ Hpush) as [Hne [Hs Hd]].
    rewrite (push_ok self fragments prefs Hcons Hne Hs Hd) in Hpush.
    inversion Hpush as [Hself']. clear Hpush.
    rewrite split_as_maps. cbn [fst snd].
    assert (Hplen : length (Np.data prefs) = length fragments).
    { unfold Np.well_shaped in Hwell. rewrite Hs in Hwell. simpl in Hwell.
      lia. }
    destruct Hcons as [H12 [Hshape Hdata]].
    unfold consistent.
    cbn [fragments1 fragments2 preferences Np.shape Np.data].
    rewrite len_app. unfold len.
    rewrite !length_app, !length_map. repeat split; lia.
  - left. exists e. f_equal. eapply push_raise_unchanged; eassumption.
Qed.

Lemma push_all_invariant (batches : list (list (traj * traj) * Np.ndarray)) :
  forall self : dataset,
    consistent self ->
    Forall (fun b => Np.well_shaped (snd b)) batches ->
    consistent (push_all self batches) /\
    len (fragments1 (push_all self batches))
    = len (fragments1 self) + pushed self batches.
Proof.
  induction batches as [|[fragments prefs] rest IH]; intros self Hcons Hall.
  - simpl. split; [exact Hcons | lia].
  - inversion Hall as [|b l Hb Hrest]; subst. cbn [snd] in Hb.
    cbn [push_all pushed].
    destruct (push_step self fragments prefs Hcons Hb)
      as [[e Hraise] | [self' [Hok [Hcons' Hlen]]]].
    + rewrite Hraise. cbn [snd]. apply IH; assumption.
    + rewrite Hok. cbn [snd].
      destruct (IH self' Hcons' Hrest) as [Hc Hl].
      split; [exact Hc|]. rewrite Hl, Hlen. lia.
Qed.

(** The assertion of [__len__] never fires on a dataset that was only
    ever changed by pushes: after any sequence of pushes on the empty
    dataset, failed ones included, the dataset is consistent and its
    length is the number of pairs that the successful pushes brought. *)
Theorem len_counts_successful_pushes
    (batches : list (list (traj * traj) * Np.ndarray)) :
  Forall (fun b => Np.well_shaped (snd b)) batches ->
  consistent (push_all __init__ batches) /\
  __len__ (push_all __init__ batches) = Ok (pushed __init__ batches).
Proof.
  intro Hall.
  destruct (push_all_invariant batches __init__ init_consistent Hall)
    as [Hcons Hlen].
  split; [exact Hcons|].
  rewrite (len_consistent _ Hcons), Hlen. reflexivity.
Qed.

Lemma getitem_out_of_range {A} (l : list A) (i : Z) :
  len l <= i \/ i < - len l ->
  exists msg, Py.getitem l i = Raise (IndexError msg).
Proof.
  intro Hout. unfold Py.getitem. pose proof (len_nonneg l).
  destruct (Z.ltb_spec i 0).
  - destruct (Z.ltb_spec (i + len l) 0); [simpl; eauto|].
    destruct Hout; lia.
  - destruct (Z.ltb_spec i 0); [lia|].
    destruct (Z.leb_spec (len l) i); [simpl; eauto|].
    destruct Hout; lia.
Qed.

Lemma getitem_negative {A} (l : list A) (i : Z) :
  - len l <= i < 0 -> Py.getitem l i = Py.getitem l (i + len l).
Proof.
  intros [Hlo Hhi]. unfold Py.getitem. cbv zeta.
  destruct (Z.ltb_spec i 0); [|lia].
  assert (E : (i + len l <? 0) = false) by (apply Z.ltb_ge; lia).
  repeat (rewrite E; cbv iota). reflexivity.
Qed.

(** Indexing follows Python's lists: on a consistent dataset of [n]
    entries an index [i] with [i >= n] or [i < -n] raises an [IndexError],
    and a negative index [i >= -n] reads the entry [n + i], so that [-1] is
    the entry pushed last. *)
Theorem getitem_bounds_and_negative_indices (self : dataset) (i : Z) :
  consistent self ->
  let n := len (fragments1 self) in
  (n <= i \/ i < - n ->
   exists msg, __getitem__ self i = Raise (IndexError msg)) /\
  (- n <= i < 0 -> __getitem__ self i = __getitem__ self (i + n)).
Proof.
  intros [H12 [Hshape Hdata]] n. subst n. split.
  - intro Hout. unfold __getitem__.
    destruct (getitem_out_of_range (fragments1 self) i Hout) as [msg Hmsg].
    rewrite Hmsg. simpl. eauto.
  - intro Hneg. unfold __getitem__, Np.getitem. rewrite Hshape.
    rewrite (getitem_negative (fragments1 self)) by assumption.
    replace (len (fragments1 self)) with (len (fragments2 self)) at 2 3
      by (unfold len; lia).
    rewrite (getitem_negative (fragments2 self)) by (unfold len in *; lia).
    replace (len (fragments2 self))
      with (len (Np.data (preferences self))) at 2
      by (unfold len; lia).
    rewrite (getitem_negative (Np.data (preferences self)))
      by (unfold len in *; lia).
    replace (len (Np.data (preferences self)))
      with (len (fragments1 self)) by (unfold len; lia).
    replace (len (fragments2 self))
      with (len (fragments1 self)) by (unfold len; lia).
    reflexivity.
Qed.

(** Two pushes in a row leave the dataset as one push of the two batches
    joined, with the preferences joined by [np.concatenate], does. *)
Theorem two_pushes_are_one_push (self : dataset)
    (fragments_a fragments_b : list (traj * traj))
    (prefs_a prefs_b : Np.ndarray) :
  consistent self ->
  fragments_a <> [] -> fragments_b <> [] ->
  Np.well_shaped prefs_a ->
  Np.shape prefs_a = [length fragments_a] ->
  Np.shape prefs_b = [length fragments_b] ->
  Np.dtype_of prefs_a = Np.float32 ->
  Np.dtype_of prefs_b = Np.float32 ->
  exists joined,
    Np.concatenate prefs_a prefs_b = Ok joined /\
    push (snd (push self fragments_a prefs_a)) fragments_b prefs_b
    = push self (fragments_a ++ fragments_b) joined.
Proof.
  intros Hcons Hne_a Hne_b Hwell Hs_a Hs_b Hd_a Hd_b.
  unfold Np.concatenate at 1. rewrite Hs_a, Hs_b.
  eexists. split; [reflexivity|].
  destruct (push_step self fragments_a prefs_a Hcons Hwell)
    as [[e Hraise] | [mid [Hmid [Hcmid _]]]].
  { rewrite (push_ok self fragments_a prefs_a) in Hraise by assumption.
    discriminate. }
  pose proof Hmid as Hmid'.
  rewrite (push_ok self fragments_a prefs_a) in Hmid' by assumption.
  inversion Hmid' as [Hmid_eq]. clear Hmid'.
  rewrite Hmid. cbn [snd].
  rewrite (push_ok mid fragments_b prefs_b) by assumption.
  rewrite (push_ok self (fragments_a ++ fragments_b)).
  - subst mid.
    cbn [fragments1 fragments2 preferences Np.shape Np.data Np.dtype_of].
    rewrite !split_as_maps. cbn [fst snd].
    rewrite !map_app, !length_app, !length_map, <- !app_assoc.
    f_equal. f_equal.
    f_equal; [f_equal; lia|].
    destruct (Np.dtype_of (preferences self)); reflexivity.
  - exact Hcons.
  - destruct fragments_a; [congruence | discriminate].
  - cbn [Np.shape]. now rewrite length_app.
  - cbn [Np.dtype_of]. rewrite Hd_a, Hd_b. reflexivity.
Qed.

(** What the synthetic gatherer returns for a batch with at least one pair
    always passes the checks of [push] for that batch, in each mode of the
    gatherer: the dataset then grows by the size of the batch. *)
Theorem gathered_preferences_can_be_pushed (self : dataset)
    (gatherer : SyntheticGatherer.t) (fragments : list (traj * traj)) :
  consistent self ->
  fragments <> [] ->
  exists prefs gatherer' self',
    SyntheticGatherer.__call__ gatherer fragments = (Ok prefs, gatherer') /\
    push self fragments prefs = (Ok tt, self') /\
    __len__ self' = Ok (len (fragments1 self) + len fragments).
Proof.
  intros Hcons Hne.
  destruct (gatherer_call_ok gatherer fragments Hne)
    as [out [gatherer' [Hcall Hlen]]].
  destruct (push_gathered self fragments out Hcons Hne Hlen)
    as [self' [Hpush [Hcons' Hext]]].
  exists (Np.array Np.float32 out), gatherer', self'.
  split; [exact Hcall|]. split; [exact Hpush|].
  rewrite (len_consistent _ Hcons'), (extends_by_len _ _ _ Hext).
  reflexivity.
Qed.

(** [preference_collate_fn] undoes the zipping of a batch: for a batch with
    at least one item it returns the pairs and the preferences of the items,
    in their order, and on an empty batch it raises a [ValueError]. *)
Theorem collate_unzips (batch : list ((traj * traj) * R)) :
  (batch <> [] ->
   exists pairs prefs,
     preference_collate_fn batch = Ok (pairs, prefs) /\
     pairs = map fst batch /\ prefs = map snd batch /\
     combine pairs prefs = batch) /\
  exists msg,
    preference_collate_fn (@nil ((traj * traj) * R))
    = Raise (ValueError msg).
Proof.
  split.
  - intro Hne. unfold preference_collate_fn, unzip2.
    destruct batch as [|b l]; [congruence|].
    rewrite split_as_maps. cbn [bind fst snd].
    eexists. eexists. split; [reflexivity|].
    split; [reflexivity|]. split; [reflexivity|].
    rewrite combine_map_pair. rewrite <- (map_id (b :: l)) at 2.
    apply map_ext. intros [x y]. reflexivity.
  - unfold preference_collate_fn. simpl. eauto.
Qed.

Lemma nth_error_combine_some {A B} (l : list A) (l' : list B) (i : nat)
    (a : A) (b : B) :
  nth_error l i = Some a -> nth_error l' i = Some b ->
  nth_error (combine l l') i = Some (a, b).
Proof.
  revert l' i. induction l as [|x l IH]; intros [|y l'] [|i] Ha Hb;
    simpl in *; try discriminate.
  - congruence.
  - apply IH; assumption.
Qed.

(** A round trip through the dataset: after a batch was pushed into the
    empty dataset, reading the entries one by one gives back the pairs with
    their preferences, in the order of the push, and collating what was
    read gives back the two sequences that were pushed. *)
Theorem push_read_collate_round_trip
    (fragments : list (traj * traj)) (prefs : Np.ndarray) :
  fragments <> [] ->
  Np.well_shaped prefs ->
  Np.shape prefs = [length fragments] ->
  Np.dtype_of prefs = Np.float32 ->
  exists self',
    push __init__ fragments prefs = (Ok tt, self') /\
    let batch := combine fragments (Np.data prefs) in
    map (fun i => __getitem__ self' (Z.of_nat i)) (seq 0 (length fragments))
    = map Ok batch /\
    preference_collate_fn batch = Ok (fragments, Np.data prefs).
Proof.
  intros Hne Hwell Hs Hd.
  assert (Hplen : length (Np.data prefs) = length fragments).
  { unfold Np.well_shaped in Hwell. rewrite Hs in Hwell. simpl in Hwell.
    lia. }
  rewrite (push_ok __init__ fragments prefs init_consistent Hne Hs Hd).
  eexists. split; [reflexivity|]. cbv zeta. split.
  - rewrite split_as_maps.
    cbn [fst snd fragments1 fragments2 preferences __init__ app
         Np.data Np.array length Nat.add].
    apply nth_error_ext. intro i.
    rewrite !nth_error_map, nth_error_seq.
    destruct (Nat.ltb_spec i (length fragments)) as [Hi|Hi].
    + destruct (nth_error fragments i) as [[f1 f2]|] eqn:Hf.
      2:{ apply nth_error_None in Hf. lia. }
      destruct (nth_error (Np.data prefs) i) as [q|] eqn:Hq.
      2:{ apply nth_error_None in Hq. lia. }
      rewrite (nth_error_combine_some _ _ _ _ _ Hf Hq).
      cbn [option_map Nat.add]. f_equal.
      unfold __getitem__, Np.getitem.
      cbn [fragments1 fragments2 preferences Np.shape Np.data].
      rewrite (getitem_nth (map fst fragments) i f1)
        by (rewrite nth_error_map, Hf; reflexivity).
      rewrite (getitem_nth (map snd fragments) i f2)
        by (rewrite nth_error_map, Hf; reflexivity).
      rewrite (getitem_nth (Np.data prefs) i q Hq). reflexivity.
    + rewrite (proj2 (nth_error_None
                        (combine fragments (Np.data prefs)) i))
        by (rewrite length_combine; lia).
      reflexivity.
  - unfold preference_collate_fn, unzip2.
    destruct (combine fragments (Np.data prefs)) as [|b l] eqn:Hcomb.
    { destruct fragments as [|f fs]; [congruence|].
      destruct (Np.data prefs); simpl in *; [lia | discriminate]. }
    rewrite <- Hcomb. rewrite combine_split by (symmetry; exact Hplen).
    reflexivity.
Qed.

End DatasetMore.

Section DatasetWitnesses.
Import PreferenceDataset.
Local Open Scope R_scope.

Lemma len_counts_successful_pushes_witness :
  Forall (fun b => Np.well_shaped (snd b))
    [(Example.pairs, Example.good_preferences);
     (Example.pairs, Example.long_preferences)] /\
  __len__ (push_all __init__
             [(Example.pairs, Example.good_preferences);
              (Example.pairs, Example.long_preferences)]) = Ok 1%Z.
Proof.
  assert (H : Forall (fun b => Np.well_shaped (snd b))
                [(Example.pairs, Example.good_preferences);
                 (Example.pairs, Example.long_preferences)])
    by (repeat constructor).
  split; [exact H|].
  rewrite (proj2 (len_counts_successful_pushes _ H)). reflexivity.
Defined.

Lemma getitem_bounds_and_negative_indices_witness :
  consistent Example.dataset /\
  (exists msg, __getitem__ Example.dataset 1 = Raise (IndexError msg)) /\
  __getitem__ Example.dataset (-1) = __getitem__ Example.dataset 0.
Proof.
  assert (H : consistent Example.dataset)
    by (unfold consistent; simpl; auto).
  split; [exact H|]. split.
  - apply (proj1 (getitem_bounds_and_negative_indices Example.dataset 1 H)).
    left. vm_compute. discriminate.
  - apply (proj2 (getitem_bounds_and_negative_indices
                    Example.dataset (-1) H)).
    vm_compute. split; [discriminate | reflexivity].
Defined.

Lemma two_pushes_are_one_push_witness :
  (consistent Example.dataset /\
   Example.pairs <> [] /\
   Np.well_shaped Example.good_preferences /\
   Np.shape Example.good_preferences = [length Example.pairs] /\
   Np.dtype_of Example.good_preferences = Np.float32) /\
  exists joined,
    Np.concatenate Example.good_preferences Example.good_preferences
    = Ok joined /\
    push (snd (push Example.dataset Example.pairs Example.good_preferences))
         Example.pairs Example.good_preferences
    = push Example.dataset (Example.pairs ++ Example.pairs) joined.
Proof.
  assert (H1 : consistent Example.dataset)
    by (unfold consistent; simpl; auto).
  assert (H2 : Example.pairs <> []) by discriminate.
  assert (H3 : Np.well_shaped Example.good_preferences) by reflexivity.
  assert (H4 : Np.shape Example.good_preferences = [length Example.pairs])
    by reflexivity.
  assert (H5 : Np.dtype_of Example.good_preferences = Np.float32)
    by reflexivity.
  split; [auto|].
  exact (two_pushes_are_one_push Example.dataset Example.pairs Example.pairs
           Example.good_preferences Example.good_preferences
           H1 H2 H2 H3 H4 H4 H5 H5).
Defined.

Lemma gathered_preferences_can_be_pushed_witness :
  (consistent Example.dataset /\ Example.pairs <> []) /\
  exists prefs gatherer' self',
    SyntheticGatherer.__call__ Example.gatherer_sampling Example.pairs
    = (Ok prefs, gatherer') /\
    push Example.dataset Example.pairs prefs = (Ok tt, self') /\
    __len__ self' = Ok 2%Z.
Proof.
  assert (H1 : consistent Example.dataset)
    by (unfold consistent; simpl; auto).
  assert (H2 : Example.pairs <> []) by discriminate.
  split; [auto|].
  exact (gathered_preferences_can_be_pushed Example.dataset
           Example.gatherer_sampling Example.pairs H1 H2).
Defined.

Lemma collate_unzips_witness :
  [(Example.trajectory, Example.short_trajectory, 1)] <> [] /\
  preference_collate_fn
    [(Example.trajectory, Example.short_trajectory, 1)]
  = Ok ([(Example.trajectory, Example.short_trajectory)], [1]).
Proof.
  assert (H : [(Example.trajectory, Example.short_trajectory, 1)] <> [])
    by discriminate.
  split; [exact H|].
  destruct (proj1 (collate_unzips
                     [(Example.trajectory, Example.short_trajectory, 1)]) H)
    as [pairs [prefs [Hcall [Hp [Hq _]]]]].
  rewrite Hcall, Hp, Hq. reflexivity.
Defined.

Lemma push_read_collate_round_trip_witness :
  (Example.pairs <> [] /\
   Np.well_shaped Example.good_preferences /\
   Np.shape Example.good_preferences = [length Example.pairs] /\
   Np.dtype_of Example.good_preferences = Np.float32) /\
  exists self',
    push __init__ Example.pairs Example.good_preferences = (Ok tt, self') /\
    map (fun i => __getitem__ self' (Z.of_nat i))
        (seq 0 (length Example.pairs))
    = map Ok (combine Example.pairs (Np.data Example.good_preferences)) /\
    preference_collate_fn
      (combine Example.pairs (Np.data Example.good_preferences))
    = Ok (Example.pairs, Np.data Example.good_preferences).
Proof.
  assert (H2 : Example.pairs <> []) by discriminate.
  assert (H3 : Np.well_shaped Example.good_preferences) by reflexivity.
  assert (H4 : Np.shape Example.good_preferences = [length Example.pairs])
    by reflexivity.
  assert (H5 : Np.dtype_of Example.good_preferences = Np.float32)
    by reflexivity.
  split; [auto|].
  exact (push_read_collate_round_trip Example.pairs
           Example.good_preferences H2 H3 H4 H5).
Defined.

End DatasetWitnesses.

(** ** CrossEntropyRewardTrainer: the predicted probability and the loss *)

Section TrainerMore.
Import CrossEntropyRewardTrainer.
Local Open Scope R_scope.

Lemma probability_inv (self : t) (rews1 rews2 : list R) (p : R) :
  _probability self rews1 rews2 = Ok p ->
  exists diff,
    p = noise_prob self * (1 / 2)
        + (1 - noise_prob self) * softmax_first self diff.
Proof.
  unfold _probability.
  destruct (returns_diff self rews1 rews2) as [diff|e]; [|discriminate].
  cbn [bind]. intro H. injection H as <-. exists diff. reflexivity.
Qed.

(** With a noise probability of one the predicted probability is one half,
    whatever the rewards: the reward network has no say. *)
Theorem full_noise_predicts_one_half (self : t) (rews1 rews2 : list R) :
  noise_prob self = 1 ->
  (forall p, _probability self rews1 rews2 = Ok p -> p = 1 / 2) /\
  (length rews1 = length rews2 ->
   _probability self rews1 rews2 = Ok (1 / 2)).
Proof.
  intro Hnoise. split.
  - intros p Hp. apply probability_inv in Hp. destruct Hp as [diff ->].
    rewrite Hnoise. ring.
  - intro Hlen. rewrite probability_same_length by assumption.
    f_equal. rewrite Hnoise. ring.
Qed.

(** For a noise probability between 0 and 1, every predicted probability
    lies within [noise_prob / 2, 1 - noise_prob / 2], and so between 0
    and 1: label noise keeps the prediction away from certainty by
    [noise_prob / 2].  The bounds are not strict: without noise the
    [float32] prediction reaches 1 for a large lead of the first return. *)
Theorem predicted_probability_bounds
    (self : t) (rews1 rews2 : list R) (p : R) :
  0 <= noise_prob self <= 1 ->
  _probability self rews1 rews2 = Ok p ->
  0 <= p <= 1 /\
  noise_prob self / 2 <= p <= 1 - noise_prob self / 2.
Proof.
  intros Hnoise Hp. apply probability_inv in Hp. destruct Hp as [diff ->].
  unfold softmax_first.
  pose proof (logistic_in_unit_interval
                (Tensor.clip diff (- threshold self) (threshold self)))
    as Hm.
  set (m := 1 / (1 + exp _)) in *. nra.
Qed.

(** Reward tensors whose sizes differ, neither being of size one, cannot
    be broadcast: the predicted probability is not computed, a
    [RuntimeError] is raised. *)
Theorem probability_raises_on_size_mismatch
    (self : t) (rews1 rews2 : list R) :
  length rews1 <> length rews2 ->
  length rews1 <> 1%nat -> length rews2 <> 1%nat ->
  exists msg, _probability self rews1 rews2 = Raise (RuntimeError msg).
Proof.
  intros Hne H1 H2.
  assert (Hsub : exists msg,
            Tensor.sub rews2 rews1 = Raise (RuntimeError msg)).
  { unfold Tensor.sub, Tensor.broadcast2.
    destruct (Nat.eqb_spec (length rews2) (length rews1)); [congruence|].
    destruct rews2 as [|x [|y rews2]]; destruct rews1 as [|u [|v rews1]];
      simpl in *; try congruence; eauto. }
  destruct Hsub as [msg Hsub].
  exists msg. unfold _probability, returns_diff.
  destruct (Req_dec_T (discount_factor self) 1); rewrite Hsub; reflexivity.
Qed.

(** For tensors of one size, a positive threshold and a noise probability
    below one, the predicted probability is above one half exactly when the
    predicted return of fragment 1 is the larger one. *)
Theorem prediction_sides_with_larger_return
    (self : t) (rews1 rews2 : list R) :
  length rews1 = length rews2 ->
  0 < threshold self ->
  noise_prob self < 1 ->
  exists p,
    _probability self rews1 rews2 = Ok p /\
    (1 / 2 < p <->
     Rollout.compute_returns rews2 (discount_factor self)
     < Rollout.compute_returns rews1 (discount_factor self)).
Proof.
  intros Hlen Hthr Hnoise.
  rewrite probability_same_length by assumption.
  eexists. split; [reflexivity|]. unfold softmax_first.
  set (r1 := Rollout.compute_returns rews1 (discount_factor self)).
  set (r2 := Rollout.compute_returns rews2 (discount_factor self)).
  pose proof (logistic_above_half
                (Tensor.clip (r2 - r1) (- threshold self) (threshold self)))
    as Habove.
  rewrite clip_negative in Habove by assumption.
  set (m := 1 / (1 + exp _)) in *.
  split; intro H.
  - assert (1 / 2 < m) by nra. apply Habove in H0. lra.
  - assert (1 / 2 < m) by (apply Habove; lra). nra.
Qed.

End TrainerMore.

Section LossFacts.
Context {Obs Act Info : Type}.
Import CrossEntropyRewardTrainer.
Local Open Scope R_scope.
Local Abbreviation traj := (TrajectoryWithRew Obs Act Info).

Variable _rewards : traj -> list R.

(** The loss of one entry. *)
Local Abbreviation entry_loss :=
  (fun p : R * R =>
     - (snd p * Tensor.log_clamped (fst p)
        + (1 - snd p) * Tensor.log_clamped (1 - fst p))).

Lemma in_unit_interval_spec (x : R) :
  Tensor.in_unit_interval x = true <-> 0 <= x <= 1.
Proof.
  unfold Tensor.in_unit_interval.
  destruct (Rle_dec 0 x); destruct (Rle_dec x 1); split;
    intro H; try discriminate; try reflexivity; lra.
Qed.

Lemma forallb_in_unit_interval (l : list R) :
  forallb Tensor.in_unit_interval l = true <->
  Forall (fun x => 0 <= x <= 1) l.
Proof.
  rewrite forallb_forall, Forall_forall.
  split; intros H x Hx; apply in_unit_interval_spec, H, Hx.
Qed.

Lemma bce_ok (probs prefs : list R) :
  length prefs = length probs ->
  Forall (fun x => 0 <= x <= 1) probs ->
  Tensor.binary_cross_entropy probs prefs
  = Ok (Tensor.mean (map entry_loss (combine probs prefs))).
Proof.
  intros Hlen Hall. unfold Tensor.binary_cross_entropy.
  rewrite Hlen, Nat.eqb_refl. cbn [negb].
  rewrite (proj2 (forallb_in_unit_interval probs) Hall). reflexivity.
Qed.

Lemma bce_inv (probs prefs : list R) (loss : R) :
  Tensor.binary_cross_entropy probs prefs = Ok loss ->
  length prefs = length probs /\
  Forall (fun x => 0 <= x <= 1) probs /\
  loss = Tensor.mean (map entry_loss (combine probs prefs)).
Proof.
  unfold Tensor.binary_cross_entropy.
  destruct (Nat.eqb_spec (length prefs) (length probs)) as [Hlen|];
    cbn [negb]; [|discriminate].
  destruct (forallb Tensor.in_unit_interval probs) eqn:Hall;
    cbn [negb]; [|discriminate].
  intro H. injection H as <-.
  split; [exact Hlen|]. split; [|reflexivity].
  apply forallb_in_unit_interval. exact Hall.
Qed.

(** The probabilities of a batch whose fragments are paired with rewards
    of one size each. *)
Lemma probabilities_same_length (self : t)
    (fragment_pairs : list (traj * traj)) :
  Forall (fun fr => length (_rewards (fst fr)) = length (_rewards (snd fr)))
         fragment_pairs ->
  probabilities _rewards self fragment_pairs
  = Ok (map (fun fr =>
               noise_prob self * (1 / 2)
               + (1 - noise_prob self)
                 * softmax_first self
                     (Rollout.compute_returns (_rewards (snd fr))
                        (discount_factor self)
                      - Rollout.compute_returns (_rewards (fst fr))
                          (discount_factor self)))
            fragment_pairs).
Proof.
  induction 1 as [|fr l Hfr _ IH]; [reflexivity|].
  cbn [probabilities map]. cbv zeta.
  rewrite probability_same_length by assumption.
  cbn [bind]. rewrite IH. reflexivity.
Qed.

Lemma probabilities_length (self : t) (fragment_pairs : list (traj * traj)) :
  forall probs,
    probabilities _rewards self fragment_pairs = Ok probs ->
    length probs = length fragment_pairs.
Proof.
  induction fragment_pairs as [|fr l IH]; intros probs.
  - simpl. intro H. injection H as <-. reflexivity.
  - cbn [probabilities]. cbv zeta.
    destruct (_probability self _ _) as [p|e]; [|discriminate].
    cbn [bind].
    destruct (probabilities _rewards self l) as [ps|e]; [|discriminate].
    cbn [bind]. intro H. injection H as <-. simpl. f_equal. now apply IH.
Qed.

Lemma ln_2_le_1 : ln 2 <= 1.
Proof. pose proof (ln_below_line 2). lra. Qed.

Lemma log_clamped_half : Tensor.log_clamped (1 / 2) = - ln 2.
Proof.
  unfold Tensor.log_clamped. destruct (Rle_dec (1 / 2) 0); [lra|].
  assert (Hln : ln (1 / 2) = - ln 2).
  { unfold Rdiv. rewrite Rmult_1_l. apply ln_Rinv. lra. }
  rewrite Hln. pose proof ln_2_le_1. apply Rmax_left. lra.
Qed.

Lemma log_clamped_nonpos (x : R) : x <= 1 -> Tensor.log_clamped x <= 0.
Proof.
  intro Hx. unfold Tensor.log_clamped.
  destruct (Rle_dec x 0); [lra|].
  pose proof (ln_below_line x). apply Rmax_lub; lra.
Qed.

(** With a noise probability of one the loss is [ln 2] on every batch with
    at least one pair, whatever the reward network predicts and whatever the
    preferences are: the loss is constant at the noise floor. *)
Theorem full_noise_loss_is_ln_2 (self : t)
    (fragment_pairs : list (traj * traj)) (preferences : list R) :
  noise_prob self = 1 ->
  fragment_pairs <> [] ->
  length preferences = length fragment_pairs ->
  Forall (fun fr => length (_rewards (fst fr)) = length (_rewards (snd fr)))
         fragment_pairs ->
  _loss _rewards self fragment_pairs preferences = Ok (ln 2).
Proof.
  intros Hnoise Hne Hlen Hsizes. unfold _loss.
  rewrite probabilities_same_length by assumption. cbn [bind].
  set (probs := map _ fragment_pairs).
  assert (Hhalf : Forall (fun x => x = 1 / 2) probs).
  { unfold probs. apply Forall_map. apply Forall_forall. intros fr _.
    rewrite Hnoise. ring. }
  assert (Hplen : length probs = length fragment_pairs)
    by (unfold probs; apply length_map).
  rewrite bce_ok.
  - f_equal.
    assert (Hm : ln 2 <= Tensor.mean (map entry_loss (combine probs preferences))
                 <= ln 2).
    { apply mean_bounds.
      - destruct fragment_pairs as [|fr l]; [congruence|].
        destruct probs; [discriminate|].
        destruct preferences; [discriminate | discriminate].
      - apply Forall_map. apply Forall_forall. intros [x y] Hin.
        apply in_combine_l in Hin.
        rewrite Forall_forall in Hhalf. rewrite (Hhalf x Hin). cbn [fst snd].
        replace (1 - 1 / 2) with (1 / 2) by lra.
        rewrite log_clamped_half. lra. }
    lra.
  - congruence.
  - eapply Forall_impl; [|exact Hhalf]. simpl. intros x ->. lra.
Qed.

(** The loss does not depend on which fragment of a pair is called the
    first: for rewards of one size per pair and a non-negative threshold,
    swapping the two fragments of every pair and replacing every preference
    [y] by [1 - y] gives the same result. *)
Theorem loss_is_symmetric_under_swap (self : t)
    (fragment_pairs : list (traj * traj)) (preferences : list R) :
  0 <= threshold self ->
  Forall (fun fr => length (_rewards (fst fr)) = length (_rewards (snd fr)))
         fragment_pairs ->
  _loss _rewards self (map (fun fr => (snd fr, fst fr)) fragment_pairs)
        (map (fun y => 1 - y) preferences)
  = _loss _rewards self fragment_pairs preferences.
Proof.
  intros Hthr Hsizes. unfold _loss.
  rewrite (probabilities_same_length self fragment_pairs Hsizes).
  rewrite probabilities_same_length.
  2:{ apply Forall_map. eapply Forall_impl; [|exact Hsizes].
      simpl. intros fr H. symmetry. exact H. }
  cbn [bind]. rewrite map_map. cbn [fst snd].
  set (probs := map _ fragment_pairs) at 2.
  assert (Hswap :
    map (fun fr : traj * traj =>
           noise_prob self * (1 / 2)
           + (1 - noise_prob self)
             * softmax_first self
                 (Rollout.compute_returns (_rewards (fst fr))
                    (discount_factor self)
                  - Rollout.compute_returns (_rewards (snd fr))
                      (discount_factor self)))
        fragment_pairs
    = map (fun x => 1 - x) probs).
  { unfold probs. rewrite map_map. apply map_ext. intro fr.
    unfold softmax_first.
    set (r1 := Rollout.compute_returns (_rewards (fst fr)) _).
    set (r2 := Rollout.compute_returns (_rewards (snd fr)) _).
    replace (r1 - r2) with (- (r2 - r1)) by lra.
    rewrite clip_opp by assumption. rewrite logistic_opp. lra. }
  rewrite Hswap. clearbody probs. clear Hswap.
  unfold Tensor.binary_cross_entropy. rewrite !length_map.
  destruct (negb (length preferences =? length probs)%nat); [reflexivity|].
  assert (Hrange : forallb Tensor.in_unit_interval (map (fun x => 1 - x) probs)
                   = forallb Tensor.in_unit_interval probs).
  { induction probs as [|x probs IH]; [reflexivity|].
    cbn [map forallb]. rewrite IH. f_equal.
    unfold Tensor.in_unit_interval.
    destruct (Rle_dec 0 (1 - x)); destruct (Rle_dec (1 - x) 1);
      destruct (Rle_dec 0 x); destruct (Rle_dec x 1); try reflexivity; lra. }
  rewrite Hrange.
  destruct (negb (forallb Tensor.in_unit_interval probs)); [reflexivity|].
  do 2 f_equal. clear Hrange.
  revert preferences. induction probs as [|x probs IH];
    intros [|y preferences]; try reflexivity.
  cbn [map combine]. rewrite IH. f_equal. cbn [fst snd].
  replace (1 - (1 - x)) with x by ring.
  replace (1 - (1 - y)) with y by ring. ring.
Qed.

(** Whenever the loss of a batch with at least one pair is computed, for
    preferences between 0 and 1, it is not negative. *)
Theorem loss_is_not_negative (self : t)
    (fragment_pairs : list (traj * traj)) (preferences : list R) (loss : R) :
  fragment_pairs <> [] ->
  Forall (fun y => 0 <= y <= 1) preferences ->
  _loss _rewards self fragment_pairs preferences = Ok loss ->
  0 <= loss.
Proof.
  intros Hne Hprefs. unfold _loss.
  destruct (probabilities _rewards self fragment_pairs) as [probs|e] eqn:Hp;
    [|discriminate].
  cbn [bind]. intro Hbce.
  apply probabilities_length in Hp.
  destruct (bce_inv _ _ _ Hbce) as [Hlen [Hrange ->]].
  set (l := map entry_loss (combine probs preferences)).
  assert (Hl : l <> []).
  { unfold l. destruct fragment_pairs; [congruence|].
    destruct probs; [discriminate|].
    destruct preferences; discriminate. }
  assert (Hall : Forall (fun x => 0 <= x) l).
  { unfold l. apply Forall_map. apply Forall_forall. intros [x y] Hin.
    pose proof (in_combine_l _ _ _ _ Hin) as Hx.
    pose proof (in_combine_r _ _ _ _ Hin) as Hy.
    rewrite Forall_forall in Hrange, Hprefs.
    specialize (Hrange x Hx). specialize (Hprefs y Hy). cbn [fst snd].
    pose proof (log_clamped_nonpos x).
    pose proof (log_clamped_nonpos (1 - x)). nra. }
  assert (Hn : 0 < INR (length l)).
  { destruct l; [congruence|]. apply lt_0_INR. simpl. lia. }
  assert (Hs : 0 <= Tensor.sum l).
  { clear Hl Hn. induction Hall; simpl; lra. }
  unfold Tensor.mean.
  apply Rmult_le_reg_r with (INR (length l)); [exact Hn|].
  unfold Rdiv. rewrite Rmult_assoc, Rinv_l by lra. lra.
Qed.

(** The loss is computed whenever the rewards of every pair are of one
    size, the noise probability lies between 0 and 1 and there are as many
    preferences as pairs. *)
Lemma loss_returns (self : t)
    (fragment_pairs : list (traj * traj)) (preferences : list R) :
  0 <= noise_prob self <= 1 ->
  length preferences = length fragment_pairs ->
  Forall (fun fr => length (_rewards (fst fr)) = length (_rewards (snd fr)))
         fragment_pairs ->
  exists loss, _loss _rewards self fragment_pairs preferences = Ok loss.
Proof.
  intros Hnoise Hlen Hsizes. unfold _loss.
  rewrite probabilities_same_length by assumption. cbn [bind].
  rewrite bce_ok.
  - eauto.
  - now rewrite length_map.
  - apply Forall_map. apply Forall_forall. intros fr _.
    unfold softmax_first.
    pose proof (logistic_in_unit_interval
                  (Tensor.clip
                     (Rollout.compute_returns (_rewards (snd fr))
                        (discount_factor self)
                      - Rollout.compute_returns (_rewards (fst fr))
                          (discount_factor self))
                     (- threshold self) (threshold self))) as Hm.
    set (m := 1 / (1 + exp _)) in *. nra.
Qed.

End LossFacts.

Section TrainerWitnesses.
Import CrossEntropyRewardTrainer.
Local Open Scope R_scope.

Lemma full_noise_predicts_one_half_witness :
  (noise_prob Example.noisy_trainer = 1 /\ length [1; 2] = length [2; 3]) /\
  _probability Example.noisy_trainer [1; 2] [2; 3] = Ok (1 / 2).
Proof.
  assert (H1 : noise_prob Example.noisy_trainer = 1) by reflexivity.
  assert (H2 : length [1; 2] = length [2; 3]) by reflexivity.
  split; [auto|].
  exact (proj2 (full_noise_predicts_one_half Example.noisy_trainer
                  [1; 2] [2; 3] H1) H2).
Defined.

Lemma predicted_probability_bounds_witness :
  (0 <= noise_prob Example.half_noisy_trainer <= 1 /\
   _probability Example.half_noisy_trainer [1; 2] [2; 3]
   = Ok (noise_prob Example.half_noisy_trainer * (1 / 2)
         + (1 - noise_prob Example.half_noisy_trainer)
           * softmax_first Example.half_noisy_trainer
               (Rollout.compute_returns [2; 3]
                  (discount_factor Example.half_noisy_trainer)
                - Rollout.compute_returns [1; 2]
                    (discount_factor Example.half_noisy_trainer))))
  /\
  exists p,
    _probability Example.half_noisy_trainer [1; 2] [2; 3] = Ok p /\
    1 / 4 <= p <= 3 / 4.
Proof.
  assert (H1 : 0 <= noise_prob Example.half_noisy_trainer <= 1)
    by (simpl; lra).
  pose proof (probability_same_length Example.half_noisy_trainer
                [1; 2] [2; 3] eq_refl) as H2.
  split; [auto|].
  eexists. split; [exact H2|].
  destruct (predicted_probability_bounds Example.half_noisy_trainer
              [1; 2] [2; 3] _ H1 H2) as [_ Hb].
  change (noise_prob Example.half_noisy_trainer) with (1 / 2) in *.
  set (m := softmax_first _ _) in *. lra.
Defined.

Lemma probability_raises_on_size_mismatch_witness :
  (length [1; 2] <> length [1; 2; 3] /\
   length [1; 2] <> 1%nat /\ length [1; 2; 3] <> 1%nat) /\
  exists msg,
    _probability __init__ [1; 2] [1; 2; 3] = Raise (RuntimeError msg).
Proof.
  assert (H1 : length [1; 2] <> length [1; 2; 3]) by discriminate.
  assert (H2 : length [1; 2] <> 1%nat) by discriminate.
  assert (H3 : length [1; 2; 3] <> 1%nat) by discriminate.
  split; [auto|].
  exact (probability_raises_on_size_mismatch __init__ [1; 2] [1; 2; 3]
           H1 H2 H3).
Defined.

Lemma prediction_sides_with_larger_return_witness :
  (length [1; 2] = length [2; 3] /\
   0 < threshold __init__ /\ noise_prob __init__ < 1) /\
  exists p, _probability __init__ [1; 2] [2; 3] = Ok p /\ ~ (1 / 2 < p).
Proof.
  assert (H1 : length [1; 2] = length [2; 3]) by reflexivity.
  assert (H2 : 0 < threshold __init__) by (simpl; lra).
  assert (H3 : noise_prob __init__ < 1) by (simpl; lra).
  split; [auto|].
  destruct (prediction_sides_with_larger_return __init__ [1; 2] [2; 3]
              H1 H2 H3) as [p [Hp Hside]].
  exists p. split; [exact Hp|].
  intro H. apply Hside in H.
  cbv [Rollout.compute_returns Rollout.discounted_from __init__
       discount_factor] in H.
  simpl in H. lra.
Defined.

Lemma full_noise_loss_is_ln_2_witness :
  (noise_prob Example.noisy_trainer = 1 /\
   Example.pairs <> [] /\
   length [0] = length Example.pairs /\
   Forall (fun fr => length (Example.true_rewards (fst fr))
                     = length (Example.true_rewards (snd fr)))
          Example.pairs) /\
  _loss Example.true_rewards Example.noisy_trainer Example.pairs [0]
  = Ok (ln 2).
Proof.
  assert (H1 : noise_prob Example.noisy_trainer = 1) by reflexivity.
  assert (H2 : Example.pairs <> []) by discriminate.
  assert (H3 : length [0] = length Example.pairs) by reflexivity.
  assert (H4 : Forall (fun fr => length (Example.true_rewards (fst fr))
                                 = length (Example.true_rewards (snd fr)))
                 Example.pairs)
    by (repeat constructor).
  split; [auto|].
  exact (full_noise_loss_is_ln_2 Example.true_rewards Example.noisy_trainer
           Example.pairs [0] H1 H2 H3 H4).
Defined.

Lemma loss_is_symmetric_under_swap_witness :
  (0 <= threshold __init__ /\
   Forall (fun fr => length (Example.true_rewards (fst fr))
                     = length (Example.true_rewards (snd fr)))
          Example.pairs) /\
  _loss Example.true_rewards __init__
        (map (fun fr => (snd fr, fst fr)) Example.pairs)
        (map (fun y => 1 - y) [0])
  = _loss Example.true_rewards __init__ Example.pairs [0].
Proof.
  assert (H1 : 0 <= threshold __init__) by (simpl; lra).
  assert (H2 : Forall (fun fr => length (Example.true_rewards (fst fr))
                                 = length (Example.true_rewards (snd fr)))
                 Example.pairs)
    by (repeat constructor).
  split; [auto|].
  exact (loss_is_symmetric_under_swap Example.true_rewards __init__
           Example.pairs [0] H1 H2).
Defined.

Lemma loss_is_not_negative_witness :
  (Example.pairs <> [] /\ Forall (fun y => 0 <= y <= 1) [0]) /\
  exists loss,
    _loss Example.true_rewards __init__ Example.pairs [0] = Ok loss /\
    0 <= loss.
Proof.
  assert (H1 : Example.pairs <> []) by discriminate.
  assert (H2 : Forall (fun y => 0 <= y <= 1) [0])
    by (repeat constructor; lra).
  split; [auto|].
  destruct (loss_returns Example.true_rewards __init__ Example.pairs [0])
    as [loss Hloss].
  - simpl. lra.
  - reflexivity.
  - repeat constructor.
  - exists loss. split; [exact Hloss|].
    exact (loss_is_not_negative Example.true_rewards __init__
             Example.pairs [0] loss H1 H2 Hloss).
Defined.

End TrainerWitnesses.

(** ** PreferenceComparisons: runs that fail, and what no run does *)

Section GathererResults.
Context {Obs Act Info : Type}.
Local Abbreviation traj := (TrajectoryWithRew Obs Act Info).

Lemma array_well_shaped (dt : Np.dtype) (xs : list R) :
  Np.well_shaped (Np.array dt xs).
Proof. unfold Np.well_shaped, Np.array. simpl. lia. Qed.

(** Whatever the gatherer returns holds as many elements as its shape
    says. *)
Lemma gatherer_result_well_shaped (ga ga' : SyntheticGatherer.t)
    (fragments : list (traj * traj)) (prefs : Np.ndarray) :
  SyntheticGatherer.__call__ ga fragments = (Ok prefs, ga') ->
  Np.well_shaped prefs.
Proof.
  unfold SyntheticGatherer.__call__.
  destruct (SyntheticGatherer._reward_sums ga fragments) as [[r1 r2]|e];
    [|discriminate].
  destruct (Req_dec_T (SyntheticGatherer.temperature ga) 0) as [HT|HT].
  - destruct (Tensor.sub r1 r2) as [diff|e]; [|discriminate].
    intro H. inversion H. apply array_well_shaped.
  - destruct (SyntheticGatherer.model_probs_of ga _ _) as [probs|e];
      [|discriminate].
    cbn [SyntheticGatherer.sample SyntheticGatherer.set_logger
         SyntheticGatherer.rng].
    destruct (SyntheticGatherer.sample ga).
    + destruct (Np.binomial1 probs (SyntheticGatherer.rng ga)) as [draws g].
      intro H. inversion H. apply array_well_shaped.
    + intro H. inversion H. apply array_well_shaped.
Qed.

(** Asked for no pairs, the fragmenter returns none. *)
Lemma fragmenter_call_no_pairs (fr : RandomFragmenter.t)
    (trajectories : list traj) :
  RandomFragmenter.num_pairs fr <= 0 ->
  Exists (fun tr => RandomFragmenter.fragment_length fr <= traj_len tr)
         trajectories ->
  exists fr', RandomFragmenter.__call__ fr trajectories = (Ok [], fr').
Proof.
  intros Hnp Hex.
  assert (Hne : RandomFragmenter.long_enough fr trajectories <> []).
  { apply Exists_exists in Hex. destruct Hex as [tr [Hin Hlen]].
    intro Hnil.
    assert (Hin' : In tr (RandomFragmenter.long_enough fr trajectories))
      by (apply long_enough_In; auto).
    rewrite Hnil in Hin'. exact Hin'. }
  unfold RandomFragmenter.__call__.
  destruct (Z.eqb_spec (len (RandomFragmenter.long_enough fr trajectories)) 0)
    as [Hz|_].
  { apply len_zero_nil in Hz. contradiction. }
  set (l := RandomFragmenter.long_enough fr trajectories).
  set (fr1 := RandomFragmenter.report_transitions _ _).
  destruct (reports_keep_settings fr (len trajectories) l (map traj_len l))
    as [_ [Hk _]].
  fold fr1 in Hk.
  replace (Z.to_nat (2 * RandomFragmenter.num_pairs fr1)) with 0%nat by lia.
  cbn [RandomFragmenter.draw_fragments zip_iter_self]. eauto.
Qed.

End GathererResults.

Section OrchestratorMore.
Context {Obs Act Info Ext : Type}.
Import PreferenceComparisons.
Local Abbreviation traj := (TrajectoryWithRew Obs Act Info).
Local Abbreviation dataset_t := (PreferenceDataset.t Obs Act Info).
Local Abbreviation self_t :=
  (PreferenceComparisons.t (Obs:=Obs) (Act:=Act) (Info:=Info) Ext).
Local Abbreviation body :=
  (PreferenceComparisons.M (Obs:=Obs) (Act:=Act) (Info:=Info) Ext).

(** *** Bodies that only ever append to the dataset *)

Lemma append_only_unchanged {A} (c : body A) :
  (forall self r self', c self = (r, self') -> dataset self' = dataset self) ->
  append_only c.
Proof.
  intros Hc self r self' Hrun Hcons.
  rewrite (Hc self r self' Hrun).
  split; [exact Hcons|]. exists 0%nat. apply extends_by_refl.
Qed.

Lemma append_only_bind {A B} (c : body A) (k : A -> body B)
    (phi : A -> Prop) :
  append_only c ->
  (forall self a self', c self = (Ok a, self') -> phi a) ->
  (forall a, phi a -> append_only (k a)) ->
  append_only (mbind c k).
Proof.
  intros Hc Hphi Hk self r self' Hrun Hcons. unfold mbind in Hrun.
  destruct (c self) as [[a|e] self1] eqn:Hc1.
  - destruct (Hc self (Ok a) self1 Hc1 Hcons) as [Hcons1 [k1 Hext1]].
    destruct (Hk a (Hphi self a self1 Hc1) self1 r self' Hrun Hcons1)
      as [Hcons2 [k2 Hext2]].
    split; [exact Hcons2|]. exists (k1 + k2)%nat.
    eapply extends_by_trans; eassumption.
  - inversion Hrun; subst. exact (Hc self (Raise e) self' Hc1 Hcons).
Qed.

Lemma append_only_seq {A B} (c : body A) (k : A -> body B) :
  append_only c -> (forall a, append_only (k a)) ->
  append_only (mbind c k).
Proof.
  intros Hc Hk. apply append_only_bind with (phi := fun _ => True); auto.
Qed.

Lemma append_only_emit (ev : Logger.event) :
  append_only (emit ev : body unit).
Proof.
  apply append_only_unchanged. intros self r self' H.
  unfold emit in H. inversion H. reflexivity.
Qed.

Lemma append_only_get {A} (proj : self_t -> A) : append_only (get proj).
Proof.
  apply append_only_unchanged. intros self r self' H.
  unfold get in H. inversion H. reflexivity.
Qed.

Lemma append_only_lift {A} (r : result A) : append_only (lift r : body A).
Proof.
  apply append_only_unchanged. intros self r' self' H.
  unfold lift in H. inversion H. reflexivity.
Qed.

Lemma append_only_ret {A} (a : A) : append_only (ret a : body A).
Proof.
  apply append_only_unchanged. intros self r' self' H.
  unfold ret in H. inversion H. reflexivity.
Qed.

Lemma append_only_call_ext {A} (c : ext_call Ext A) :
  append_only (call_ext c : body A).
Proof.
  apply append_only_unchanged. intros self r self' H.
  unfold call_ext in H.
  destruct (c (ext self) (logger self)) as [[r0 ext'] l'].
  inversion H. reflexivity.
Qed.

Lemma append_only_call_fragmenter (trajectories : list traj) :
  append_only (call_fragmenter (Ext:=Ext) trajectories).
Proof.
  apply append_only_unchanged. intros self r self' H.
  unfold call_fragmenter in H.
  destruct (RandomFragmenter.__call__ _ trajectories) as [r0 fr'].
  inversion H. reflexivity.
Qed.

Lemma append_only_call_gatherer (fragments : list (traj * traj)) :
  append_only (call_gatherer (Ext:=Ext) fragments).
Proof.
  apply append_only_unchanged. intros self r self' H.
  unfold call_gatherer in H.
  destruct (SyntheticGatherer.__call__ _ fragments) as [r0 ga'].
  inversion H. reflexivity.
Qed.

Lemma call_gatherer_well_shaped (fragments : list (traj * traj))
    (self self' : self_t) (prefs : Np.ndarray) :
  call_gatherer fragments self = (Ok prefs, self') -> Np.well_shaped prefs.
Proof.
  unfold call_gatherer.
  destruct (SyntheticGatherer.__call__ _ fragments) as [r0 ga'] eqn:Hcall.
  intro H. inversion H; subst.
  eapply gatherer_result_well_shaped. exact Hcall.
Qed.

Lemma append_only_accumulate_means {A} (prefix : string) (c : body A) :
  append_only c -> append_only (accumulate_means prefix c).
Proof.
  intros Hc self r self' Hrun Hcons.
  unfold accumulate_means, emit in Hrun.
  match type of Hrun with
  | context [c ?s] => destruct (c s) as [r1 self2] eqn:Hc1
  end.
  inversion Hrun; subst. clear Hrun.
  exact (Hc _ _ _ Hc1 Hcons).
Qed.

Lemma accumulate_means_value {A} (prefix : string) (c : body A)
    (phi : A -> Prop) :
  (forall self a self', c self = (Ok a, self') -> phi a) ->
  forall self a self',
    accumulate_means prefix c self = (Ok a, self') -> phi a.
Proof.
  intros Hc self a self' Hrun. unfold accumulate_means, emit in Hrun.
  match type of Hrun with
  | context [c ?s] => destruct (c s) as [r1 self2] eqn:Hc1
  end.
  inversion Hrun; subst. eapply Hc. exact Hc1.
Qed.

Lemma append_only_dataset_push (fragments : list (traj * traj))
    (prefs : Np.ndarray) :
  Np.well_shaped prefs ->
  append_only (dataset_push (Ext:=Ext) fragments prefs).
Proof.
  intros Hwell self r self' Hrun Hcons. unfold dataset_push in Hrun.
  destruct (PreferenceDataset.push (dataset self) fragments prefs)
    as [r0 d'] eqn:Hpush.
  inversion Hrun; subst. clear Hrun. cbn [dataset].
  destruct (push_step (dataset self) fragments prefs Hcons Hwell)
    as [[e Hraise] | [d1 [Hok [Hcons1 _]]]].
  - rewrite Hraise in Hpush. inversion Hpush; subst.
    split; [exact Hcons|]. exists 0%nat. apply extends_by_refl.
  - rewrite Hok in Hpush. inversion Hpush; subst.
    split; [exact Hcons1|].
    destruct (push_ok_inv _ _ _ _ Hok) as [Hne [Hs Hd]].
    rewrite (push_ok _ _ _ Hcons Hne Hs Hd) in Hok.
    inversion Hok as [Hd1]. clear Hok.
    exists (length fragments).
    exists (fst (List.split fragments)), (snd (List.split fragments)),
           (Np.data prefs).
    cbn [PreferenceDataset.fragments1 PreferenceDataset.fragments2
         PreferenceDataset.preferences Np.data].
    rewrite split_as_maps. cbn [fst snd]. rewrite !length_map.
    unfold Np.well_shaped in Hwell. rewrite Hs in Hwell. simpl in Hwell.
    repeat split; lia.
Qed.

(** *** The loop, in any surroundings *)

Variable trajectory_generator_sample : Z -> ext_call Ext (list traj).
Variable _check_fixed_horizon : list traj -> ext_call Ext unit.
Variable reward_trainer_train : dataset_t -> ext_call Ext unit.
Variable trajectory_generator_train : Z -> ext_call Ext unit.

Local Abbreviation train_iteration :=
  (PreferenceComparisons.train_iteration trajectory_generator_sample
     _check_fixed_horizon reward_trainer_train trajectory_generator_train).
Local Abbreviation train_from :=
  (PreferenceComparisons.train_from trajectory_generator_sample
     _check_fixed_horizon reward_trainer_train trajectory_generator_train).
Local Abbreviation train :=
  (PreferenceComparisons.train trajectory_generator_sample
     _check_fixed_horizon reward_trainer_train trajectory_generator_train).

Lemma append_only_train_iteration (i : Z) : append_only (train_iteration i).
Proof.
  unfold PreferenceComparisons.train_iteration.
  apply append_only_seq; [apply append_only_get | intros steps].
  apply append_only_seq; [apply append_only_emit | intros ?].
  apply append_only_seq; [apply append_only_call_ext | intros trajectories].
  apply append_only_seq; [apply append_only_call_ext | intros ?].
  apply append_only_seq; [apply append_only_emit | intros ?].
  apply append_only_seq; [apply append_only_call_fragmenter | intros fragments].
  apply append_only_bind with (phi := Np.well_shaped).
  { apply append_only_accumulate_means.
    apply append_only_seq; [apply append_only_emit | intros ?].
    apply append_only_call_gatherer. }
  { apply accumulate_means_value. intros self prefs self' Hrun.
    unfold mbind, emit in Hrun.
    eapply call_gatherer_well_shaped. exact Hrun. }
  intros preferences Hwell.
  apply append_only_seq;
    [apply append_only_dataset_push, Hwell | intros ?].
  apply append_only_seq; [apply append_only_get | intros d].
  apply append_only_seq; [apply append_only_lift | intros n].
  apply append_only_seq; [apply append_only_emit | intros ?].
  apply append_only_seq.
  { apply append_only_accumulate_means.
    apply append_only_seq; [apply append_only_emit | intros ?].
    apply append_only_seq; [apply append_only_get | intros d1].
    apply append_only_call_ext. }
  intros ?.
  apply append_only_seq.
  { apply append_only_accumulate_means.
    apply append_only_seq; [apply append_only_get | intros steps'].
    apply append_only_seq; [apply append_only_emit | intros ?].
    apply append_only_call_ext. }
  intros ?. apply append_only_emit.
Qed.

Lemma append_only_train_from (turns : nat) :
  forall i, append_only (train_from i turns).
Proof.
  induction turns as [|turns IH]; intro i;
    cbn [PreferenceComparisons.train_from].
  - apply append_only_ret.
  - apply append_only_seq; [apply append_only_train_iteration | intros ?].
    apply IH.
Qed.

(** Entries that were in a dataset are read back unchanged from a dataset
    that extends it. *)
Lemma extends_by_getitem (k : nat) (d d' : dataset_t) (i : Z) :
  PreferenceDataset.consistent d ->
  PreferenceDataset.consistent d' ->
  PreferenceDataset.extends_by k d d' ->
  0 <= i < len (PreferenceDataset.fragments1 d) ->
  PreferenceDataset.__getitem__ d' i = PreferenceDataset.__getitem__ d i.
Proof.
  intros [H12 [Hshape Hdata]] [_ [Hshape' _]]
         [new1 [new2 [newp [_ [_ [_ [E1 [E2 E3]]]]]]]] Hi.
  unfold PreferenceDataset.__getitem__, Np.getitem.
  rewrite E1, E2, Hshape, Hshape', E3.
  rewrite !getitem_app_old by (unfold len in *; lia).
  reflexivity.
Qed.

(** The dataset is append-only under [train], on every run: whatever the
    trajectory generator, the horizon check and the trainers do, and whether
    the run completes or raises in the middle of an iteration, a dataset
    that was consistent before is consistent afterwards and holds all its
    old entries, in their order, possibly followed by new ones: every
    index of the old dataset reads the same entry as before. *)
Theorem train_never_removes_entries
    (iterations : Z) (self self' : self_t) (r : result unit) :
  train iterations self = (r, self') ->
  PreferenceDataset.consistent (dataset self) ->
  PreferenceDataset.consistent (dataset self') /\
  (exists k, PreferenceDataset.extends_by k (dataset self) (dataset self')) /\
  forall i, 0 <= i < len (PreferenceDataset.fragments1 (dataset self)) ->
    PreferenceDataset.__getitem__ (dataset self') i
    = PreferenceDataset.__getitem__ (dataset self) i.
Proof.
  intros Hrun Hcons.
  destruct (append_only_train_from (Z.to_nat iterations) 0 self r self'
              Hrun Hcons) as [Hcons' [k Hext]].
  split; [exact Hcons'|]. split; [eauto|].
  intros i Hi. exact (extends_by_getitem k _ _ i Hcons Hcons' Hext Hi).
Qed.

End OrchestratorMore.

Section OrchestratorFailures.
Context {Obs Act Info Ext : Type}.
Import PreferenceComparisons.
Local Abbreviation traj := (TrajectoryWithRew Obs Act Info).
Local Abbreviation dataset_t := (PreferenceDataset.t Obs Act Info).
Local Abbreviation self_t :=
  (PreferenceComparisons.t (Obs:=Obs) (Act:=Act) (Info:=Info) Ext).
Local Abbreviation body :=
  (PreferenceComparisons.M (Obs:=Obs) (Act:=Act) (Info:=Info) Ext).

(** *** Runs that cannot complete *)

Variable trajectory_generator_sample : Z -> ext_call Ext (list traj).
Variable _check_fixed_horizon : list traj -> ext_call Ext unit.
Variable reward_trainer_train : dataset_t -> ext_call Ext unit.
Variable trajectory_generator_train : Z -> ext_call Ext unit.

Local Abbreviation train_iteration :=
  (PreferenceComparisons.train_iteration trajectory_generator_sample
     _check_fixed_horizon reward_trainer_train trajectory_generator_train).
Local Abbreviation train :=
  (PreferenceComparisons.train trajectory_generator_sample
     _check_fixed_horizon reward_trainer_train trajectory_generator_train).

Lemma train_starts_with_an_iteration (iterations : Z) (self : self_t)
    (e : exn) (self' : self_t) :
  0 < iterations ->
  train_iteration 0 self = (Raise e, self') ->
  train iterations self = (Raise e, self').
Proof.
  intros Hpos Hrun. unfold PreferenceComparisons.train.
  destruct (Z.to_nat iterations) as [|turns] eqn:Hn; [lia|].
  cbn [PreferenceComparisons.train_from]. unfold mbind. rewrite Hrun.
  reflexivity.
Qed.

(** When no trajectory that the generator samples is as long as a
    fragment, nothing can be learned: in the first iteration the sample
    passes the horizon check and reaches the fragmenter, which raises its
    [ValueError].  The announcement of the fragment pairs is the last
    entry of the log; the fragmenter has drawn nothing, and the gatherer
    and the dataset are as they were. *)
Theorem train_raises_without_long_trajectory
    (iterations : Z) (self : self_t) :
  0 < iterations ->
  (forall steps e l,
     exists trajectories e' l',
       trajectory_generator_sample steps e l = (Ok trajectories, e', l') /\
       Forall (fun tr => traj_len tr
                         < RandomFragmenter.fragment_length (fragmenter self))
              trajectories) ->
  (forall trajectories e l,
     exists e' l', _check_fixed_horizon trajectories e l = (Ok tt, e', l')) ->
  exists self' l,
    train iterations self
    = (Raise (ValueError
         "No trajectories are long enough for the desired fragment length"),
       self') /\
    logger self' = l ++ [Logger.log Logger.CreatingFragmentPairs] /\
    RandomFragmenter.rng (fragmenter self')
    = RandomFragmenter.rng (fragmenter self) /\
    preference_gatherer self' = preference_gatherer self /\
    dataset self' = dataset self.
Proof.
  intros Hpos Hsample Hcheck.
  assert (Hrun : exists self' l,
            train_iteration 0 self
            = (Raise (ValueError
                 "No trajectories are long enough for the desired fragment length"),
               self') /\
            logger self' = l ++ [Logger.log Logger.CreatingFragmentPairs] /\
            RandomFragmenter.rng (fragmenter self')
            = RandomFragmenter.rng (fragmenter self) /\
            preference_gatherer self' = preference_gatherer self /\
            dataset self' = dataset self).
  { unfold PreferenceComparisons.train_iteration, mbind, get, emit, call_ext,
      call_fragmenter, Logger.emit.
    cbn [ext logger sample_steps agent_steps dataset fragmenter
         preference_gatherer].
    match goal with
    | |- context [trajectory_generator_sample ?s ?e ?l] =>
        destruct (Hsample s e l) as [trajectories [e1 [l1 [Hs Hshort]]]];
        rewrite Hs
    end.
    cbn [ext logger sample_steps agent_steps dataset fragmenter
         preference_gatherer].
    destruct (Hcheck trajectories e1 l1) as [e2 [l2 Hc]]. rewrite Hc.
    cbn [ext logger sample_steps agent_steps dataset fragmenter
         preference_gatherer].
    unfold RandomFragmenter.__call__.
    rewrite long_enough_none by exact Hshort.
    cbn. eexists. exists l2. split; [reflexivity|]. cbn. auto. }
  destruct Hrun as [self' [l [Hrun Hsame]]].
  exists self', l. split; [|exact Hsame].
  apply train_starts_with_an_iteration; assumption.
Qed.

(** A fragmenter that is asked for no pairs stops the run as well, one
    step later.  With [num_pairs <= 0], a sample that holds a trajectory
    long enough for a fragment and a horizon check that passes, the
    fragmenter returns the empty list; the gatherer is entered with it and
    raises the [ValueError] of its unpacking.  The log ends with the
    scope of the gatherer, entered and left; the gatherer has drawn
    nothing and the dataset is as it was. *)
Theorem train_raises_when_no_pairs_are_requested
    (iterations : Z) (self : self_t) :
  0 < iterations ->
  RandomFragmenter.num_pairs (fragmenter self) <= 0 ->
  (forall steps e l,
     exists trajectories e' l',
       trajectory_generator_sample steps e l = (Ok trajectories, e', l') /\
       Exists (fun tr => RandomFragmenter.fragment_length (fragmenter self)
                         <= traj_len tr) trajectories) ->
  (forall trajectories e l,
     exists e' l', _check_fixed_horizon trajectories e l = (Ok tt, e', l')) ->
  exists self' (trajectories : list traj) l,
    train iterations self
    = (Raise (ValueError "not enough values to unpack (expected 2, got 0)"),
       self') /\
    RandomFragmenter.__call__
      (RandomFragmenter.set_logger (fragmenter self) l) trajectories
    = (Ok [], fragmenter self') /\
    logger self'
    = RandomFragmenter.logger (fragmenter self')
      ++ [Logger.accumulate_means_enter "preferences";
          Logger.log Logger.GatheringPreferences;
          Logger.accumulate_means_exit "preferences"] /\
    SyntheticGatherer.rng (preference_gatherer self')
    = SyntheticGatherer.rng (preference_gatherer self) /\
    dataset self' = dataset self.
Proof.
  intros Hpos HNP Hsample Hcheck.
  assert (Hrun : exists self' (trajectories : list traj) l,
            train_iteration 0 self
            = (Raise (ValueError
                 "not enough values to unpack (expected 2, got 0)"), self') /\
            RandomFragmenter.__call__
              (RandomFragmenter.set_logger (fragmenter self) l) trajectories
            = (Ok [], fragmenter self') /\
            logger self'
            = RandomFragmenter.logger (fragmenter self')
              ++ [Logger.accumulate_means_enter "preferences";
                  Logger.log Logger.GatheringPreferences;
                  Logger.accumulate_means_exit "preferences"] /\
            SyntheticGatherer.rng (preference_gatherer self')
            = SyntheticGatherer.rng (preference_gatherer self) /\
            dataset self' = dataset self).
  { unfold PreferenceComparisons.train_iteration, mbind, get, emit, call_ext,
      call_fragmenter, accumulate_means, call_gatherer, emit, Logger.emit.
    cbn [ext logger sample_steps agent_steps dataset fragmenter
         preference_gatherer].
    match goal with
    | |- context [trajectory_generator_sample ?s ?e ?l] =>
        destruct (Hsample s e l) as [trajectories [e1 [l1 [Hs Hlong]]]];
        rewrite Hs
    end.
    cbn [ext logger sample_steps agent_steps dataset fragmenter
         preference_gatherer].
    destruct (Hcheck trajectories e1 l1) as [e2 [l2 Hc]]. rewrite Hc.
    cbn [ext logger sample_steps agent_steps dataset fragmenter
         preference_gatherer].
    match goal with
    | |- context [RandomFragmenter.__call__ ?fr trajectories] =>
        destruct (fragmenter_call_no_pairs fr trajectories HNP Hlong)
          as [fr' Hcall]; rewrite Hcall
    end.
    cbn [ext logger sample_steps agent_steps dataset fragmenter
         preference_gatherer].
    unfold SyntheticGatherer.__call__, SyntheticGatherer._reward_sums.
    cbn [map unzip2].
    cbn [ext logger sample_steps agent_steps dataset fragmenter
         preference_gatherer].
    eexists. exists trajectories. eexists.
    split; [reflexivity|].
    cbn [ext logger sample_steps agent_steps dataset fragmenter
         preference_gatherer SyntheticGatherer.rng
         SyntheticGatherer.set_logger SyntheticGatherer.logger].
    split; [exact Hcall|]. rewrite <- !app_assoc. cbn [app]. auto. }
  destruct Hrun as [self' [trajectories [l [Hrun Hsame]]]].
  exists self', trajectories, l. split; [|exact Hsame].
  apply train_starts_with_an_iteration; assumption.
Qed.

(** A horizon check that raises ends the run with its exception before a
    single fragment is drawn: the fragmenter with its generator, the
    gatherer and the dataset are as they were. *)
Theorem failed_horizon_check_aborts_the_run
    (iterations : Z) (self : self_t) (failure : exn) :
  0 < iterations ->
  (forall steps e l,
     exists trajectories e' l',
       trajectory_generator_sample steps e l = (Ok trajectories, e', l')) ->
  (forall trajectories e l,
     exists e' l',
       _check_fixed_horizon trajectories e l = (Raise failure, e', l')) ->
  exists self',
    train iterations self = (Raise failure, self') /\
    fragmenter self' = fragmenter self /\
    preference_gatherer self' = preference_gatherer self /\
    dataset self' = dataset self.
Proof.
  intros Hpos Hsample Hcheck.
  assert (Hrun : exists self',
            train_iteration 0 self = (Raise failure, self') /\
            fragmenter self' = fragmenter self /\
            preference_gatherer self' = preference_gatherer self /\
            dataset self' = dataset self).
  { unfold PreferenceComparisons.train_iteration.
    unfold mbind at 1. cbn [get].
    unfold mbind at 1. cbn [emit].
    unfold mbind at 1. unfold call_ext at 1. cbn [ext logger].
    match goal with
    | |- context [trajectory_generator_sample ?s ?e ?l] =>
        destruct (Hsample s e l) as [trajectories [e1 [l1 Hs]]]; rewrite Hs
    end.
    unfold mbind at 1. unfold call_ext at 1. cbn [ext logger].
    destruct (Hcheck trajectories e1 l1) as [e2 [l2 Hc]]. rewrite Hc.
    eexists. split; [reflexivity|]. cbn. auto. }
  destruct Hrun as [self' [Hrun Hsame]].
  exists self'. split; [|exact Hsame].
  apply train_starts_with_an_iteration; assumption.
Qed.

End OrchestratorFailures.

Section OrchestratorWitnesses.
Import PreferenceComparisons.

Lemma train_never_removes_entries_witness :
  PreferenceDataset.consistent (dataset Example.orchestrator_with_data) /\
  PreferenceDataset.consistent
    (dataset (snd (train Example.sample Example.check Example.reward_train
                     Example.agent_train 2 Example.orchestrator_with_data))) /\
  (exists k,
     PreferenceDataset.extends_by k (dataset Example.orchestrator_with_data)
       (dataset (snd (train Example.sample Example.check Example.reward_train
                        Example.agent_train 2
                        Example.orchestrator_with_data)))) /\
  PreferenceDataset.__getitem__
    (dataset (snd (train Example.sample Example.check Example.reward_train
                     Example.agent_train 2 Example.orchestrator_with_data))) 0
  = Ok ((Example.trajectory, Example.short_trajectory), 1%R).
Proof.
  assert (H : PreferenceDataset.consistent
                (dataset Example.orchestrator_with_data))
    by (unfold PreferenceDataset.consistent; simpl; auto).
  split; [exact H|].
  destruct (train_never_removes_entries Example.sample Example.check
              Example.reward_train Example.agent_train 2
              Example.orchestrator_with_data
              _ _ (surjective_pairing _) H) as [Hcons [Hext Hget]].
  split; [exact Hcons|]. split; [exact Hext|].
  rewrite Hget; [reflexivity|]. unfold len. simpl. lia.
Defined.

Lemma train_raises_without_long_trajectory_witness :
  (0 < 3 /\
   (forall steps e l,
      exists trajectories e' l',
        Example.sample_short steps e l = (Ok trajectories, e', l') /\
        Forall (fun tr =>
                  traj_len tr
                  < RandomFragmenter.fragment_length
                      (fragmenter Example.orchestrator)) trajectories) /\
   (forall trajectories e l,
      exists e' l', Example.check trajectories e l = (Ok tt, e', l'))) /\
  exists self',
    train Example.sample_short Example.check Example.reward_train
      Example.agent_train 3 Example.orchestrator
    = (Raise (ValueError
         "No trajectories are long enough for the desired fragment length"),
       self') /\
    logger self'
    = [Logger.log (Logger.Collecting 100);
       Logger.log Logger.CreatingFragmentPairs] /\
    dataset self' = dataset Example.orchestrator.
Proof.
  assert (H1 : 0 < 3) by lia.
  assert (H2 : forall steps e l,
            exists trajectories e' l',
              Example.sample_short steps e l = (Ok trajectories, e', l') /\
              Forall (fun tr =>
                        traj_len tr
                        < RandomFragmenter.fragment_length
                            (fragmenter Example.orchestrator)) trajectories).
  { intros steps e l. exists [Example.short_trajectory], e, l.
    split; [reflexivity|]. repeat constructor. }
  assert (H3 : forall trajectories e l,
            exists e' l', Example.check trajectories e l = (Ok tt, e', l'))
    by (intros; eexists; eexists; reflexivity).
  split; [repeat split; auto|].
  destruct (train_raises_without_long_trajectory Example.sample_short
              Example.check Example.reward_train Example.agent_train
              3 Example.orchestrator H1 H2 H3)
    as [self' [l [Hrun [_ [_ [_ Hd]]]]]].
  exists self'. split; [exact Hrun|]. split; [|exact Hd].
  assert (Hself : self'
                  = snd (train Example.sample_short Example.check
                           Example.reward_train Example.agent_train 3
                           Example.orchestrator))
    by (rewrite Hrun; reflexivity).
  rewrite Hself. reflexivity.
Defined.

Lemma train_raises_when_no_pairs_are_requested_witness :
  (0 < 3 /\
   RandomFragmenter.num_pairs (fragmenter Example.orchestrator_no_pairs) <= 0 /\
   (forall steps e l,
      exists trajectories e' l',
        Example.sample steps e l = (Ok trajectories, e', l') /\
        Exists (fun tr =>
                  RandomFragmenter.fragment_length
                    (fragmenter Example.orchestrator_no_pairs)
                  <= traj_len tr) trajectories) /\
   (forall trajectories e l,
      exists e' l', Example.check trajectories e l = (Ok tt, e', l'))) /\
  exists self',
    train Example.sample Example.check Example.reward_train
      Example.agent_train 3 Example.orchestrator_no_pairs
    = (Raise (ValueError "not enough values to unpack (expected 2, got 0)"),
       self') /\
    logger self'
    = [Logger.log (Logger.Collecting 100);
       Logger.log Logger.CreatingFragmentPairs;
       Logger.accumulate_means_enter "preferences";
       Logger.log Logger.GatheringPreferences;
       Logger.accumulate_means_exit "preferences"] /\
    dataset self' = dataset Example.orchestrator_no_pairs.
Proof.
  assert (H1 : 0 < 3) by lia.
  assert (H0 : RandomFragmenter.num_pairs
                 (fragmenter Example.orchestrator_no_pairs) <= 0)
    by (simpl; lia).
  assert (H2 : forall steps e l,
            exists trajectories e' l',
              Example.sample steps e l = (Ok trajectories, e', l') /\
              Exists (fun tr =>
                        RandomFragmenter.fragment_length
                          (fragmenter Example.orchestrator_no_pairs)
                        <= traj_len tr) trajectories).
  { intros steps e l. exists [Example.long_trajectory], e, l.
    split; [reflexivity|]. apply Exists_cons_hd. vm_compute. discriminate. }
  assert (H3 : forall trajectories e l,
            exists e' l', Example.check trajectories e l = (Ok tt, e', l'))
    by (intros; eexists; eexists; reflexivity).
  split; [repeat split; auto|].
  destruct (train_raises_when_no_pairs_are_requested Example.sample
              Example.check Example.reward_train Example.agent_train
              3 Example.orchestrator_no_pairs H1 H0 H2 H3)
    as [self' [trajectories [l [Hrun [_ [_ [_ Hd]]]]]]].
  exists self'. split; [exact Hrun|]. split; [|exact Hd].
  assert (Hself : self'
                  = snd (train Example.sample Example.check
                           Example.reward_train Example.agent_train 3
                           Example.orchestrator_no_pairs))
    by (rewrite Hrun; reflexivity).
  rewrite Hself. vm_compute. reflexivity.
Defined.

Lemma failed_horizon_check_aborts_the_run_witness :
  (0 < 3 /\
   (forall steps e l,
      exists trajectories e' l',
        Example.sample steps e l = (Ok trajectories, e', l')) /\
   (forall trajectories e l,
      exists e' l',
        Example.failing_check trajectories e l
        = (Raise (ValueError "variable horizon"), e', l'))) /\
  exists self',
    train Example.sample Example.failing_check Example.reward_train
      Example.agent_train 3 Example.orchestrator
    = (Raise (ValueError "variable horizon"), self') /\
    fragmenter self' = fragmenter Example.orchestrator /\
    preference_gatherer self' = preference_gatherer Example.orchestrator /\
    dataset self' = dataset Example.orchestrator.
Proof.
  assert (H1 : 0 < 3) by lia.
  assert (H2 : forall steps e l,
            exists trajectories e' l',
              Example.sample steps e l = (Ok trajectories, e', l'))
    by (intros; eexists; eexists; eexists; reflexivity).
  assert (H3 : forall trajectories e l,
            exists e' l',
              Example.failing_check trajectories e l
              = (Raise (ValueError "variable horizon"), e', l'))
    by (intros; eexists; eexists; reflexivity).
  split; [auto|].
  exact (failed_horizon_check_aborts_the_run Example.sample
           Example.failing_check Example.reward_train Example.agent_train
           3 Example.orchestrator _ H1 H2 H3).
Defined.

End OrchestratorWitnesses.
